(** * HyperDB: the ledger engine and its linkage to the record store

    A shallow embedding of [blockchain.py] (classes [Block] and [Blockchain])
    and of [src/core/hyperledger_integrated_db.py] (class
    [HyperledgerIntegratedDB]), followed by the properties of the
    specification that concern them.

    Conventions of the embedding.
    - Python values that travel through payloads are the type [pyval]; a
      Python [dict] is an association list in insertion order.
    - Text is a [string] of characters below 256; [str.lower] acts on the
      letters A to Z.
    - A Python [float] is represented by the decimal numeral that [repr]
      prints for it in positional notation.
    - [hashlib.sha256] and [json.dumps] are implemented, so that block
      hashes can be evaluated.
    - The unbounded proof-of-work loop takes a fuel argument; [None] as
      the outcome of a fuelled function means that the fuel did not suffice
      to reach the end of the search.
    - [time.time()] and [uuid.uuid4()] are read from the streams [clock]
      and [uuids] carried by the state.
    - The SQLite connection is the four tables as the session sees them. *)

From Stdlib Require Import ZArith List String Ascii Bool Lia Arith DecimalString.
From stdpp Require Import gmap strings.
Import ListNotations.
Local Open Scope string_scope.
Local Open Scope Z_scope.

(** ** SHA-256 (FIPS 180-4), as used through [hashlib.sha256(..).hexdigest()] *)

Module SHA256.

Definition mask32 : Z := 0xffffffff.

Definition add32 (x y : Z) : Z := Z.land (x + y) mask32.

Definition rotr (n x : Z) : Z :=
  Z.lor (Z.shiftr x n) (Z.land (Z.shiftl x (32 - n)) mask32).

Definition not32 (x : Z) : Z := Z.lxor x mask32.

Definition Ch (x y z : Z) : Z := Z.lxor (Z.land x y) (Z.land (not32 x) z).

Definition Maj (x y z : Z) : Z :=
  Z.lxor (Z.lxor (Z.land x y) (Z.land x z)) (Z.land y z).

Definition bsig0 (x : Z) : Z := Z.lxor (Z.lxor (rotr 2 x) (rotr 13 x)) (rotr 22 x).
Definition bsig1 (x : Z) : Z := Z.lxor (Z.lxor (rotr 6 x) (rotr 11 x)) (rotr 25 x).
Definition ssig0 (x : Z) : Z := Z.lxor (Z.lxor (rotr 7 x) (rotr 18 x)) (Z.shiftr x 3).
Definition ssig1 (x : Z) : Z := Z.lxor (Z.lxor (rotr 17 x) (rotr 19 x)) (Z.shiftr x 10).

(** The round constants are the first 32 bits of the fractional parts of
    the cube roots of the first 64 primes, the initial hash value those of
    the square roots of the first 8 primes. *)

Definition is_prime (n : nat) : bool :=
  (1 <? n)%nat
  && forallb (fun d => negb (Nat.eqb (n mod d) 0)) (List.seq 2 (n - 2)).

Definition primes : list Z :=
  List.map Z.of_nat (List.filter is_prime (List.seq 2 310)).

(** Largest [r] below [2 ^ bits] with [r ^ 3 <= n], one bit at a time. *)
Fixpoint cube_root (bits : nat) (n r : Z) : Z :=
  match bits with
  | O => r
  | S bits' =>
      let r' := r + Z.shiftl 1 (Z.of_nat bits') in
      cube_root bits' n (if r' * r' * r' <=? n then r' else r)
  end.

Definition K : list Z :=
  Eval vm_compute in
    List.map (fun p => Z.land (cube_root 36 (Z.shiftl p 96) 0) mask32) primes.

Definition H0 : list Z :=
  Eval vm_compute in
    List.map (fun p => Z.land (Z.sqrt (Z.shiftl p 64)) mask32) (firstn 8 primes).

(** Padding: the byte 0x80, zero bytes up to 56 modulo 64, then the bit
    length of the message as a 64-bit big-endian integer. *)

Fixpoint be_bytes (n : nat) (x : Z) : list Z :=
  match n with
  | O => []
  | S n' => Z.land (Z.shiftr x (8 * Z.of_nat n')) 0xff :: be_bytes n' x
  end.

Definition pad (msg : list Z) : list Z :=
  let len := Z.of_nat (List.length msg) in
  let zeros := Z.to_nat ((55 - len) mod 64) in
  msg ++ [0x80] ++ List.repeat 0 zeros ++ be_bytes 8 (8 * len).

Fixpoint be_word (bs : list Z) (acc : Z) : Z :=
  match bs with
  | [] => acc
  | b :: bs' => be_word bs' (Z.lor (Z.shiftl acc 8) b)
  end.

Fixpoint words_of (n : nat) (bs : list Z) : list Z :=
  match n with
  | O => []
  | S n' => be_word (firstn 4 bs) 0 :: words_of n' (skipn 4 bs)
  end.

(** The message schedule is kept most recent word first: [w] holds
    W(t-1), W(t-2), ... *)

Definition next_w (w : list Z) : Z :=
  add32 (add32 (ssig1 (nth 1 w 0)) (nth 6 w 0))
        (add32 (ssig0 (nth 14 w 0)) (nth 15 w 0)).

Fixpoint extend (n : nat) (w : list Z) : list Z :=
  match n with
  | O => w
  | S n' => extend n' (next_w w :: w)
  end.

Definition schedule (block : list Z) : list Z :=
  rev (extend 48 (rev (words_of 16 block))).

Record regs : Type := mkRegs
  { ra : Z; rb : Z; rc : Z; rd : Z; re : Z; rf : Z; rg : Z; rh : Z }.

Definition round (s : regs) (kw : Z * Z) : regs :=
  let t1 := add32 (add32 (add32 (rh s) (bsig1 (re s)))
                         (add32 (Ch (re s) (rf s) (rg s)) (fst kw))) (snd kw) in
  let t2 := add32 (bsig0 (ra s)) (Maj (ra s) (rb s) (rc s)) in
  mkRegs (add32 t1 t2) (ra s) (rb s) (rc s) (add32 (rd s) t1) (re s) (rf s) (rg s).

Definition compress (h : regs) (block : list Z) : regs :=
  let s := fold_left round (combine K (schedule block)) h in
  mkRegs (add32 (ra h) (ra s)) (add32 (rb h) (rb s)) (add32 (rc h) (rc s))
         (add32 (rd h) (rd s)) (add32 (re h) (re s)) (add32 (rf h) (rf s))
         (add32 (rg h) (rg s)) (add32 (rh h) (rh s)).

Fixpoint blocks (n : nat) (h : regs) (bs : list Z) : regs :=
  match n with
  | O => h
  | S n' => blocks n' (compress h (firstn 64 bs)) (skipn 64 bs)
  end.

Definition init : regs :=
  mkRegs (nth 0 H0 0) (nth 1 H0 0) (nth 2 H0 0) (nth 3 H0 0)
         (nth 4 H0 0) (nth 5 H0 0) (nth 6 H0 0) (nth 7 H0 0).

Definition digest (msg : list Z) : list Z :=
  let p := pad msg in
  let h := blocks (List.length p / 64)%nat init p in
  [ra h; rb h; rc h; rd h; re h; rf h; rg h; rh h].

Definition hex_digit (d : Z) : ascii :=
  if d <? 10 then ascii_of_N (Z.to_N (48 + d)) else ascii_of_N (Z.to_N (87 + d)).

Fixpoint hex_of (n : nat) (x : Z) : string :=
  match n with
  | O => EmptyString
  | S n' => String (hex_digit (Z.land (Z.shiftr x (4 * Z.of_nat n')) 0xf)) (hex_of n' x)
  end.

Definition bytes_of_string (s : string) : list Z :=
  List.map (fun c => Z.of_N (N_of_ascii c)) (list_ascii_of_string s).

Definition hexdigest (s : string) : string :=
  String.concat EmptyString (List.map (hex_of 8) (digest (bytes_of_string s))).

End SHA256.

(** ** Python values *)

(** A float, by the numeral [repr] prints: sign, integer part, and the
    digits after the point without trailing zeros (empty for [x.0]). *)
Record pyfloat : Type := mkFloat { fneg : bool; fint : N; ffrac : string }.

#[warnings="-register-all"]
Inductive pyval : Type :=
| PyNone
| PyBool (b : bool)
| PyInt (z : Z)
| PyFloat (f : pyfloat)
| PyStr (s : string)
| PyList (l : list pyval)
| PyDict (d : list (string * pyval)).

Abbreviation pydict := (list (string * pyval)).

(** *** [dict] operations *)

Fixpoint dict_get (k : string) (d : pydict) : option pyval :=
  match d with
  | [] => None
  | (k', v) :: d' => if String.eqb k k' then Some v else dict_get k d'
  end.

Definition dict_mem (k : string) (d : pydict) : bool :=
  match dict_get k d with Some _ => true | None => false end.

(** [d[k] = v]: replaces the value of an existing key where it stands,
    appends a new key at the end. *)
Fixpoint dict_set (k : string) (v : pyval) (d : pydict) : pydict :=
  match d with
  | [] => [(k, v)]
  | (k', v') :: d' =>
      if String.eqb k k' then (k', v) :: d' else (k', v') :: dict_set k v d'
  end.

(** *** [isinstance] *)

Definition is_str (v : pyval) : bool := match v with PyStr _ => true | _ => false end.
Definition is_bool (v : pyval) : bool := match v with PyBool _ => true | _ => false end.
(** [bool] is a subclass of [int]. *)
Definition is_int (v : pyval) : bool :=
  match v with PyInt _ | PyBool _ => true | _ => false end.
Definition is_float (v : pyval) : bool := match v with PyFloat _ => true | _ => false end.
Definition is_dict (v : pyval) : bool := match v with PyDict _ => true | _ => false end.
Definition is_list (v : pyval) : bool := match v with PyList _ => true | _ => false end.

(** *** Truth value *)

Definition float_is_zero (f : pyfloat) : bool :=
  N.eqb (fint f) 0 && String.eqb (ffrac f) EmptyString.

Definition py_truthy (v : pyval) : bool :=
  match v with
  | PyNone => false
  | PyBool b => b
  | PyInt z => negb (Z.eqb z 0)
  | PyFloat f => negb (float_is_zero f)
  | PyStr s => negb (String.eqb s EmptyString)
  | PyList l => match l with [] => false | _ => true end
  | PyDict d => match d with [] => false | _ => true end
  end.

(** *** Equality, [==] *)

Definition float_eqb (f g : pyfloat) : bool :=
  N.eqb (fint f) (fint g) && String.eqb (ffrac f) (ffrac g)
  && (Bool.eqb (fneg f) (fneg g) || float_is_zero f).

Definition float_eq_int (f : pyfloat) (z : Z) : bool :=
  String.eqb (ffrac f) EmptyString
  && Z.eqb (if fneg f then - Z.of_N (fint f) else Z.of_N (fint f)) z.

Inductive pynum : Type := NumInt (z : Z) | NumFloat (f : pyfloat).

Definition as_num (v : pyval) : option pynum :=
  match v with
  | PyBool b => Some (NumInt (if b then 1 else 0))
  | PyInt z => Some (NumInt z)
  | PyFloat f => Some (NumFloat f)
  | _ => None
  end.

Definition num_eq (x y : pynum) : bool :=
  match x, y with
  | NumInt a, NumInt b => Z.eqb a b
  | NumInt a, NumFloat g => float_eq_int g a
  | NumFloat f, NumInt b => float_eq_int f b
  | NumFloat f, NumFloat g => float_eqb f g
  end.

Fixpoint py_eq (a b : pyval) {struct a} : bool :=
  match a, b with
  | PyNone, PyNone => true
  | PyStr s, PyStr t => String.eqb s t
  | PyList l, PyList m =>
      (fix all2 (l m : list pyval) {struct l} : bool :=
         match l, m with
         | [], [] => true
         | x :: l', y :: m' => py_eq x y && all2 l' m'
         | _, _ => false
         end) l m
  | PyDict d, PyDict e =>
      Nat.eqb (List.length d) (List.length e)
      && (fix sub (d : pydict) {struct d} : bool :=
            match d with
            | [] => true
            | (k, v) :: d' =>
                match dict_get k e with
                | Some w => py_eq v w
                | None => false
                end && sub d'
            end) d
  | _, _ =>
      match as_num a, as_num b with
      | Some x, Some y => num_eq x y
      | _, _ => false
      end
  end.

(** *** Text *)

Definition lower_char (c : ascii) : ascii :=
  let n := N_of_ascii c in
  if (65 <=? n)%N && (n <=? 90)%N then ascii_of_N (n + 32) else c.

Fixpoint lower (s : string) : string :=
  match s with
  | EmptyString => EmptyString
  | String c s' => String (lower_char c) (lower s')
  end.

(** [a in b] on text. *)
Fixpoint str_in (a b : string) : bool :=
  if String.prefix a b then true
  else match b with
       | EmptyString => false
       | String _ b' => str_in a b'
       end.

(** [s * n] for a text [s]. *)
Definition str_mul (s : string) (n : Z) : string :=
  String.concat EmptyString (List.repeat s (Z.to_nat n)).

Fixpoint str_take (n : nat) (s : string) : string :=
  match n, s with
  | S n', String c s' => String c (str_take n' s')
  | _, _ => EmptyString
  end.

(** [s[:n]]: a negative bound counts from the end. *)
Definition slice_to (s : string) (n : Z) : string :=
  if n <? 0 then str_take (Z.to_nat (Z.of_nat (String.length s) + n)) s
  else str_take (Z.to_nat n) s.

(** ** [json.dumps] *)

Definition str_of_Z (z : Z) : string := NilZero.string_of_int (Z.to_int z).

Definition float_repr (f : pyfloat) : string :=
  (if fneg f then "-" else EmptyString)
  ++ NilZero.string_of_uint (N.to_uint (fint f)) ++ "."
  ++ (if String.eqb (ffrac f) EmptyString then "0" else ffrac f).

(** Escapes of the encoder with [ensure_ascii] (the default). *)
Definition backslash : ascii := "092"%char.

Definition json_escape_char (c : ascii) : string :=
  let n := N_of_ascii c in
  if (n =? 34)%N then String backslash (String c EmptyString)
  else if (n =? 92)%N then String backslash (String backslash EmptyString)
  else if (n =? 10)%N then String backslash "n"
  else if (n =? 13)%N then String backslash "r"
  else if (n =? 9)%N then String backslash "t"
  else if (n =? 8)%N then String backslash "b"
  else if (n =? 12)%N then String backslash "f"
  else if (n <? 32)%N || (126 <? n)%N
       then String backslash "u" ++ SHA256.hex_of 4 (Z.of_N n)
  else String c EmptyString.

Fixpoint json_escape (s : string) : string :=
  match s with
  | EmptyString => EmptyString
  | String c s' => json_escape_char c ++ json_escape s'
  end.

Definition json_str (s : string) : string :=
  String "034" (json_escape s) ++ String "034" EmptyString.

(** Insertion of a rendered item into a list ordered by key, as
    [sort_keys=True] orders the items of a dict. *)
Fixpoint insert_item (kv : string * string) (l : list (string * string))
  : list (string * string) :=
  match l with
  | [] => [kv]
  | kv' :: l' =>
      if String.leb (fst kv) (fst kv') then kv :: l else kv' :: insert_item kv l'
  end.

Definition sort_items (l : list (string * string)) : list (string * string) :=
  fold_right insert_item [] l.

Fixpoint json_dumps (sort_keys : bool) (v : pyval) {struct v} : string :=
  match v with
  | PyNone => "null"
  | PyBool b => if b then "true" else "false"
  | PyInt z => str_of_Z z
  | PyFloat f => float_repr f
  | PyStr s => json_str s
  | PyList l =>
      "[" ++ String.concat ", " (List.map (json_dumps sort_keys) l) ++ "]"
  | PyDict d =>
      let items :=
        (fix render (d : pydict) {struct d} : list (string * string) :=
           match d with
           | [] => []
           | (k, x) :: d' => (k, json_dumps sort_keys x) :: render d'
           end) d in
      let items := if sort_keys then sort_items items else items in
      "{" ++ String.concat ", "
               (List.map (fun kv => json_str (fst kv) ++ ": " ++ snd kv) items)
      ++ "}"
  end.

(** ** [blockchain.py]: class [Block] *)

Record Block : Type := mkBlock
  { index : Z;
    transactions : list pyval;
    timestamp : pyfloat;
    previous_hash : string;
    nonce : Z;
    hash : string }.

Definition calculate_hash (b : Block) : string :=
  let block_string :=
    json_dumps true
      (PyDict [ ("index", PyInt (index b));
                ("transactions", PyList (transactions b));
                ("timestamp", PyFloat (timestamp b));
                ("previous_hash", PyStr (previous_hash b));
                ("nonce", PyInt (nonce b)) ]) in
  SHA256.hexdigest block_string.

Arguments calculate_hash : simpl never.

(** [Block.__init__]: the hash is computed from the five fields. *)
Definition new_Block (index : Z) (transactions : list pyval)
    (timestamp : pyfloat) (previous_hash : string) (nonce : Z) : Block :=
  let b := mkBlock index transactions timestamp previous_hash nonce EmptyString in
  mkBlock index transactions timestamp previous_hash nonce (calculate_hash b).

Definition set_nonce (n : Z) (b : Block) : Block :=
  mkBlock (index b) (transactions b) (timestamp b) (previous_hash b) n (hash b).

Definition set_hash (h : string) (b : Block) : Block :=
  mkBlock (index b) (transactions b) (timestamp b) (previous_hash b) (nonce b) h.

(** ** [blockchain.py]: class [Blockchain] *)

Record Blockchain : Type := mkBlockchain
  { chain : list Block;
    difficulty : Z;
    pending_transactions : list pyval;
    mining_reward : Z }.

(** Outcome of a Python call: a value, or a raised exception. *)
Inductive result (A : Type) : Type :=
| Ok (a : A)
| Raise (msg : string).
Arguments Ok {A} a.
Arguments Raise {A} msg.

(** [Blockchain.__init__], with the reading of [time.time()] taken by
    [create_genesis_block]. *)
Definition new_Blockchain (difficulty : Z) (now : pyfloat) : Blockchain :=
  mkBlockchain [new_Block 0 [] now "0" 0] difficulty [] 10.

(** [self.chain[-1]]; an empty list raises [IndexError]. *)
Definition get_latest_block (bc : Blockchain) : result Block :=
  match List.last (List.map Some (chain bc)) None with
  | Some b => Ok b
  | None => Raise "IndexError: list index out of range"
  end.

(** [data or {}] *)
Definition or_empty_dict (data : pyval) : pyval :=
  if py_truthy data then data else PyDict [].

Definition make_transaction (sender recipient : string) (amount data : pyval)
    (now : pyfloat) : pyval :=
  PyDict [ ("sender", PyStr sender);
           ("recipient", PyStr recipient);
           ("amount", amount);
           ("data", data);
           ("timestamp", PyFloat now) ].

Definition add_transaction (sender recipient : string) (amount data : pyval)
    (now : pyfloat) (bc : Blockchain) : Z * Blockchain :=
  let transaction := make_transaction sender recipient amount (or_empty_dict data) now in
  (Z.of_nat (List.length (chain bc)) + 1,
   mkBlockchain (chain bc) (difficulty bc)
                (pending_transactions bc ++ [transaction]) (mining_reward bc)).

(** The test of the proof-of-work loop: [block.hash[:difficulty] != target]
    with [target = "0" * difficulty]. *)
Definition meets_target (d : Z) (b : Block) : bool :=
  String.eqb (slice_to (hash b) d) (str_mul "0" d).

(** One turn of the loop body. *)
Definition bump (b : Block) : Block :=
  let b' := set_nonce (nonce b + 1) b in
  set_hash (calculate_hash b') b'.

(** [Blockchain.mine_block]: [None] when [fuel] turns of the loop did not
    reach a hash that meets the target. *)
Fixpoint mine_block (fuel : nat) (d : Z) (block : Block) : option Block :=
  if meets_target d block then Some block
  else match fuel with
       | O => None
       | S fuel' => mine_block fuel' d (bump block)
       end.

Definition reward_transaction (miner_address : string) (reward : Z)
    (now : pyfloat) : pyval :=
  make_transaction "system" miner_address (PyInt reward) (PyDict []) now.

(** [Blockchain.mine_pending_transactions]; [now_block] and [now_reward]
    are the two readings of [time.time()], in the order they are taken. *)
Definition mine_pending_transactions (fuel : nat) (miner_address : string)
    (now_block now_reward : pyfloat) (bc : Blockchain)
  : option (result (Block * Blockchain)) :=
  match get_latest_block bc with
  | Raise e => Some (Raise e)
  | Ok latest =>
      let block := new_Block (Z.of_nat (List.length (chain bc)))
                             (pending_transactions bc) now_block (hash latest) 0 in
      match mine_block fuel (difficulty bc) block with
      | None => None
      | Some block =>
          Some (Ok (block,
                    mkBlockchain (chain bc ++ [block]) (difficulty bc)
                      [reward_transaction miner_address (mining_reward bc) now_reward]
                      (mining_reward bc)))
      end
  end.

(** [Blockchain.is_chain_valid]: the loop over [range(1, len(self.chain))],
    [i] being the current index and [steps] the number of turns left. *)
Fixpoint valid_from (c : list Block) (i steps : nat) : bool :=
  match steps with
  | O => true
  | S steps' =>
      match nth_error c i, nth_error c (i - 1) with
      | Some current_block, Some previous_block =>
          if negb (String.eqb (hash current_block) (calculate_hash current_block))
          then false
          else if negb (String.eqb (previous_hash current_block) (hash previous_block))
          then false
          else valid_from c (S i) steps'
      | _, _ => true
      end
  end.

Definition is_chain_valid (bc : Blockchain) : bool :=
  valid_from (chain bc) 1 (List.length (chain bc) - 1).

(** ** [hyperledger_integrated_db.py]: schemas *)

Record DataField : Type := mkDataField
  { f_name : string;
    f_type : string;
    f_required : bool;
    f_default : pyval;
    f_description : string }.

Record DataModel : Type := mkDataModel
  { m_name : string;
    m_fields : list DataField;
    m_description : string;
    m_created_at : pyfloat;
    m_version : string }.

(** [dataclasses.asdict(field)] *)
Definition asdict (field : DataField) : pyval :=
  PyDict [ ("name", PyStr (f_name field));
           ("type", PyStr (f_type field));
           ("required", PyBool (f_required field));
           ("default", f_default field);
           ("description", PyStr (f_description field)) ].

(** [DataModel.to_dict] *)
Definition to_dict (m : DataModel) : pydict :=
  [ ("name", PyStr (m_name m));
    ("fields", PyList (List.map asdict (m_fields m)));
    ("description", PyStr (m_description m));
    ("created_at", PyFloat (m_created_at m));
    ("version", PyStr (m_version m)) ].

(** A field specification as [create_data_model] receives it: a dict
    with the keys [name] and [type], and optionally [required], [default]
    and [description]. *)
Record field_spec : Type := mkFieldSpec
  { fs_name : string;
    fs_type : string;
    fs_required : option bool;
    fs_default : option pyval;
    fs_description : option string }.

Definition DataField_of_spec (field_data : field_spec) : DataField :=
  mkDataField (fs_name field_data) (fs_type field_data)
    (match fs_required field_data with Some b => b | None => true end)
    (match fs_default field_data with Some v => v | None => PyNone end)
    (match fs_description field_data with Some d => d | None => EmptyString end).

(** ** [hyperledger_integrated_db.py]: the tables *)

(** Columns that hold [json.dumps] of a value hold the value: what
    [json.loads] reads back from the text is the value that was written. *)

Record model_row : Type := mkModelRow
  { mr_name : string;
    mr_schema_data : pydict;
    mr_created_at : pyfloat;
    mr_version : string }.

Record data_record : Type := mkRecord
  { r_id : string;
    r_model_name : string;
    r_data : pydict;
    r_created_at : pyfloat;
    r_updated_at : pyfloat;
    r_blockchain_transaction_id : option string;
    r_blockchain_block_index : option Z }.

Record transaction_row : Type := mkTxRow
  { t_id : string;
    t_transaction_type : string;
    t_data_id : pyval;
    t_model_name : pyval;
    t_transaction_data : pyval;
    t_timestamp : pyfloat;
    t_block_index : option Z }.

Record block_row : Type := mkBlockRow
  { b_block_index : Z;
    b_hash : string;
    b_previous_hash : string;
    b_timestamp : pyfloat;
    b_nonce : Z;
    b_transactions_data : list pyval }.

(** ** [hyperledger_integrated_db.py]: class [HyperledgerIntegratedDB] *)

Record HyperledgerIntegratedDB : Type := mkDB
  { blockchain : Blockchain;
    data_models : gmap string DataModel;
    tbl_data_models : list model_row;
    tbl_data_records : list data_record;
    tbl_blockchain_transactions : list transaction_row;
    tbl_blockchain_blocks : list block_row;
    clock : nat -> pyfloat;
    ticks : nat;
    uuids : nat -> string;
    draws : nat }.

Definition with_blockchain (bc : Blockchain) (db : HyperledgerIntegratedDB) :=
  mkDB bc (data_models db) (tbl_data_models db) (tbl_data_records db)
       (tbl_blockchain_transactions db) (tbl_blockchain_blocks db)
       (clock db) (ticks db) (uuids db) (draws db).

Definition with_data_models (ms : gmap string DataModel) (db : HyperledgerIntegratedDB) :=
  mkDB (blockchain db) ms (tbl_data_models db) (tbl_data_records db)
       (tbl_blockchain_transactions db) (tbl_blockchain_blocks db)
       (clock db) (ticks db) (uuids db) (draws db).

Definition with_tbl_data_models (t : list model_row) (db : HyperledgerIntegratedDB) :=
  mkDB (blockchain db) (data_models db) t (tbl_data_records db)
       (tbl_blockchain_transactions db) (tbl_blockchain_blocks db)
       (clock db) (ticks db) (uuids db) (draws db).

Definition with_tbl_data_records (t : list data_record) (db : HyperledgerIntegratedDB) :=
  mkDB (blockchain db) (data_models db) (tbl_data_models db) t
       (tbl_blockchain_transactions db) (tbl_blockchain_blocks db)
       (clock db) (ticks db) (uuids db) (draws db).

Definition with_tbl_blockchain_transactions (t : list transaction_row)
    (db : HyperledgerIntegratedDB) :=
  mkDB (blockchain db) (data_models db) (tbl_data_models db) (tbl_data_records db)
       t (tbl_blockchain_blocks db) (clock db) (ticks db) (uuids db) (draws db).

Definition with_tbl_blockchain_blocks (t : list block_row)
    (db : HyperledgerIntegratedDB) :=
  mkDB (blockchain db) (data_models db) (tbl_data_models db) (tbl_data_records db)
       (tbl_blockchain_transactions db) t (clock db) (ticks db) (uuids db) (draws db).

Definition with_ticks (n : nat) (db : HyperledgerIntegratedDB) :=
  mkDB (blockchain db) (data_models db) (tbl_data_models db) (tbl_data_records db)
       (tbl_blockchain_transactions db) (tbl_blockchain_blocks db)
       (clock db) n (uuids db) (draws db).

Definition with_draws (n : nat) (db : HyperledgerIntegratedDB) :=
  mkDB (blockchain db) (data_models db) (tbl_data_models db) (tbl_data_records db)
       (tbl_blockchain_transactions db) (tbl_blockchain_blocks db)
       (clock db) (ticks db) (uuids db) n.

(** *** Statements that read and write the state and may raise *)

Definition M (A : Type) : Type :=
  HyperledgerIntegratedDB -> HyperledgerIntegratedDB * result A.

Definition ret {A : Type} (a : A) : M A := fun db => (db, Ok a).

Definition raise {A : Type} (msg : string) : M A := fun db => (db, Raise msg).

Definition bind {A B : Type} (c : M A) (k : A -> M B) : M B :=
  fun db =>
    match c db with
    | (db', Ok a) => k a db'
    | (db', Raise msg) => (db', Raise msg)
    end.

Notation "'let*' x ':=' c 'in' k" := (bind c (fun x => k))
  (at level 10, x pattern, c at level 100, k at level 200).

Definition gets {A : Type} (f : HyperledgerIntegratedDB -> A) : M A :=
  fun db => (db, Ok (f db)).

Definition modify (f : HyperledgerIntegratedDB -> HyperledgerIntegratedDB) : M unit :=
  fun db => (f db, Ok tt).

(** [try: ... except Exception: return fallback] *)
Definition try_except {A B : Type} (body : M A) (done : A -> B) (fallback : B)
  : HyperledgerIntegratedDB -> HyperledgerIntegratedDB * B :=
  fun db =>
    match body db with
    | (db', Ok a) => (db', done a)
    | (db', Raise _) => (db', fallback)
    end.

Definition time_time : M pyfloat :=
  fun db => (with_ticks (S (ticks db)) db, Ok (clock db (ticks db))).

Definition uuid4 : M string :=
  fun db => (with_draws (S (draws db)) db, Ok (uuids db (draws db))).

(** *** SQL statements *)

(** [WHERE id = ?] on a text column, the parameter being a Python value. *)
Definition sql_text_eq (column : string) (param : pyval) : bool :=
  match param with PyStr s => String.eqb column s | _ => false end.

Definition insert_data_model (row : model_row) : M unit :=
  fun db =>
    if existsb (fun r => String.eqb (mr_name r) (mr_name row)) (tbl_data_models db)
    then (db, Raise "IntegrityError: UNIQUE constraint failed: data_models.name")
    else (with_tbl_data_models (tbl_data_models db ++ [row]) db, Ok tt).

Definition insert_data_record (row : data_record) : M unit :=
  fun db =>
    if existsb (fun r => String.eqb (r_id r) (r_id row)) (tbl_data_records db)
    then (db, Raise "IntegrityError: UNIQUE constraint failed: data_records.id")
    else (with_tbl_data_records (tbl_data_records db ++ [row]) db, Ok tt).

Definition insert_blockchain_transaction (row : transaction_row) : M unit :=
  fun db =>
    if existsb (fun r => String.eqb (t_id r) (t_id row)) (tbl_blockchain_transactions db)
    then (db, Raise "IntegrityError: UNIQUE constraint failed: blockchain_transactions.id")
    else (with_tbl_blockchain_transactions (tbl_blockchain_transactions db ++ [row]) db,
          Ok tt).

Definition insert_blockchain_block (row : block_row) : M unit :=
  fun db =>
    if existsb (fun r => Z.eqb (b_block_index r) (b_block_index row))
               (tbl_blockchain_blocks db)
    then (db, Raise "IntegrityError: UNIQUE constraint failed: blockchain_blocks.block_index")
    else (with_tbl_blockchain_blocks (tbl_blockchain_blocks db ++ [row]) db, Ok tt).

(** [UPDATE data_records SET ... WHERE id = ?] *)
Definition update_data_records (param : pyval) (f : data_record -> data_record) : M unit :=
  modify (fun db =>
    with_tbl_data_records
      (List.map (fun r => if sql_text_eq (r_id r) param then f r else r)
                (tbl_data_records db)) db).

(** [UPDATE blockchain_transactions SET ... WHERE id = ?] *)
Definition update_blockchain_transactions (param : pyval)
    (f : transaction_row -> transaction_row) : M unit :=
  modify (fun db =>
    with_tbl_blockchain_transactions
      (List.map (fun r => if sql_text_eq (t_id r) param then f r else r)
                (tbl_blockchain_transactions db)) db).

(** [SELECT * FROM data_records WHERE id = ?] followed by [fetchone()] *)
Definition select_data_record (record_id : string) (db : HyperledgerIntegratedDB)
  : option data_record :=
  List.find (fun r => String.eqb (r_id r) record_id) (tbl_data_records db).

Definition set_transaction_id (tid : string) (r : data_record) : data_record :=
  mkRecord (r_id r) (r_model_name r) (r_data r) (r_created_at r) (r_updated_at r)
           (Some tid) (r_blockchain_block_index r).

Definition set_record_block_index (i : Z) (r : data_record) : data_record :=
  mkRecord (r_id r) (r_model_name r) (r_data r) (r_created_at r) (r_updated_at r)
           (r_blockchain_transaction_id r) (Some i).

Definition set_data (data : pydict) (now : pyfloat) (r : data_record) : data_record :=
  mkRecord (r_id r) (r_model_name r) data (r_created_at r) now
           (r_blockchain_transaction_id r) (r_blockchain_block_index r).

Definition set_tx_block_index (i : Z) (r : transaction_row) : transaction_row :=
  mkTxRow (t_id r) (t_transaction_type r) (t_data_id r) (t_model_name r)
          (t_transaction_data r) (t_timestamp r) (Some i).

(** [ORDER BY created_at] *)
Definition magnitude_leb (f g : pyfloat) : bool :=
  (fint f <? fint g)%N || ((fint f =? fint g)%N && String.leb (ffrac f) (ffrac g)).

Definition float_leb (f g : pyfloat) : bool :=
  match fneg f, fneg g with
  | false, false => magnitude_leb f g
  | true, false => true
  | false, true => float_is_zero f && float_is_zero g
  | true, true => magnitude_leb g f
  end.

Fixpoint insert_by_created_at (r : data_record) (l : list data_record)
  : list data_record :=
  match l with
  | [] => [r]
  | r' :: l' =>
      if float_leb (r_created_at r) (r_created_at r')
      then r :: l
      else r' :: insert_by_created_at r l'
  end.

Definition order_by_created_at (l : list data_record) : list data_record :=
  fold_right insert_by_created_at [] l.

(** *** The methods *)

Module DB.

Definition float_zero : pyfloat := mkFloat false 0 EmptyString.

Definition quoted (s : string) : string := "'" ++ s ++ "'".

(** [HyperledgerIntegratedDB.__init__] on a database file that does not
    exist yet: the ledger holds its genesis block, the tables are empty. *)
Definition init (blockchain_difficulty : Z) (clock : nat -> pyfloat)
    (uuids : nat -> string) : HyperledgerIntegratedDB :=
  mkDB (new_Blockchain blockchain_difficulty (clock O)) ∅ [] [] [] []
       clock 1%nat uuids O.

(** The type rule of one field, for a value that is present. *)
Definition check_type (field : DataField) (value : pyval) : result unit :=
  if String.eqb (f_type field) "text" && negb (is_str value)
  then Raise ("Field " ++ quoted (f_name field) ++ " must be a string")
  else if String.eqb (f_type field) "integer" && negb (is_int value)
  then Raise ("Field " ++ quoted (f_name field) ++ " must be an integer")
  else if String.eqb (f_type field) "real" && negb (is_int value || is_float value)
  then Raise ("Field " ++ quoted (f_name field) ++ " must be a number")
  else if String.eqb (f_type field) "boolean" && negb (is_bool value)
  then Raise ("Field " ++ quoted (f_name field) ++ " must be a boolean")
  else if String.eqb (f_type field) "datetime"
  then if negb (is_int value || is_float value || is_str value)
       then Raise ("Field " ++ quoted (f_name field) ++ " must be a datetime")
       else Ok tt
  else if String.eqb (f_type field) "json" && negb (is_dict value || is_list value)
  then Raise ("Field " ++ quoted (f_name field) ++ " must be a JSON object or array")
  else Ok tt.

Definition is_none (v : pyval) : bool := match v with PyNone => true | _ => false end.

Definition missing (field : DataField) : string :=
  "Required field " ++ quoted (f_name field) ++ " is missing".

(** The body of the loop of [_validate_data] for one field: the payload
    as the turn leaves it, and whether the turn raised. *)
Definition validate_field (field : DataField) (data : pydict) : pydict * result unit :=
  if f_required field && negb (dict_mem (f_name field) data)
  then (data, Raise (missing field))
  else
    let data :=
      if negb (dict_mem (f_name field) data) && negb (is_none (f_default field))
      then dict_set (f_name field) (f_default field) data
      else data in
    match dict_get (f_name field) data with
    | Some value => (data, check_type field value)
    | None => (data, Ok tt)
    end.

Fixpoint validate_fields (fields : list DataField) (data : pydict)
  : pydict * result unit :=
  match fields with
  | [] => (data, Ok tt)
  | field :: fields' =>
      match validate_field field data with
      | (data', Ok _) => validate_fields fields' data'
      | (data', Raise msg) => (data', Raise msg)
      end
  end.

(** [_validate_data]: the payload is changed in place, so the result
    carries the payload as the call leaves it. *)
Definition _validate_data (data : pydict) (model : DataModel) : pydict * result unit :=
  validate_fields (m_fields model) data.

(** The call of [_validate_data] inside a method: the method goes on
    with the payload as validation left it. *)
Definition validated (data : pydict) (model : DataModel) : M pydict :=
  fun db =>
    match _validate_data data model with
    | (data', Ok _) => (db, Ok data')
    | (_, Raise msg) => (db, Raise msg)
    end.

(** [data.get(key)] as bound to an SQL parameter. *)
Definition get_or_none (key : string) (data : pydict) : pyval :=
  match dict_get key data with Some v => v | None => PyNone end.

Definition _add_to_blockchain (transaction_type : string) (data : pydict) : M string :=
  let* transaction_id := uuid4 in
  let* current_time := time_time in
  let transaction :=
    PyDict [ ("id", PyStr transaction_id);
             ("type", PyStr transaction_type);
             ("data", PyDict data);
             ("timestamp", PyFloat current_time);
             ("sender", PyStr "system");
             ("recipient", PyStr "system");
             ("amount", PyFloat float_zero) ] in
  let* now := time_time in
  let* _ := modify (fun db =>
              with_blockchain
                (snd (add_transaction "system" "system" (PyFloat float_zero)
                                      transaction now (blockchain db))) db) in
  let* _ := insert_blockchain_transaction
              (mkTxRow transaction_id transaction_type
                       (get_or_none "record_id" data) (get_or_none "model_name" data)
                       transaction current_time None) in
  ret transaction_id.

Definition create_data_model (name : string) (fields : list field_spec)
    (description : string) : HyperledgerIntegratedDB -> HyperledgerIntegratedDB * bool :=
  try_except
    (let data_fields := List.map DataField_of_spec fields in
     let* created_at := time_time in
     let data_model := mkDataModel name data_fields description created_at "1.0" in
     let* _ := insert_data_model
                 (mkModelRow name (to_dict data_model) (m_created_at data_model)
                             (m_version data_model)) in
     let* _ := modify (fun db => with_data_models (<[name := data_model]> (data_models db)) db) in
     let* _ := _add_to_blockchain "model_creation"
                 [ ("model_name", PyStr name);
                   ("schema", PyDict (to_dict data_model));
                   ("description", PyStr description) ] in
     ret tt)
    (fun _ => true) false.

Definition lookup_model (model_name : string) : M DataModel :=
  fun db =>
    match data_models db !! model_name with
    | Some m => (db, Ok m)
    | None => (db, Raise ("Data model " ++ quoted model_name ++ " does not exist"))
    end.

Definition add_data (model_name : string) (data : pydict)
  : HyperledgerIntegratedDB -> HyperledgerIntegratedDB * option string :=
  try_except
    (let* data_model := lookup_model model_name in
     let* data := validated data data_model in
     let* record_id := uuid4 in
     let* current_time := time_time in
     let* _ := insert_data_record
                 (mkRecord record_id model_name data current_time current_time
                           None None) in
     let* transaction_id := _add_to_blockchain "data_creation"
                 [ ("record_id", PyStr record_id);
                   ("model_name", PyStr model_name);
                   ("data", PyDict data);
                   ("created_at", PyFloat current_time) ] in
     let* _ := update_data_records (PyStr record_id) (set_transaction_id transaction_id) in
     ret record_id)
    Some None.

Definition fetch_record (record_id : string) : M data_record :=
  fun db =>
    match select_data_record record_id db with
    | Some row => (db, Ok row)
    | None => (db, Raise ("Record with ID " ++ quoted record_id ++ " not found"))
    end.

Definition update_data (record_id : string) (data : pydict)
  : HyperledgerIntegratedDB -> HyperledgerIntegratedDB * bool :=
  try_except
    (let* row := fetch_record record_id in
     let current_data := r_data row in
     let model_name := r_model_name row in
     let* models := gets data_models in
     let* data := match models !! model_name with
                  | Some model => validated data model
                  | None => ret data
                  end in
     let* current_time := time_time in
     let* _ := update_data_records (PyStr record_id) (set_data data current_time) in
     let* _ := _add_to_blockchain "data_update"
                 [ ("record_id", PyStr record_id);
                   ("model_name", PyStr model_name);
                   ("previous_data", PyDict current_data);
                   ("new_data", PyDict data);
                   ("updated_at", PyFloat current_time) ] in
     ret tt)
    (fun _ => true) false.

Definition get_data (record_id : string) (db : HyperledgerIntegratedDB)
  : option data_record :=
  select_data_record record_id db.

(** [get_all_data]: [model_name] may be [None]; [if model_name:] also
    sends the empty name to the unfiltered query. *)
Definition get_all_data (model_name : option string) (db : HyperledgerIntegratedDB)
  : list data_record :=
  match model_name with
  | Some (String c n) =>
      order_by_created_at
        (List.filter (fun r => String.eqb (r_model_name r) (String c n))
                     (tbl_data_records db))
  | _ => order_by_created_at (tbl_data_records db)
  end.

(** The inner loop of [search_data] over [criteria.items()]: the value of
    [match] when the loop is left. *)
Fixpoint matches (criteria : pydict) (record_data : pydict) : bool :=
  match criteria with
  | [] => true
  | (key, value) :: criteria' =>
      match dict_get key record_data with
      | None => false
      | Some stored =>
          if is_str value && is_str stored
          then match value, stored with
               | PyStr v, PyStr s =>
                   if negb (str_in (lower v) (lower s)) then false
                   else matches criteria' record_data
               | _, _ => false
               end
          else if negb (py_eq stored value) then false
          else matches criteria' record_data
      end
  end.

Definition search_data (model_name : option string) (criteria : option pydict)
    (db : HyperledgerIntegratedDB) : list data_record :=
  let all_data := get_all_data model_name db in
  match criteria with
  | None | Some [] => all_data
  | Some criteria => List.filter (fun record => matches criteria (r_data record)) all_data
  end.

(** What [mine_block] returns for a sealed block. *)
Record block_summary : Type := mkSummary
  { s_index : Z;
    s_hash : string;
    s_timestamp : pyfloat;
    s_transaction_count : nat }.

(** [value.get(key)] on a Python value: only a dict has the method. *)
Definition py_get (value : pyval) (key : string) : M pyval :=
  match value with
  | PyDict d => ret (get_or_none key d)
  | _ => raise "AttributeError: object has no attribute 'get'"
  end.

(** The loop of [mine_block] over [block.transactions]. *)
Fixpoint update_block_indices (block_index : Z) (transactions : list pyval) : M unit :=
  match transactions with
  | [] => ret tt
  | transaction :: transactions' =>
      let* tid := py_get transaction "id" in
      let* _ :=
        if py_truthy tid then
          let* _ := update_blockchain_transactions tid (set_tx_block_index block_index) in
          let* inner :=
            match transaction with
            | PyDict d =>
                ret (match dict_get "data" d with Some v => v | None => PyDict [] end)
            | _ => raise "AttributeError: object has no attribute 'get'"
            end in
          let* record_id := py_get inner "record_id" in
          if py_truthy record_id
          then update_data_records record_id (set_record_block_index block_index)
          else ret tt
        else ret tt in
      update_block_indices block_index transactions'
  end.

Definition mine_block (fuel : nat) (db : HyperledgerIntegratedDB)
  : option (HyperledgerIntegratedDB * option block_summary) :=
  match pending_transactions (blockchain db) with
  | [] => Some (db, None)
  | _ :: _ =>
      let now_block := clock db (ticks db) in
      let now_reward := clock db (S (ticks db)) in
      match mine_pending_transactions fuel "system" now_block now_reward
                                      (blockchain db) with
      | None => None
      | Some (Raise _) => Some (with_ticks (S (ticks db)) db, None)
      | Some (Ok (block, bc)) =>
          Some (try_except
                  (let* _ := insert_blockchain_block
                               (mkBlockRow (index block) (hash block)
                                           (previous_hash block) (timestamp block)
                                           (nonce block) (transactions block)) in
                   let* _ := update_block_indices (index block) (transactions block) in
                   ret (mkSummary (index block) (hash block) (timestamp block)
                                  (List.length (transactions block))))
                  Some None
                  (with_ticks (S (S (ticks db))) (with_blockchain bc db)))
      end
  end.

End DB.

(** * Statements of the specification and sample runs *)

(** ** Ledger *)

(** Number of ['0'] characters a text starts with. *)
Fixpoint leading_zeros (s : string) : nat :=
  match s with
  | String c s' => if Ascii.eqb c "0" then S (leading_zeros s') else O
  | EmptyString => O
  end.

(** The block with its nonce set to [n] and its hash recomputed. *)
Definition at_nonce (n : nat) (b : Block) : Block :=
  let b' := set_nonce (Z.of_nat n) b in
  set_hash (calculate_hash b') b'.

(** [n] turns of the proof-of-work loop body. *)
Fixpoint bump_n (n : nat) (b : Block) : Block :=
  match n with
  | O => b
  | S n' => bump_n n' (bump b)
  end.

(** The block [mine_pending_transactions] builds before the search. *)
Definition candidate (bc : Blockchain) (now_block : pyfloat) (latest : Block) : Block :=
  new_Block (Z.of_nat (List.length (chain bc))) (pending_transactions bc)
            now_block (hash latest) 0.

(** Chain integrity as the specification states it: every block,
    the genesis block included, carries the hash of its fields, and every
    block but the first names the hash of its predecessor. *)
Definition verify_stated (c : list Block) : Prop :=
  forall (i : nat) (b : Block),
    nth_error c i = Some b ->
    hash b = calculate_hash b
    /\ (i = O \/ exists p, nth_error c (i - 1) = Some p /\ previous_hash b = hash p).

(** Chain integrity from index 1 on. *)
Definition verify_links (c : list Block) : Prop :=
  forall (i : nat) (b : Block),
    (1 <= i)%nat ->
    nth_error c i = Some b ->
    hash b = calculate_hash b
    /\ exists p, nth_error c (i - 1) = Some p /\ previous_hash b = hash p.

(** Readings of the clock in the sample runs: half past the second. *)
Definition t_at (k : nat) : pyfloat := mkFloat false (1700000000 + N.of_nat k) "5".

(** A ledger of difficulty 1 with one staged transfer. *)
Definition ledger0 : Blockchain := new_Blockchain 1 (t_at 0).

Definition ledger1 : Blockchain :=
  snd (add_transaction "alice" "bob" (PyInt 5) (PyDict []) (t_at 1) ledger0).

(** A ledger whose genesis block has had its stored hash overwritten. *)
Definition ledger_tampered : Blockchain :=
  mkBlockchain [set_hash "tampered" (new_Block 0 [] (t_at 0) "0" 0)] 2 [] 10.

(** ** Record store *)



(** The payload with the value under [key] replaced by the boolean [b],
    where the key is present. *)
Definition with_bool (key : string) (b : bool) (data : pydict) : pydict :=
  List.map (fun kv => if String.eqb key (fst kv) then (fst kv, PyBool b) else kv) data.

(** The record id an entry of a sealed block embeds, if any:
    [transaction['data']['data']['record_id']]. *)
Definition embedded_record_id (transaction : pyval) : option pyval :=
  match transaction with
  | PyDict outer =>
      match dict_get "data" outer with
      | Some (PyDict inner) =>
          match dict_get "data" inner with
          | Some (PyDict payload) => dict_get "record_id" payload
          | _ => None
          end
      | _ => None
      end
  | _ => None
  end.

(** *** Sample runs *)

Definition sample_uuids (n : nat) : string :=
  "00000000-0000-4000-8000-" ++ SHA256.hex_of 12 (Z.of_nat n).

(** A session on a new database file, at difficulty 1. *)
Definition db_fresh : HyperledgerIntegratedDB := DB.init 1 t_at sample_uuids.

Definition run_mine (fuel : nat) (db : HyperledgerIntegratedDB) : HyperledgerIntegratedDB :=
  match DB.mine_block fuel db with
  | Some (db', _) => db'
  | None => db
  end.

(** Model [Item] with the required integer field [qty], then a first
    block. *)
Definition db_item : HyperledgerIntegratedDB :=
  run_mine 100
    (fst (DB.create_data_model "Item"
            [mkFieldSpec "qty" "integer" (Some true) None None] "stock items" db_fresh)).

(** Three records staged one after the other. *)
Definition db_item3 : HyperledgerIntegratedDB :=
  fst (DB.add_data "Item" [("qty", PyInt 3)]
    (fst (DB.add_data "Item" [("qty", PyInt 2)]
      (fst (DB.add_data "Item" [("qty", PyInt 1)] db_item))))).

(** The field [is_active] of the model [User] that
    [HyperledgerAPI.create_user_model] defines: required, with a default. *)
Definition is_active_field : DataField :=
  DataField_of_spec
    (mkFieldSpec "is_active" "boolean" (Some true) (Some (PyBool true))
                 (Some "Account status")).

(** Model [Pair]: [a] required, [b] optional with default 5; one record
    [{a: 1, b: 7}]. *)
Definition db_pair : HyperledgerIntegratedDB :=
  fst (DB.add_data "Pair" [("a", PyInt 1); ("b", PyInt 7)]
    (fst (DB.create_data_model "Pair"
            [ mkFieldSpec "a" "integer" (Some true) None None;
              mkFieldSpec "b" "integer" (Some false) (Some (PyInt 5)) None ]
            "pairs" db_fresh))).

(** The id [uuid4] gave to the record of [db_pair]. *)
Definition pair_id : string := sample_uuids 1.

(** Model [Person] without defaults, with one record. *)
Definition db_person : HyperledgerIntegratedDB :=
  fst (DB.add_data "Person" [("name", PyStr "Anna"); ("age", PyInt 30)]
    (fst (DB.create_data_model "Person"
            [ mkFieldSpec "name" "text" (Some true) None None;
              mkFieldSpec "age" "integer" (Some true) None None ]
            "people" db_fresh))).

(** *** Notions used in the proofs *)

(** A transaction as [Blockchain.add_transaction] and the reward build
    it: the five keys [sender], [recipient], [amount], [data], [timestamp]. *)
Definition staged (transaction : pyval) : Prop :=
  exists (sender recipient : string) (amount data : pyval) (now : pyfloat),
    transaction = make_transaction sender recipient amount data now.



(** A statement that leaves the tables of records and of logged
    transactions as they are. *)
Definition keeps_records {A : Type} (c : M A) : Prop :=
  forall db : HyperledgerIntegratedDB,
    tbl_data_records (fst (c db)) = tbl_data_records db
    /\ tbl_blockchain_transactions (fst (c db)) = tbl_blockchain_transactions db.

(** What can be seen of the block indices after a call of [mine_block]:
    the index of the last block of the chain with the record ids its
    transactions embed, then for every record row its id and block index,
    then for every logged transaction its record id and block index. *)
Definition block_index_report (db : HyperledgerIntegratedDB)
  : option (Z * list (option pyval))
    * list (string * option Z) * list (pyval * option Z) :=
  ( option_map (fun b => (index b, List.map embedded_record_id (transactions b)))
               (List.last (List.map Some (chain (blockchain db))) None),
    List.map (fun r => (r_id r, r_blockchain_block_index r)) (tbl_data_records db),
    List.map (fun t => (t_data_id t, t_block_index t)) (tbl_blockchain_transactions db) ).

(** The model [Item] staged and not yet mined. *)
Definition db_item_staged : HyperledgerIntegratedDB :=
  fst (DB.create_data_model "Item"
         [mkFieldSpec "qty" "integer" (Some true) None None] "stock items" db_fresh).

(** Full replacement as the specification states it: after an update
    with a payload that validates, a field the record had before and the
    new payload lacks is gone from the stored record. *)
Definition full_replace_stated (db : HyperledgerIntegratedDB) (record_id : string)
    (data : pydict) : Prop :=
  forall (row : data_record) (model : DataModel) (u : unit) (data' : pydict)
         (db' : HyperledgerIntegratedDB),
    DB.get_data record_id db = Some row ->
    data_models db !! r_model_name row = Some model ->
    DB._validate_data data model = (data', Ok u) ->
    DB.update_data record_id data db = (db', true) ->
    exists row' : data_record,
      DB.get_data record_id db' = Some row'
      /\ forall k : string,
           dict_mem k (r_data row) = true -> dict_mem k data = false ->
           dict_mem k (r_data row') = false.

(** The entry [update_data] hands to the ledger. *)
Definition update_entry (transaction_id record_id model_name : string)
    (previous_data new_data : pydict) (updated_at logged_at : pyfloat) : pyval :=
  PyDict [ ("id", PyStr transaction_id);
           ("type", PyStr "data_update");
           ("data", PyDict [ ("record_id", PyStr record_id);
                             ("model_name", PyStr model_name);
                             ("previous_data", PyDict previous_data);
                             ("new_data", PyDict new_data);
                             ("updated_at", PyFloat updated_at) ]);
           ("timestamp", PyFloat logged_at);
           ("sender", PyStr "system");
           ("recipient", PyStr "system");
           ("amount", PyFloat DB.float_zero) ].

(** The row of the record of [db_pair]. *)
Definition pair_row : data_record :=
  mkRecord pair_id "Pair" [("a", PyInt 1); ("b", PyInt 7)] (t_at 4) (t_at 4)
           (Some (sample_uuids 2)) None.

(** * Further notions *)

(** ** Ledger *)

(** Every block sits at the position its index names. *)
Definition chain_indexed (c : list Block) : Prop :=
  forall (i : nat) (b : Block), nth_error c i = Some b -> index b = Z.of_nat i.

(** Every block after the first meets the proof-of-work target. *)
Definition chain_mined (d : Z) (c : list Block) : Prop :=
  forall (i : nat) (b : Block),
    (1 <= i)%nat -> nth_error c i = Some b -> meets_target d b = true.

(** What [__init__], [add_transaction] and [mine_pending_transactions]
    keep true of a ledger. *)
Definition ledger_ok (bc : Blockchain) : Prop :=
  chain bc <> []
  /\ verify_stated (chain bc)
  /\ chain_indexed (chain bc)
  /\ chain_mined (difficulty bc) (chain bc)
  /\ Forall staged (pending_transactions bc).

(** The chain with the stored hash of the block at position [i]
    overwritten by [h]. *)
Fixpoint overwrite_hash (i : nat) (h : string) (c : list Block) : list Block :=
  match c, i with
  | [], _ => []
  | b :: c', O => set_hash h b :: c'
  | b :: c', S i' => b :: overwrite_hash i' h c'
  end.

Definition with_chain (c : list Block) (bc : Blockchain) : Blockchain :=
  mkBlockchain c (difficulty bc) (pending_transactions bc) (mining_reward bc).

(** The ledger a seal leaves, or [bc] where the seal did not return one. *)
Definition ledger_after (bc : Blockchain) (out : option (result (Block * Blockchain)))
  : Blockchain :=
  match out with
  | Some (Ok (_, bc')) => bc'
  | _ => bc
  end.

(** [ledger1] after its seal at clock reading 1700000006.5. *)
Definition ledger2 : Blockchain :=
  ledger_after ledger1
    (mine_pending_transactions 20 "miner" (t_at 6) (t_at 7) ledger1).

(** ** Validation *)

(** The payload satisfies a field: a required field is present, and the
    value of a present field passes the type rule. *)
Definition field_holds (field : DataField) (data : pydict) : Prop :=
  (f_required field = true -> dict_mem (f_name field) data = true)
  /\ (forall value : pyval,
        dict_get (f_name field) data = Some value -> DB.check_type field value = Ok tt).

Definition conforms (model : DataModel) (data : pydict) : Prop :=
  Forall (fun field => field_holds field data) (m_fields model).

(** Every entry of [data] is an entry of [data']. *)
Definition extends (data data' : pydict) : Prop :=
  forall (k : string) (v : pyval), dict_get k data = Some v -> dict_get k data' = Some v.

Definition field_names (model : DataModel) : list string :=
  List.map f_name (m_fields model).

(** The model [User] of [HyperledgerAPI.create_user_model], as
    [create_data_model] builds it at the clock reading [now]. *)
Definition user_field_specs : list field_spec :=
  [ mkFieldSpec "username" "text" (Some true) None (Some "Unique username");
    mkFieldSpec "email" "text" (Some true) None (Some "Email address");
    mkFieldSpec "password_hash" "text" (Some true) None (Some "Hashed password");
    mkFieldSpec "is_active" "boolean" (Some true) (Some (PyBool true))
                (Some "Account status");
    mkFieldSpec "created_at" "datetime" (Some true) None (Some "Account creation time");
    mkFieldSpec "metadata" "json" (Some false) None (Some "Additional user data") ].

Definition user_model (now : pyfloat) : DataModel :=
  mkDataModel "User" (List.map DataField_of_spec user_field_specs)
              "User account information" now "1.0".

(** The model [Pair] of [db_pair]: [a] required, [b] optional with
    default 5. *)
Definition pair_model : DataModel :=
  mkDataModel "Pair"
    (List.map DataField_of_spec
       [ mkFieldSpec "a" "integer" (Some true) None None;
         mkFieldSpec "b" "integer" (Some false) (Some (PyInt 5)) None ])
    "pairs" (t_at 1) "1.0".

(** A model that names the field [x] twice, with different type tags. *)
Definition twice_model : DataModel :=
  mkDataModel "Twice"
    (List.map DataField_of_spec
       [ mkFieldSpec "x" "integer" (Some false) None None;
         mkFieldSpec "x" "text" (Some false) (Some (PyStr "hi")) None ])
    EmptyString (t_at 1) "1.0".

(** Two payloads hold the same value under every key of [P]. *)
Definition agree_on (P : string -> Prop) (data data' : pydict) : Prop :=
  forall k : string, P k -> dict_get k data = dict_get k data'.

(** Two payloads hold the same entries, in whatever order. *)
Definition same_entries (data data' : pydict) : Prop :=
  forall k : string, dict_get k data = dict_get k data'.

(** ** Record store *)

(** The entry [create_data_model] hands to the ledger. *)
Definition model_entry (transaction_id : string) (model : DataModel)
    (logged_at : pyfloat) : pyval :=
  PyDict [ ("id", PyStr transaction_id);
           ("type", PyStr "model_creation");
           ("data", PyDict [ ("model_name", PyStr (m_name model));
                             ("schema", PyDict (to_dict model));
                             ("description", PyStr (m_description model)) ]);
           ("timestamp", PyFloat logged_at);
           ("sender", PyStr "system");
           ("recipient", PyStr "system");
           ("amount", PyFloat DB.float_zero) ].

(** The entry [add_data] hands to the ledger. *)
Definition creation_entry (transaction_id record_id model_name : string)
    (data : pydict) (created_at logged_at : pyfloat) : pyval :=
  PyDict [ ("id", PyStr transaction_id);
           ("type", PyStr "data_creation");
           ("data", PyDict [ ("record_id", PyStr record_id);
                             ("model_name", PyStr model_name);
                             ("data", PyDict data);
                             ("created_at", PyFloat created_at) ]);
           ("timestamp", PyFloat logged_at);
           ("sender", PyStr "system");
           ("recipient", PyStr "system");
           ("amount", PyFloat DB.float_zero) ].

(** A text is the primary key of some row of the table. *)
Definition model_row_exists (name : string) (db : HyperledgerIntegratedDB) : bool :=
  existsb (fun r => String.eqb (mr_name r) name) (tbl_data_models db).

Definition record_row_exists (id : string) (db : HyperledgerIntegratedDB) : bool :=
  existsb (fun r => String.eqb (r_id r) id) (tbl_data_records db).

Definition transaction_row_exists (id : string) (db : HyperledgerIntegratedDB) : bool :=
  existsb (fun r => String.eqb (t_id r) id) (tbl_blockchain_transactions db).

Definition with_uuids (ids : nat -> string) (db : HyperledgerIntegratedDB) :=
  mkDB (blockchain db) (data_models db) (tbl_data_models db) (tbl_data_records db)
       (tbl_blockchain_transactions db) (tbl_blockchain_blocks db)
       (clock db) (ticks db) ids (draws db).

(** A stream of ids whose third draw repeats the first. *)
Definition clashing_uuids (n : nat) : string :=
  if Nat.eqb n 2 then sample_uuids 0 else sample_uuids n.

(** The session of [db_item_staged], drawing its ids from
    [clashing_uuids]: the id of the next transaction is taken. *)
Definition db_clash : HyperledgerIntegratedDB := with_uuids clashing_uuids db_item_staged.

(** ** Sessions *)

(** The row [mine_block] writes for a sealed block. *)
Definition block_row_of (b : Block) : block_row :=
  mkBlockRow (index b) (hash b) (previous_hash b) (timestamp b) (nonce b)
             (transactions b).

(** The row [create_data_model] writes for a model. *)
Definition model_row_of (m : DataModel) : model_row :=
  mkModelRow (m_name m) (to_dict m) (m_created_at m) (m_version m).

(** The table of blocks holds the chain without its genesis block. *)
Definition blocks_mirrored (db : HyperledgerIntegratedDB) : Prop :=
  tbl_blockchain_blocks db = List.map block_row_of (List.tl (chain (blockchain db))).

(** The registry holds under each name the model of that name that has
    a row, no name has two rows, and every row is the row of a model. *)
Definition registry_mirrored (db : HyperledgerIntegratedDB) : Prop :=
  List.NoDup (List.map mr_name (tbl_data_models db))
  /\ (forall (name : string) (model : DataModel),
        data_models db !! name = Some model
        <-> (m_name model = name /\ In (model_row_of model) (tbl_data_models db)))
  /\ Forall (fun row => exists model : DataModel, row = model_row_of model)
            (tbl_data_models db).

(** A record row as the methods leave it: no block index, and a payload
    that came out of the validation against the registered model of the
    row. *)
Definition good_record (ms : gmap string DataModel) (r : data_record) : Prop :=
  r_blockchain_block_index r = None
  /\ exists (model : DataModel) (data : pydict),
       ms !! r_model_name r = Some model
       /\ DB._validate_data data model = (r_data r, Ok tt).

Definition records_good (db : HyperledgerIntegratedDB) : Prop :=
  Forall (good_record (data_models db)) (tbl_data_records db)
  /\ List.NoDup (List.map r_id (tbl_data_records db)).

Definition log_good (db : HyperledgerIntegratedDB) : Prop :=
  Forall (fun t => t_block_index t = None) (tbl_blockchain_transactions db)
  /\ List.NoDup (List.map t_id (tbl_blockchain_transactions db)).

(** What [__init__] on a new file establishes and the methods keep. *)
Definition db_ok (db : HyperledgerIntegratedDB) : Prop :=
  ledger_ok (blockchain db)
  /\ blocks_mirrored db
  /\ registry_mirrored db
  /\ records_good db
  /\ log_good db.

(** A statement that keeps [db_ok] and the registry [ms]. *)
Definition keeps_ok {A : Type} (ms : gmap string DataModel) (c : M A) : Prop :=
  forall db : HyperledgerIntegratedDB,
    db_ok db -> data_models db = ms ->
    db_ok (fst (c db)) /\ data_models (fst (c db)) = ms.

(** The session of [db_item] with one record staged. *)
Definition db_item1 : HyperledgerIntegratedDB :=
  fst (DB.add_data "Item" [("qty", PyInt 1)] db_item).

(** ** [hyperledger_api.py]: class [HyperledgerAPI] *)

Module API.

Definition create_user_model
  : HyperledgerIntegratedDB -> HyperledgerIntegratedDB * bool :=
  DB.create_data_model "User" user_field_specs "User account information".

(** [add_user]: the dict display reads the clock for [created_at] before
    [add_record] is called; [metadata or {}]. *)
Definition add_user (username email password_hash : string) (metadata : pyval)
  : HyperledgerIntegratedDB -> HyperledgerIntegratedDB * option string :=
  fun db =>
    let user_data :=
      [ ("username", PyStr username);
        ("email", PyStr email);
        ("password_hash", PyStr password_hash);
        ("is_active", PyBool true);
        ("created_at", PyFloat (clock db (ticks db)));
        ("metadata", or_empty_dict metadata) ] in
    DB.add_data "User" user_data (with_ticks (S (ticks db)) db).

(** [users[0] if users else None] *)
Definition get_user_by_username (username : string) (db : HyperledgerIntegratedDB)
  : option data_record :=
  match DB.search_data (Some "User") (Some [("username", PyStr username)]) db with
  | user :: _ => Some user
  | [] => None
  end.

(** [update_user_status]: the record read by [get_record] is a dict with
    seven keys, so [if user_data:] asks whether a row was found. *)
Definition update_user_status (user_id : string) (is_active : bool)
  : HyperledgerIntegratedDB -> HyperledgerIntegratedDB * bool :=
  fun db =>
    match DB.get_data user_id db with
    | Some user_data =>
        DB.update_data user_id
          (dict_set "is_active" (PyBool is_active) (r_data user_data)) db
    | None => (db, false)
    end.

End API.

(** The payload [add_user] builds. *)
Definition user_payload (username email password_hash : string) (metadata : pyval)
    (created_at : pyfloat) : pydict :=
  [ ("username", PyStr username);
    ("email", PyStr email);
    ("password_hash", PyStr password_hash);
    ("is_active", PyBool true);
    ("created_at", PyFloat created_at);
    ("metadata", or_empty_dict metadata) ].

(** What [isinstance(value, (dict, list))] accepts. *)
Definition is_json (value : pyval) : bool := is_dict value || is_list value.

(** The model [User] staged on a new database. *)
Definition db_user_model : HyperledgerIntegratedDB := fst (API.create_user_model db_fresh).

(** The model [User] staged, then the users [alice] and [al]. *)
Definition db_users : HyperledgerIntegratedDB :=
  fst (API.add_user "al" "al@example.com" "hash2" PyNone
    (fst (API.add_user "alice" "alice@example.com" "hash1"
            (PyDict [("plan", PyStr "free")]) db_user_model))).

(** The id [uuid4] gave to the record of [alice] in [db_users]. *)
Definition alice_id : string := sample_uuids 1.


(** ** Opening an existing file: [DataModel.from_dict] and
    [_load_existing_data] *)

(** Outcome of building a dataclass from a dict. A dataclass does not
    check the annotations of its attributes; an object that would hold a
    value of another type than annotated is outside this embedding. *)
Inductive built (A : Type) : Type :=
| Built (a : A)
| Fails (msg : string)
| Unrepresented.
Arguments Built {A} a.
Arguments Fails {A} msg.
Arguments Unrepresented {A}.

Definition field_attributes : list string :=
  ["name"; "type"; "required"; "default"; "description"].

(** [DataField] called with the entries of [field_data] as keyword
    arguments. *)
Definition DataField_of_kwargs (field_data : pyval) : built DataField :=
  match field_data with
  | PyDict d =>
      if negb (forallb (fun kv => existsb (String.eqb (fst kv)) field_attributes) d)
      then Fails "TypeError: __init__() got an unexpected keyword argument"
      else
        match dict_get "name" d, dict_get "type" d with
        | Some name, Some ty =>
            let required :=
              match dict_get "required" d with Some v => v | None => PyBool true end in
            let default :=
              match dict_get "default" d with Some v => v | None => PyNone end in
            let description :=
              match dict_get "description" d with
              | Some v => v
              | None => PyStr EmptyString
              end in
            match name, ty, required, description with
            | PyStr n, PyStr t, PyBool r, PyStr s => Built (mkDataField n t r default s)
            | _, _, _, _ => Unrepresented
            end
        | _, _ => Fails "TypeError: __init__() missing required positional argument"
        end
  | _ => Fails "TypeError: argument after ** must be a mapping"
  end.

(** The values a [for] loop over a Python value goes through. *)
Definition iterate (v : pyval) : result (list pyval) :=
  match v with
  | PyList l => Ok l
  | PyDict d => Ok (List.map (fun kv => PyStr (fst kv)) d)
  | PyStr s =>
      Ok (List.map (fun c => PyStr (String c EmptyString)) (list_ascii_of_string s))
  | _ => Raise "TypeError: object is not iterable"
  end.

(** The list comprehension of [from_dict] over the listed fields. *)
Fixpoint build_fields (items : list pyval) : built (list DataField) :=
  match items with
  | [] => Built []
  | field_data :: items' =>
      match DataField_of_kwargs field_data with
      | Built field =>
          match build_fields items' with
          | Built fields => Built (field :: fields)
          | Fails msg => Fails msg
          | Unrepresented => Unrepresented
          end
      | Fails msg => Fails msg
      | Unrepresented => Unrepresented
      end
  end.

(** [DataModel.from_dict]; [now] is the reading of the clock that
    [__post_init__] takes when [created_at] is None. *)
Definition from_dict (now : pyfloat) (data : pydict) : built DataModel :=
  match dict_get "fields" data with
  | None => Fails "KeyError: 'fields'"
  | Some listed =>
      match iterate listed with
      | Raise msg => Fails msg
      | Ok items =>
          match build_fields items with
          | Built fields =>
              match dict_get "name" data with
              | None => Fails "KeyError: 'name'"
              | Some name =>
                  let description :=
                    match dict_get "description" data with
                    | Some v => v
                    | None => PyStr EmptyString
                    end in
                  let created_at := DB.get_or_none "created_at" data in
                  let version :=
                    match dict_get "version" data with
                    | Some v => v
                    | None => PyStr "1.0"
                    end in
                  match name, description, created_at, version with
                  | PyStr n, PyStr d, PyFloat c, PyStr v =>
                      Built (mkDataModel n fields d c v)
                  | PyStr n, PyStr d, PyNone, PyStr v =>
                      Built (mkDataModel n fields d now v)
                  | _, _, _, _ => Unrepresented
                  end
              end
          | Fails msg => Fails msg
          | Unrepresented => Unrepresented
          end
      end
  end.

(** Whether [from_dict], when it builds a model, reads the clock. *)
Definition reads_clock (data : pydict) : bool :=
  DB.is_none (DB.get_or_none "created_at" data).

(** The first loop of [_load_existing_data], over the rows of
    [data_models]; [None] where a model is outside the embedding. *)
Fixpoint load_models (rows : list model_row) (db : HyperledgerIntegratedDB)
  : option (HyperledgerIntegratedDB * result unit) :=
  match rows with
  | [] => Some (db, Ok tt)
  | row :: rows' =>
      match from_dict (clock db (ticks db)) (mr_schema_data row) with
      | Built model =>
          let db1 :=
            if reads_clock (mr_schema_data row)
            then with_ticks (S (ticks db)) db
            else db in
          load_models rows'
            (with_data_models (<[mr_name row := model]> (data_models db1)) db1)
      | Fails msg => Some (db, Raise msg)
      | Unrepresented => None
      end
  end.

(** [ORDER BY block_index] *)
Fixpoint insert_by_block_index (r : block_row) (l : list block_row) : list block_row :=
  match l with
  | [] => [r]
  | r' :: l' =>
      if (b_block_index r <=? b_block_index r')%Z
      then r :: l
      else r' :: insert_by_block_index r l'
  end.

Definition order_by_block_index (l : list block_row) : list block_row :=
  fold_right insert_by_block_index [] l.

(** The block the second loop builds from a row: [Block(...)] computes
    a hash, which the stored hash then replaces. *)
Definition block_of_row (row : block_row) : Block :=
  set_hash (b_hash row)
    (new_Block (b_block_index row) (b_transactions_data row) (b_timestamp row)
               (b_previous_hash row) (b_nonce row)).

(** The second loop of [_load_existing_data]: every block is appended
    to the chain. *)
Definition load_blocks (rows : list block_row) (bc : Blockchain) : Blockchain :=
  fold_left (fun bc row => with_chain (chain bc ++ [block_of_row row]) bc)
            (order_by_block_index rows) bc.

(** [_load_existing_data]: an exception ends the loading where it is
    raised and is printed. *)
Definition _load_existing_data (db : HyperledgerIntegratedDB)
  : option HyperledgerIntegratedDB :=
  match load_models (tbl_data_models db) db with
  | None => None
  | Some (db1, Raise _) => Some db1
  | Some (db1, Ok _) =>
      Some (with_blockchain
              (load_blocks (tbl_blockchain_blocks db1) (blockchain db1)) db1)
  end.

(** [HyperledgerIntegratedDB.__init__] on the file that holds the
    tables of [file]: a new ledger with its genesis block, an empty
    registry, then [_load_existing_data]. *)
Definition reopen (blockchain_difficulty : Z) (clock : nat -> pyfloat)
    (uuids : nat -> string) (file : HyperledgerIntegratedDB)
  : option HyperledgerIntegratedDB :=
  _load_existing_data
    (mkDB (new_Blockchain blockchain_difficulty (clock O)) ∅
          (tbl_data_models file) (tbl_data_records file)
          (tbl_blockchain_transactions file) (tbl_blockchain_blocks file)
          clock 1%nat uuids O).

(** Readings of the clock of a later session. *)
Definition t_later (k : nat) : pyfloat := t_at (1000 + k).

(** Every row is at most the next one in [block_index]. *)
Fixpoint ascending (l : list block_row) : Prop :=
  match l with
  | r :: (r' :: _) as l' => (b_block_index r <= b_block_index r')%Z /\ ascending l'
  | _ => True
  end.
(** * Properties *)

(** ** Test vectors of SHA-256 *)

Example sha256_abc :
  SHA256.hexdigest "abc"
  = "ba7816bf8f01cfea414140de5dae2223b00361a396177a9cb410ff61f20015ad".
Proof. vm_compute. reflexivity. Qed.

Example sha256_empty :
  SHA256.hexdigest EmptyString
  = "e3b0c44298fc1c149afbf4c8996fb92427ae41e4649b934ca495991b7852b855".
Proof. vm_compute. reflexivity. Qed.

Example sha256_two_blocks :
  SHA256.hexdigest "abcdbcdecdefdefgefghfghighijhijkijkljklmklmnlmnomnopnopq"
  = "248d6a61d20638b8e5c026930c3e6039a33ce45964ff2167f6ecedd419db06c1".
Proof. vm_compute. reflexivity. Qed.

(** ** Pairs *)

Lemma pair_eta_snd {A B : Type} (p : A * B) (b : B) : snd p = b -> p = (fst p, b).
Proof. intros <-. destruct p; reflexivity. Qed.

(** ** Text helpers *)

Lemma str_mul_zero_succ (n : nat) :
  str_mul "0" (Z.of_nat (S n)) = String "0" (str_mul "0" (Z.of_nat n)).
Proof.
  unfold str_mul. rewrite !Nat2Z.id. destruct n; reflexivity.
Qed.

Lemma str_take_zeros (n : nat) (h : string) :
  str_take n h = str_mul "0" (Z.of_nat n) -> (n <= leading_zeros h)%nat.
Proof.
  revert h. induction n as [|n IH]; intros h E.
  - lia.
  - rewrite str_mul_zero_succ in E.
    destruct h as [|c h]; simpl in E; [discriminate|].
    injection E as Ec Eh. subst c. simpl.
    apply IH in Eh. lia.
Qed.

Lemma meets_target_zeros (d : Z) (b : Block) :
  0 <= d -> meets_target d b = true ->
  (Z.to_nat d <= leading_zeros (hash b))%nat.
Proof.
  intros Hd Hm. unfold meets_target in Hm.
  apply String.eqb_eq in Hm.
  unfold slice_to in Hm.
  destruct (d <? 0) eqn:Hneg; [apply Z.ltb_lt in Hneg; lia|].
  apply str_take_zeros. rewrite Z2Nat.id by lia. exact Hm.
Qed.

Lemma meets_target_0 (b : Block) : meets_target 0 b = true.
Proof.
  unfold meets_target, slice_to, str_mul. simpl.
  destruct (hash b); reflexivity.
Qed.

(** ** The proof-of-work search *)

Lemma calculate_hash_set_hash (h : string) (b : Block) :
  calculate_hash (set_hash h b) = calculate_hash b.
Proof. reflexivity. Qed.

Lemma bump_at_nonce (n : nat) (b : Block) :
  bump (at_nonce n b) = at_nonce (S n) b.
Proof.
  unfold bump, at_nonce, set_hash, set_nonce. cbn [index transactions timestamp previous_hash nonce hash].
  rewrite Nat2Z.inj_succ. unfold Z.succ. reflexivity.
Qed.

Lemma new_Block_at_nonce (i : Z) (txs : list pyval) (t : pyfloat) (p : string) :
  new_Block i txs t p 0 = at_nonce 0 (new_Block i txs t p 0).
Proof. reflexivity. Qed.

Lemma bump_n_S (n : nat) (b : Block) : bump_n (S n) b = bump_n n (bump b).
Proof. reflexivity. Qed.

Lemma bump_n_at_nonce (n k : nat) (b : Block) :
  bump_n n (at_nonce k b) = at_nonce (n + k) b.
Proof.
  revert k. induction n as [|n IH]; intros k.
  - rewrite Nat.add_0_l. reflexivity.
  - rewrite bump_n_S, bump_at_nonce, IH, Nat.add_succ_r, Nat.add_succ_l.
    reflexivity.
Qed.

(** The search stops at a block that meets the target. *)
Lemma mine_block_meets (fuel : nat) (d : Z) (b b' : Block) :
  mine_block fuel d b = Some b' -> meets_target d b' = true.
Proof.
  revert b. induction fuel as [|fuel IH]; intros b; simpl.
  - destruct (meets_target d b) eqn:E; [|discriminate].
    intros [= <-]. exact E.
  - destruct (meets_target d b) eqn:E.
    + intros [= <-]. exact E.
    + apply IH.
Qed.

(** The search returns the candidate after some number of turns. *)
Lemma mine_block_bumps (fuel : nat) (d : Z) (b b' : Block) :
  mine_block fuel d b = Some b' -> exists n, (n <= fuel)%nat /\ b' = bump_n n b.
Proof.
  revert b. induction fuel as [|fuel IH]; intros b; simpl.
  - destruct (meets_target d b); [|discriminate].
    intros [= <-]. exists O. split; [lia|reflexivity].
  - destruct (meets_target d b).
    + intros [= <-]. exists O. split; [lia|reflexivity].
    + intros H. apply IH in H as (n & Hn & ->).
      exists (S n). split; [lia|reflexivity].
Qed.

(** With a nonce that meets the target within reach of the fuel, the
    search returns. *)
Lemma mine_block_enough_fuel (n : nat) :
  forall (fuel : nat) (d : Z) (b : Block),
    meets_target d (bump_n n b) = true -> (n <= fuel)%nat ->
    exists b', mine_block fuel d b = Some b'.
Proof.
  induction n as [|n IH]; intros fuel d b Hm Hle.
  - simpl in Hm. destruct fuel; simpl; rewrite Hm; eauto.
  - destruct fuel as [|fuel]; [lia|]. simpl.
    destruct (meets_target d b); [eauto|].
    apply IH; [exact Hm|lia].
Qed.

Lemma bump_n_fields (n : nat) (b : Block) :
  index (bump_n n b) = index b
  /\ transactions (bump_n n b) = transactions b
  /\ timestamp (bump_n n b) = timestamp b
  /\ previous_hash (bump_n n b) = previous_hash b
  /\ nonce (bump_n n b) = nonce b + Z.of_nat n.
Proof.
  revert b. induction n as [|n IH]; intros b.
  - simpl. repeat split; lia.
  - cbn [bump_n]. destruct (IH (bump b)) as (H1 & H2 & H3 & H4 & H5).
    rewrite H1, H2, H3, H4, H5. unfold bump, set_hash, set_nonce.
    cbn [index transactions timestamp previous_hash nonce hash].
    repeat split; lia.
Qed.


(** ** Chain verification *)

Lemma valid_from_spec (c : list Block) (steps : nat) :
  forall i : nat,
    (1 <= i)%nat -> (i + steps = List.length c)%nat ->
    valid_from c i steps = true
    <-> (forall (j : nat) (b : Block),
           (i <= j)%nat -> nth_error c j = Some b ->
           hash b = calculate_hash b
           /\ exists p, nth_error c (j - 1) = Some p /\ previous_hash b = hash p).
Proof.
  induction steps as [|steps IH]; intros i Hi Hlen.
  - simpl. split; [|reflexivity]. intros _ j b Hj Hb.
    assert (j < List.length c)%nat by (apply nth_error_Some; congruence). lia.
  - cbn [valid_from].
    destruct (nth_error c i) as [cur|] eqn:Ecur;
      [|apply nth_error_None in Ecur; lia].
    destruct (nth_error c (i - 1)) as [prev|] eqn:Eprev;
      [|apply nth_error_None in Eprev; lia].
    destruct (String.eqb (hash cur) (calculate_hash cur)) eqn:Eh; cbn [negb].
    2:{ split; [discriminate|]. intros H.
        destruct (H i cur (Nat.le_refl i) Ecur) as [Hh _].
        apply String.eqb_neq in Eh. contradiction. }
    destruct (String.eqb (previous_hash cur) (hash prev)) eqn:Ep; cbn [negb].
    2:{ split; [discriminate|]. intros H.
        destruct (H i cur (Nat.le_refl i) Ecur) as [_ (p & Hp & Hl)].
        rewrite Eprev in Hp. injection Hp as <-.
        apply String.eqb_neq in Ep. contradiction. }
    apply String.eqb_eq in Eh, Ep.
    rewrite (IH (S i)) by lia. split.
    + intros H j b Hj Hb.
      destruct (Nat.eq_dec j i) as [->|Hne].
      * rewrite Ecur in Hb. injection Hb as <-. split; [exact Eh|]. eauto.
      * apply H; [lia|exact Hb].
    + intros H j b Hj Hb. apply H; [lia|exact Hb].
Qed.

Lemma at_nonce_fields (n : nat) (b : Block) :
  index (at_nonce n b) = index b
  /\ transactions (at_nonce n b) = transactions b
  /\ timestamp (at_nonce n b) = timestamp b
  /\ previous_hash (at_nonce n b) = previous_hash b
  /\ nonce (at_nonce n b) = Z.of_nat n
  /\ hash (at_nonce n b) = calculate_hash (at_nonce n b).
Proof. repeat split. Qed.

(** The seal, given a nonce within reach of the fuel: the sealed block is
    the candidate at some nonce, with its hash recomputed. *)
Lemma mine_pending_transactions_returns
    (fuel n : nat) (miner : string) (now_block now_reward : pyfloat)
    (bc : Blockchain) (latest : Block) :
  get_latest_block bc = Ok latest ->
  meets_target (difficulty bc) (at_nonce n (candidate bc now_block latest)) = true ->
  (n <= fuel)%nat ->
  exists k : nat,
    mine_pending_transactions fuel miner now_block now_reward bc
    = Some (Ok (at_nonce k (candidate bc now_block latest),
                mkBlockchain
                  (chain bc ++ [at_nonce k (candidate bc now_block latest)])
                  (difficulty bc)
                  [reward_transaction miner (mining_reward bc) now_reward]
                  (mining_reward bc))).
Proof.
  intros Hl Hm Hle.
  unfold mine_pending_transactions. rewrite Hl.
  fold (candidate bc now_block latest).
  set (b0 := candidate bc now_block latest) in *.
  assert (E0 : b0 = at_nonce 0 b0) by apply new_Block_at_nonce.
  assert (Hm' : meets_target (difficulty bc) (bump_n n b0) = true).
  { rewrite E0, bump_n_at_nonce, Nat.add_0_r. exact Hm. }
  destruct (mine_block_enough_fuel n fuel _ b0 Hm' Hle) as [block Eb].
  rewrite Eb.
  destruct (mine_block_bumps _ _ _ _ Eb) as (k & _ & ->).
  exists k. rewrite E0 at 1 2. rewrite bump_n_at_nonce, Nat.add_0_r. reflexivity.
Qed.

(** ** Claims on the ledger *)

(** C2, counterexample. The ledger whose genesis block carries an
    overwritten hash passes [is_chain_valid], although the stated
    condition fails at index 0. *)
Lemma is_chain_valid_ignores_genesis :
  is_chain_valid ledger_tampered = true
  /\ ~ verify_stated (chain ledger_tampered).
Proof.
  split; [reflexivity|].
  intros H.
  destruct (H O _ eq_refl) as [Hh _].
  vm_compute in Hh. discriminate Hh.
Qed.

(** C2, amended. [is_chain_valid] returns true exactly when every block
    at an index from 1 on carries the hash recomputed from its stored
    fields and names the stored hash of the block before it. The block at
    index 0 is not examined. *)
Theorem is_chain_valid_iff_links (bc : Blockchain) :
  is_chain_valid bc = true <-> verify_links (chain bc).
Proof.
  unfold is_chain_valid, verify_links.
  destruct (chain bc) as [|g c] eqn:E.
  - simpl. split; [|reflexivity].
    intros _ i b _ Hb. destruct i; discriminate.
  - apply valid_from_spec; simpl; lia.
Qed.

(** C3, counterexample. At difficulty 1 the seal of [ledger1] at clock
    reading 1700000006.5 stops at nonce 14 with a hash that starts with two
    zeros, not with exactly one. *)
Lemma seal_hash_two_zeros_at_difficulty_1 :
  exists block bc',
    mine_pending_transactions 20 "miner" (t_at 6) (t_at 7) ledger1
      = Some (Ok (block, bc'))
    /\ difficulty ledger1 = 1
    /\ nonce block = 14
    /\ leading_zeros (hash block) = 2%nat
    /\ leading_zeros (hash block) <> Z.to_nat (difficulty ledger1).
Proof.
  eexists. eexists. split; [vm_compute; reflexivity|].
  vm_compute. repeat split; try reflexivity. discriminate.
Qed.

(** C3, amended. For every seal that returns at a difficulty [d >= 0],
    the hash of the returned block starts with at least [d] characters
    ['0'] (its first [d] characters are all ['0']; more may follow). At
    difficulty 0 the seal returns whatever the fuel, with nonce 0. *)
Theorem seal_hash_leading_zeros
    (miner : string) (now_block now_reward : pyfloat) (bc : Blockchain) :
  (forall (fuel : nat) (block : Block) (bc' : Blockchain),
      0 <= difficulty bc ->
      mine_pending_transactions fuel miner now_block now_reward bc
        = Some (Ok (block, bc')) ->
      slice_to (hash block) (difficulty bc) = str_mul "0" (difficulty bc)
      /\ (Z.to_nat (difficulty bc) <= leading_zeros (hash block))%nat)
  /\ (difficulty bc = 0 -> chain bc <> [] ->
      forall fuel : nat,
        exists block bc',
          mine_pending_transactions fuel miner now_block now_reward bc
            = Some (Ok (block, bc'))
          /\ nonce block = 0).
Proof.
  split.
  - intros fuel block bc' Hd H.
    unfold mine_pending_transactions in H.
    destruct (get_latest_block bc) as [latest|]; [|discriminate].
    destruct (mine_block fuel (difficulty bc) _) as [b|] eqn:Em; [|discriminate].
    injection H as <- _.
    apply mine_block_meets in Em. split.
    + unfold meets_target in Em. apply String.eqb_eq in Em. exact Em.
    + apply meets_target_zeros; assumption.
  - intros Hd Hne fuel.
    unfold mine_pending_transactions.
    destruct (get_latest_block bc) as [latest|msg] eqn:El.
    + rewrite Hd.
      assert (Hm : forall b, mine_block fuel 0 b = Some b).
      { intros b. destruct fuel; cbn [mine_block]; rewrite meets_target_0; reflexivity. }
      rewrite Hm. eexists. eexists. split; reflexivity.
    + exfalso. unfold get_latest_block in El.
      destruct (chain bc) as [|b c] using rev_ind; [congruence|].
      rewrite List.map_app in El. cbn [List.map] in El.
      rewrite last_last in El. discriminate.
Qed.

(** A run of the seal of [ledger1], for the amended C3. *)
Lemma seal_hash_leading_zeros_witness :
  exists block bc',
    mine_pending_transactions 20 "miner" (t_at 2) (t_at 3) ledger1
      = Some (Ok (block, bc'))
    /\ (Z.to_nat (difficulty ledger1) <= leading_zeros (hash block))%nat.
Proof.
  assert (E : exists block bc',
             mine_pending_transactions 20 "miner" (t_at 2) (t_at 3) ledger1
             = Some (Ok (block, bc'))).
  { eexists. eexists. vm_compute. reflexivity. }
  destruct E as (block & bc' & E).
  exists block, bc'. split; [exact E|].
  apply (proj1 (seal_hash_leading_zeros "miner" (t_at 2) (t_at 3) ledger1)
               20%nat block bc').
  - vm_compute. discriminate.
  - exact E.
Defined.



(** ** Validation *)

Lemma validate_field_frame (field : DataField) (data data' : pydict) (r : result unit) :
  DB.validate_field field data = (data', r) ->
  forall k : string, k <> f_name field -> dict_get k data' = dict_get k data.
Proof.
  unfold DB.validate_field. intros H k Hk.
  destruct (f_required field && negb (dict_mem (f_name field) data)).
  { injection H as <- _. reflexivity. }
  destruct (negb (dict_mem (f_name field) data) && negb (DB.is_none (f_default field))).
  2:{ destruct (dict_get (f_name field) data); injection H as <- _; reflexivity. }
  assert (E : dict_get k (dict_set (f_name field) (f_default field) data) = dict_get k data).
  { clear H. induction data as [|[k' v'] d IH]; simpl.
    - destruct (String.eqb k (f_name field)) eqn:E; [|reflexivity].
      apply String.eqb_eq in E. contradiction.
    - destruct (String.eqb (f_name field) k') eqn:E1; simpl.
      + apply String.eqb_eq in E1. subst k'.
        destruct (String.eqb k (f_name field)) eqn:E2; [|reflexivity].
        apply String.eqb_eq in E2. contradiction.
      + rewrite IH. reflexivity. }
  destruct (dict_get (f_name field) (dict_set _ _ data)); injection H as <- _; exact E.
Qed.

(** C4, the code at the failing input. A required field that is absent
    from the payload makes [_validate_data] raise before the default of
    the field is looked at: whatever default the field declares, the
    first turn of the loop raises "Required field ... is missing" and
    leaves the payload as it was. *)
Theorem required_check_precedes_default
    (model : DataModel) (field : DataField) (fields : list DataField) (data : pydict) :
  m_fields model = field :: fields ->
  f_required field = true ->
  dict_mem (f_name field) data = false ->
  DB._validate_data data model = (data, Raise (DB.missing field)).
Proof.
  intros Hf Hr Ha.
  unfold DB._validate_data. rewrite Hf.
  cbn [DB.validate_fields]. unfold DB.validate_field.
  rewrite Hr, Ha. reflexivity.
Qed.

(** The field [is_active] (required, default [True]) and the empty
    payload. *)
Lemma required_check_precedes_default_witness :
  f_default is_active_field = PyBool true
  /\ DB._validate_data [] (mkDataModel "User" [is_active_field] EmptyString (t_at 0) "1.0")
     = ([], Raise "Required field 'is_active' is missing").
Proof.
  split; [reflexivity|].
  apply (required_check_precedes_default
           (mkDataModel "User" [is_active_field] EmptyString (t_at 0) "1.0")
           is_active_field [] []); reflexivity.
Defined.

(** C5. A payload that fails validation against the model makes
    [add_data] return [None] and leaves the state as it was: tables,
    ledger, clock and id stream. *)
Theorem add_data_invalid_unchanged
    (db : HyperledgerIntegratedDB) (model_name : string) (model : DataModel)
    (data data' : pydict) (msg : string) :
  data_models db !! model_name = Some model ->
  DB._validate_data data model = (data', Raise msg) ->
  DB.add_data model_name data db = (db, None)
  /\ tbl_data_records (fst (DB.add_data model_name data db)) = tbl_data_records db
  /\ tbl_blockchain_transactions (fst (DB.add_data model_name data db))
     = tbl_blockchain_transactions db
  /\ List.length (pending_transactions (blockchain (fst (DB.add_data model_name data db))))
     = List.length (pending_transactions (blockchain db)).
Proof.
  intros Hm Hv.
  assert (E : DB.add_data model_name data db = (db, None)).
  { unfold DB.add_data, try_except, bind, DB.lookup_model, DB.validated.
    rewrite Hm, Hv. reflexivity. }
  rewrite E. repeat split.
Qed.

(** Model [Item] with the required integer field [qty], and the empty
    payload. *)
Lemma add_data_invalid_unchanged_witness :
  DB.add_data "Item" [] db_item = (db_item, None).
Proof.
  assert (Hm : exists model,
             data_models db_item !! "Item" = Some model
             /\ DB._validate_data [] model
                = ([], Raise "Required field 'qty' is missing")).
  { eexists. split; [vm_compute; reflexivity|reflexivity]. }
  destruct Hm as (model & Hm & Hv).
  exact (proj1 (add_data_invalid_unchanged db_item "Item" model [] [] _ Hm Hv)).
Defined.

(** ** Booleans under the integer type rule *)

Lemma dict_get_with_bool (key : string) (b : bool) (k : string) (d : pydict) :
  dict_get k (with_bool key b d)
  = if String.eqb key k
    then match dict_get k d with Some _ => Some (PyBool b) | None => None end
    else dict_get k d.
Proof.
  induction d as [|[k' v] d IH]; simpl.
  - destruct (String.eqb key k); reflexivity.
  - destruct (String.eqb key k') eqn:E1; simpl.
    + apply String.eqb_eq in E1. subst k'.
      destruct (String.eqb k key) eqn:E2.
      * apply String.eqb_eq in E2. subst k. rewrite String.eqb_refl. reflexivity.
      * exact IH.
    + destruct (String.eqb k k') eqn:E2; [|exact IH].
      apply String.eqb_eq in E2. subst k'. rewrite E1. reflexivity.
Qed.

Lemma dict_mem_with_bool (key : string) (b : bool) (k : string) (d : pydict) :
  dict_mem k (with_bool key b d) = dict_mem k d.
Proof.
  unfold dict_mem. rewrite dict_get_with_bool.
  destruct (String.eqb key k), (dict_get k d); reflexivity.
Qed.

Lemma dict_set_with_bool (key : string) (b : bool) (k : string) (v : pyval) (d : pydict) :
  k <> key ->
  dict_set k v (with_bool key b d) = with_bool key b (dict_set k v d).
Proof.
  intros Hk. induction d as [|[k' v'] d IH]; simpl.
  - destruct (String.eqb key k) eqn:E; [|reflexivity].
    apply String.eqb_eq in E. congruence.
  - destruct (String.eqb key k') eqn:E1; simpl.
    + destruct (String.eqb k k') eqn:E2; simpl; rewrite E1.
      * apply String.eqb_eq in E1, E2. congruence.
      * rewrite IH. reflexivity.
    + destruct (String.eqb k k') eqn:E2; simpl; rewrite E1.
      * reflexivity.
      * rewrite IH. reflexivity.
Qed.

(** Every type rule that lets an integer through lets a boolean through. *)
Lemma check_type_int_bool (field : DataField) (z : Z) (b : bool) (u : unit) :
  DB.check_type field (PyInt z) = Ok u -> DB.check_type field (PyBool b) = Ok tt.
Proof.
  unfold DB.check_type. cbn [is_str is_int is_float is_bool is_dict is_list negb orb].
  rewrite !andb_true_r, !andb_false_r.
  intros H.
  destruct (String.eqb (f_type field) "text"); [discriminate|].
  destruct (String.eqb (f_type field) "boolean"); [discriminate|].
  destruct (String.eqb (f_type field) "datetime"); [reflexivity|].
  destruct (String.eqb (f_type field) "json"); [discriminate|].
  reflexivity.
Qed.

Lemma validate_field_with_bool
    (key : string) (z : Z) (b : bool) (field : DataField) (data data' : pydict) (u : unit) :
  dict_get key data = Some (PyInt z) ->
  DB.validate_field field data = (data', Ok u) ->
  DB.validate_field field (with_bool key b data) = (with_bool key b data', Ok tt)
  /\ dict_get key data' = Some (PyInt z).
Proof.
  intros Hkey H.
  destruct (String.eqb (f_name field) key) eqn:Ename.
  - (* the field under the key: present, so no default is inserted *)
    apply String.eqb_eq in Ename.
    assert (Hmem : dict_mem (f_name field) data = true)
      by (unfold dict_mem; rewrite Ename, Hkey; reflexivity).
    unfold DB.validate_field in *. cbv zeta in *.
    rewrite dict_mem_with_bool.
    rewrite Hmem in *. cbn [negb andb] in *. rewrite andb_false_r in *.
    rewrite dict_get_with_bool.
    rewrite Ename in *. rewrite String.eqb_refl. rewrite Hkey in *.
    injection H as <- Hc. split; [|exact Hkey].
    f_equal. exact (check_type_int_bool field z b u Hc).
  - apply String.eqb_neq in Ename.
    assert (Hframe := validate_field_frame field data data' (Ok u) H key
                        (fun E => Ename (eq_sym E))).
    split; [|rewrite Hframe; exact Hkey].
    unfold DB.validate_field in *. cbv zeta in *.
    rewrite dict_mem_with_bool.
    destruct (f_required field && negb (dict_mem (f_name field) data)); [discriminate|].
    assert (Eget : forall d, dict_get (f_name field) (with_bool key b d)
                             = dict_get (f_name field) d).
    { intros d. rewrite dict_get_with_bool.
      destruct (String.eqb key (f_name field)) eqn:E; [|reflexivity].
      apply String.eqb_eq in E. congruence. }
    destruct (negb (dict_mem (f_name field) data) && negb (DB.is_none (f_default field))).
    + rewrite dict_set_with_bool by exact Ename. rewrite Eget.
      destruct (dict_get (f_name field) (dict_set _ _ data)) as [value|].
      * injection H as <- Hc. rewrite Hc. destruct u. reflexivity.
      * injection H as <- _. reflexivity.
    + rewrite Eget.
      destruct (dict_get (f_name field) data) as [value|].
      * injection H as <- Hc. rewrite Hc. destruct u. reflexivity.
      * injection H as <- _. reflexivity.
Qed.

Lemma validate_fields_with_bool (key : string) (z : Z) (b : bool) (fields : list DataField) :
  forall (data data' : pydict) (u : unit),
    dict_get key data = Some (PyInt z) ->
    DB.validate_fields fields data = (data', Ok u) ->
    DB.validate_fields fields (with_bool key b data) = (with_bool key b data', Ok tt).
Proof.
  induction fields as [|field fields IH]; intros data data' u Hkey H.
  - simpl in *. injection H as <-. reflexivity.
  - cbn [DB.validate_fields] in *.
    destruct (DB.validate_field field data) as [d1 [u1|msg]] eqn:E1.
    2:{ discriminate. }
    destruct (validate_field_with_bool key z b field data d1 u1 Hkey E1) as [E2 Hkey1].
    rewrite E2. eapply IH; eassumption.
Qed.

(** Once validation has passed, whether [add_data] returns an id, and
    which, does not depend on the payload. *)
Lemma add_data_success_payload
    (db : HyperledgerIntegratedDB) (model_name : string) (model : DataModel)
    (data1 data1' data2 data2' : pydict) (u1 u2 : unit) (db1 : HyperledgerIntegratedDB)
    (id : string) :
  data_models db !! model_name = Some model ->
  DB._validate_data data1 model = (data1', Ok u1) ->
  DB._validate_data data2 model = (data2', Ok u2) ->
  DB.add_data model_name data1 db = (db1, Some id) ->
  exists db2, DB.add_data model_name data2 db = (db2, Some id).
Proof.
  intros Hm H1 H2.
  unfold DB.add_data, try_except, bind, DB.lookup_model, DB.validated.
  rewrite Hm, H1, H2.
  unfold DB._add_to_blockchain, insert_data_record, insert_blockchain_transaction,
    update_data_records, modify, ret, bind, uuid4, time_time.
  cbn.
  destruct (existsb _ (tbl_data_records db)); cbn; [intros [=]|].
  destruct (existsb _ (tbl_blockchain_transactions db)); cbn; [intros [=]|].
  intros [= _ <-]. eexists. reflexivity.
Qed.

(** [add_data] returns an id only for a known model and a payload that
    validates. *)
Lemma add_data_success_validates
    (db db1 : HyperledgerIntegratedDB) (model_name : string) (data : pydict) (id : string) :
  DB.add_data model_name data db = (db1, Some id) ->
  exists model data' u,
    data_models db !! model_name = Some model
    /\ DB._validate_data data model = (data', Ok u).
Proof.
  unfold DB.add_data, try_except, bind, DB.lookup_model, DB.validated.
  destruct (data_models db !! model_name) as [model|]; [|discriminate].
  destruct (DB._validate_data data model) as [data' [u|msg]] eqn:Ev; [|discriminate].
  intros _. exists model, data', u. split; [reflexivity|exact Ev].
Qed.

(** C10. A boolean passes the type rule of a field tagged ['integer'];
    a payload that validates with an integer under some key validates with
    [True] or [False] under that key, whatever else the model and the
    payload hold; and where [add_data] returns an id for the former
    payload it returns that id for the latter. *)
Theorem integer_field_accepts_bool :
  (forall (field : DataField) (b : bool),
      f_type field = "integer" -> DB.check_type field (PyBool b) = Ok tt)
  /\ (forall (model : DataModel) (data data' : pydict) (key : string) (z : Z) (b : bool),
        dict_get key data = Some (PyInt z) ->
        DB._validate_data data model = (data', Ok tt) ->
        DB._validate_data (with_bool key b data) model = (with_bool key b data', Ok tt))
  /\ (forall (db db1 : HyperledgerIntegratedDB) (model_name : string) (data : pydict)
             (key : string) (z : Z) (b : bool) (id : string),
        dict_get key data = Some (PyInt z) ->
        DB.add_data model_name data db = (db1, Some id) ->
        exists db2, DB.add_data model_name (with_bool key b data) db = (db2, Some id)).
Proof.
  split; [|split].
  - intros field b Ht. unfold DB.check_type. rewrite Ht. reflexivity.
  - intros model data data' key z b Hkey H.
    exact (validate_fields_with_bool key z b (m_fields model) data data' tt Hkey H).
  - intros db db1 model_name data key z b id Hkey H.
    destruct (add_data_success_validates _ _ _ _ _ H) as (model & data' & u & Hm & Hv).
    assert (Hv' := validate_fields_with_bool key z b (m_fields model) data data' u Hkey Hv).
    exact (add_data_success_payload db model_name model data data'
             (with_bool key b data) (with_bool key b data') u tt db1 id Hm Hv Hv' H).
Qed.

(** The model [Item] and the payloads [{qty: 4}] and [{qty: True}]. *)
Lemma integer_field_accepts_bool_witness :
  snd (DB.add_data "Item" [("qty", PyInt 4)] db_item) = Some (sample_uuids 1)
  /\ snd (DB.add_data "Item" [("qty", PyBool true)] db_item) = Some (sample_uuids 1).
Proof.
  assert (H : snd (DB.add_data "Item" [("qty", PyInt 4)] db_item)
              = Some (sample_uuids 1)) by (vm_compute; reflexivity).
  split; [exact H|].
  apply pair_eta_snd in H.
  destruct (proj2 (proj2 integer_field_accepts_bool)
              db_item _ "Item" [("qty", PyInt 4)] "qty" 4 true _ eq_refl H)
    as [db2 H2].
  change (with_bool "qty" true [("qty", PyInt 4)]) with [("qty", PyBool true)] in H2.
  rewrite H2. reflexivity.
Defined.

(** ** Search *)




Lemma In_insert_by_created_at (r x : data_record) (l : list data_record) :
  In x (insert_by_created_at r l) <-> x = r \/ In x l.
Proof.
  induction l as [|r' l IH]; simpl.
  - intuition.
  - destruct (float_leb (r_created_at r) (r_created_at r')); simpl.
    + intuition.
    + rewrite IH. intuition.
Qed.

Lemma In_order_by_created_at (x : data_record) (l : list data_record) :
  In x (order_by_created_at l) <-> In x l.
Proof.
  unfold order_by_created_at. induction l as [|r l IH]; simpl.
  - reflexivity.
  - rewrite In_insert_by_created_at, IH. intuition.
Qed.

(** [get_all_data] returns the rows of the model, or all rows without a
    model name. *)
Lemma In_get_all_data (db : HyperledgerIntegratedDB) (model_name : option string)
    (x : data_record) :
  In x (DB.get_all_data model_name db)
  <-> In x (tbl_data_records db)
      /\ match model_name with
         | Some (String c n) => r_model_name x = String c n
         | _ => True
         end.
Proof.
  unfold DB.get_all_data.
  destruct model_name as [[|c n]|]; rewrite In_order_by_created_at.
  - intuition.
  - rewrite filter_In. rewrite String.eqb_eq. reflexivity.
  - intuition.
Qed.


(** The criterion ["ann"] holds on the stored text ["Anna"]; the
    criterion ["30"] does not hold on the stored integer 30, which the
    criterion 30 does. *)
Example search_data_examples :
  List.map r_data (DB.search_data (Some "Person") (Some [("name", PyStr "ann")]) db_person)
  = [[("name", PyStr "Anna"); ("age", PyInt 30)]]
  /\ DB.search_data (Some "Person") (Some [("age", PyStr "30")]) db_person = []
  /\ List.map r_data (DB.search_data (Some "Person") (Some [("age", PyInt 30)]) db_person)
     = [[("name", PyStr "Anna"); ("age", PyInt 30)]]
  /\ DB.search_data (Some "Person") (Some [("email", PyStr "a")]) db_person = [].
Proof. vm_compute. repeat split. Qed.

(** ** Mining from the record store *)











Lemma try_except_fst {A B : Type} (body : M A) (done : A -> B) (fallback : B)
    (db : HyperledgerIntegratedDB) :
  fst (try_except body done fallback db) = fst (body db).
Proof. unfold try_except. destruct (body db) as [db1 [a|msg]]; reflexivity. Qed.

(** The loop over the transactions of a sealed block finds no [id] on a
    staged transaction, and so updates nothing. *)
Lemma update_block_indices_staged (i : Z) (txs : list pyval)
    (db : HyperledgerIntegratedDB) :
  Forall staged txs -> DB.update_block_indices i txs db = (db, Ok tt).
Proof.
  induction 1 as [|transaction txs (s & r & a & d & t & ->) _ IH];
    cbn [DB.update_block_indices].
  - reflexivity.
  - unfold bind at 1. cbn. exact IH.
Qed.

Lemma mine_pending_transactions_inv
    (fuel : nat) (miner : string) (now_block now_reward : pyfloat)
    (bc bc' : Blockchain) (block : Block) :
  mine_pending_transactions fuel miner now_block now_reward bc = Some (Ok (block, bc')) ->
  transactions block = pending_transactions bc
  /\ index block = Z.of_nat (List.length (chain bc))
  /\ bc' = mkBlockchain (chain bc ++ [block]) (difficulty bc)
             [reward_transaction miner (mining_reward bc) now_reward]
             (mining_reward bc).
Proof.
  unfold mine_pending_transactions.
  destruct (get_latest_block bc) as [latest|]; [|discriminate].
  destruct (mine_block fuel (difficulty bc) _) as [b|] eqn:Em; [|discriminate].
  intros [= <- <-].
  destruct (mine_block_bumps _ _ _ _ Em) as (k & _ & ->).
  destruct (bump_n_fields k (new_Block (Z.of_nat (List.length (chain bc)))
                               (pending_transactions bc) now_block (hash latest) 0))
    as (H1 & H2 & _).
  rewrite H1, H2. repeat split.
Qed.


(** Every way the pending list changes leaves it made of staged
    transactions. *)
Lemma staged_new_Blockchain (d : Z) (now : pyfloat) :
  Forall staged (pending_transactions (new_Blockchain d now)).
Proof. constructor. Qed.

Lemma staged_add_transaction
    (sender recipient : string) (amount data : pyval) (now : pyfloat) (bc : Blockchain) :
  Forall staged (pending_transactions bc) ->
  Forall staged
    (pending_transactions (snd (add_transaction sender recipient amount data now bc))).
Proof.
  intros H. cbn [add_transaction snd pending_transactions].
  apply Forall_app. split; [exact H|].
  constructor; [|constructor].
  exists sender, recipient, amount, (or_empty_dict data), now. reflexivity.
Qed.

Lemma staged_reward (miner : string) (reward : Z) (now : pyfloat) :
  staged (reward_transaction miner reward now).
Proof. exists "system", miner, (PyInt reward), (PyDict []), now. reflexivity. Qed.

(** [mine_block] never writes a block index: with a pending list of
    staged transactions, the tables of records and of logged transactions
    come out of the call as they went in. *)
Lemma mine_block_never_backfills
    (fuel : nat) (db db' : HyperledgerIntegratedDB) (r : option DB.block_summary) :
  Forall staged (pending_transactions (blockchain db)) ->
  DB.mine_block fuel db = Some (db', r) ->
  tbl_data_records db' = tbl_data_records db
  /\ tbl_blockchain_transactions db' = tbl_blockchain_transactions db.
Proof.
  intros Hst. unfold DB.mine_block.
  destruct (pending_transactions (blockchain db)) as [|tx txs] eqn:Hp.
  { intros [= <- _]. split; reflexivity. }
  rewrite <- Hp in Hst.
  destruct (mine_pending_transactions fuel "system" _ _ (blockchain db))
    as [[[block bc]|msg]|] eqn:Es; [| |discriminate].
  2:{ intros [= <- _]. split; reflexivity. }
  destruct (mine_pending_transactions_inv _ _ _ _ _ _ _ Es) as (Htx & _ & _).
  rewrite <- Htx in Hst.
  intros [= E]. apply (f_equal fst) in E. cbn [fst] in E.
  rewrite try_except_fst in E. subst db'.
  unfold bind, insert_blockchain_block.
  destruct (existsb _ _); cbn [fst].
  { split; reflexivity. }
  rewrite update_block_indices_staged by exact Hst.
  split; reflexivity.
Qed.

(** C1, the code at the failing input. Model [Item], a first block, three
    records added, then [mine_block]: the call returns the summary of
    block 2 with four transactions; the block holds the reward and the
    three [data_creation] entries that embed the three record ids; and
    yet every record row and every logged transaction is left without a
    block index. *)
Theorem mine_block_leaves_block_index_unset :
  option_map
    (fun out =>
       (option_map (fun s => (DB.s_index s, DB.s_transaction_count s)) (snd out),
        block_index_report (fst out)))
    (DB.mine_block 100 db_item3)
  = Some
      ( Some (2, 4%nat),
        ( Some (2, [ None;
                     Some (PyStr (sample_uuids 1));
                     Some (PyStr (sample_uuids 3));
                     Some (PyStr (sample_uuids 5)) ]),
          [ (sample_uuids 1, None); (sample_uuids 3, None); (sample_uuids 5, None) ],
          [ (PyNone, None);
            (PyStr (sample_uuids 1), None);
            (PyStr (sample_uuids 3), None);
            (PyStr (sample_uuids 5), None) ] ) ).
Proof. vm_compute. reflexivity. Qed.




(** ** Updates *)


Lemma select_after_update (id : string) (f : data_record -> data_record)
    (l : list data_record) (row : data_record) :
  (forall r, r_id (f r) = r_id r) ->
  List.find (fun r => String.eqb (r_id r) id) l = Some row ->
  List.find (fun r => String.eqb (r_id r) id)
            (List.map (fun r => if sql_text_eq (r_id r) (PyStr id) then f r else r) l)
  = Some (f row).
Proof.
  intros Hf. induction l as [|r l IH]; simpl; [discriminate|].
  destruct (String.eqb (r_id r) id) eqn:E.
  - intros [= ->]. rewrite Hf, E. reflexivity.
  - rewrite E. exact IH.
Qed.

(** Validation adds nothing to a payload when every field is present or
    declares no default. *)
Lemma validate_fields_no_default (fields : list DataField) :
  forall (data data' : pydict) (r : result unit),
    Forall (fun field => dict_mem (f_name field) data = true
                         \/ f_default field = PyNone) fields ->
    DB.validate_fields fields data = (data', r) ->
    data' = data.
Proof.
  induction fields as [|field fields IH]; intros data data' r Hall H.
  - simpl in H. congruence.
  - inversion Hall as [|? ? Hfield Hrest]; subst.
    cbn [DB.validate_fields] in H.
    assert (Hstep : fst (DB.validate_field field data) = data).
    { unfold DB.validate_field.
      destruct (f_required field && negb (dict_mem (f_name field) data)); [reflexivity|].
      assert (Hno : negb (dict_mem (f_name field) data)
                    && negb (DB.is_none (f_default field)) = false).
      { destruct Hfield as [-> | ->]; [reflexivity|]. apply andb_false_r. }
      cbv zeta. rewrite Hno.
      destruct (dict_get (f_name field) data); reflexivity. }
    destruct (DB.validate_field field data) as [d1 [u|msg]]; cbn [fst] in Hstep; subst d1.
    + eapply IH; eassumption.
    + congruence.
Qed.

(** What [update_data] does to a record that exists, for a payload that
    validation leaves as [data']. *)
Lemma update_data_effect
    (db : HyperledgerIntegratedDB) (record_id : string) (data data' : pydict)
    (row : data_record) :
  DB.get_data record_id db = Some row ->
  match data_models db !! r_model_name row with
  | Some model => exists u, DB._validate_data data model = (data', Ok u)
  | None => data' = data
  end ->
  exists (db' : HyperledgerIntegratedDB) (ok : bool),
    DB.update_data record_id data db = (db', ok)
    /\ DB.get_data record_id db' = Some (set_data data' (clock db (ticks db)) row)
    /\ pending_transactions (blockchain db')
       = (pending_transactions (blockchain db)
          ++ [make_transaction "system" "system" (PyFloat DB.float_zero)
                (update_entry (uuids db (draws db)) record_id (r_model_name row)
                              (r_data row) data' (clock db (ticks db))
                              (clock db (S (ticks db))))
                (clock db (S (S (ticks db))))])%list
    /\ (existsb (fun r => String.eqb (t_id r) (uuids db (draws db)))
                (tbl_blockchain_transactions db) = false ->
        ok = true).
Proof.
  intros Hrow Hval.
  assert (Hsel : List.find (fun r => String.eqb (r_id r) record_id) (tbl_data_records db)
                 = Some row) by exact Hrow.
  assert (Hv : (match data_models db !! r_model_name row with
                | Some model => DB.validated data model
                | None => ret data
                end) db = (db, Ok data')).
  { destruct (data_models db !! r_model_name row) as [model|].
    - destruct Hval as [u Hu]. unfold DB.validated. rewrite Hu. reflexivity.
    - subst data'. reflexivity. }
  unfold DB.update_data, try_except.
  assert (Hfetch : select_data_record record_id db = Some row) by exact Hrow.
  unfold bind at 1. unfold DB.fetch_record. rewrite Hfetch.
  unfold bind at 1. unfold gets at 1.
  unfold bind at 1. rewrite Hv.
  unfold DB._add_to_blockchain, insert_blockchain_transaction, update_data_records,
    modify, ret, bind, uuid4, time_time.
  cbn.
  destruct (existsb _ (tbl_blockchain_transactions db)) eqn:Ex;
    (eexists; eexists; split; [reflexivity|]);
    unfold DB.get_data, select_data_record; cbn;
    (split; [apply select_after_update; [reflexivity|exact Hsel]|]);
    (split; [reflexivity|]).
  - intros [=].
  - reflexivity.
Qed.

(** C7, counterexample. Model [Pair] gives [b] the default 5. The record
    [{a: 1, b: 7}] updated with the payload [{a: 2}], which validates,
    is stored as [{a: 2, b: 5}]: the field [b], present before and absent
    from the new payload, is not dropped. *)
Lemma update_data_restores_defaulted_field :
  option_map r_data (DB.get_data pair_id db_pair)
    = Some [("a", PyInt 1); ("b", PyInt 7)]
  /\ option_map r_data
       (DB.get_data pair_id (fst (DB.update_data pair_id [("a", PyInt 2)] db_pair)))
     = Some [("a", PyInt 2); ("b", PyInt 5)]
  /\ ~ full_replace_stated db_pair pair_id [("a", PyInt 2)].
Proof.
  assert (Hafter : option_map r_data
            (DB.get_data pair_id (fst (DB.update_data pair_id [("a", PyInt 2)] db_pair)))
          = Some [("a", PyInt 2); ("b", PyInt 5)]) by (vm_compute; reflexivity).
  split; [vm_compute; reflexivity|]. split; [exact Hafter|].
  intros H.
  assert (Hrow : exists row,
             DB.get_data pair_id db_pair = Some row
             /\ r_model_name row = "Pair"
             /\ r_data row = [("a", PyInt 1); ("b", PyInt 7)]).
  { eexists. split; [vm_compute; reflexivity|]. split; reflexivity. }
  destruct Hrow as (row & Hrow & Hname & Hdata).
  assert (Hmodel : exists model,
             data_models db_pair !! "Pair" = Some model
             /\ DB._validate_data [("a", PyInt 2)] model
                = ([("a", PyInt 2); ("b", PyInt 5)], Ok tt)).
  { eexists. split; [vm_compute; reflexivity|]. reflexivity. }
  destruct Hmodel as (model & Hmodel & Hvalid).
  rewrite <- Hname in Hmodel.
  assert (Hok : snd (DB.update_data pair_id [("a", PyInt 2)] db_pair) = true)
    by (vm_compute; reflexivity).
  apply pair_eta_snd in Hok.
  destruct (H row model tt _ _ Hrow Hmodel Hvalid Hok) as (row' & Hget & Hdrop).
  rewrite Hget in Hafter. injection Hafter as Hafter.
  specialize (Hdrop "b"). rewrite Hdata, Hafter in Hdrop.
  discriminate (Hdrop eq_refl eq_refl).
Qed.

(** C7, amended. For a record that exists and a payload that validates
    against the record's model (or whose model is not registered),
    [update_data] stores the payload as validation leaves it, that is with
    the defaults validation inserted, in place of the previous payload,
    sets [updated_at] to the reading of the clock, and stages a ledger
    transaction of type [data_update] that embeds the previous payload and
    the stored one; it returns true when the id drawn for the transaction
    is not taken. Where every field of the model is present in the payload
    or declares no default, what is stored is the payload as given. *)
Theorem update_data_replaces_with_validated
    (db : HyperledgerIntegratedDB) (record_id : string) (data data' : pydict)
    (row : data_record) :
  DB.get_data record_id db = Some row ->
  match data_models db !! r_model_name row with
  | Some model => exists u, DB._validate_data data model = (data', Ok u)
  | None => data' = data
  end ->
  (exists (db' : HyperledgerIntegratedDB) (ok : bool) (row' : data_record),
      DB.update_data record_id data db = (db', ok)
      /\ DB.get_data record_id db' = Some row'
      /\ r_data row' = data'
      /\ r_updated_at row' = clock db (ticks db)
      /\ (forall k : string, dict_mem k data' = false -> dict_mem k (r_data row') = false)
      /\ pending_transactions (blockchain db')
         = (pending_transactions (blockchain db)
            ++ [make_transaction "system" "system" (PyFloat DB.float_zero)
                  (update_entry (uuids db (draws db)) record_id (r_model_name row)
                                (r_data row) data' (clock db (ticks db))
                                (clock db (S (ticks db))))
                  (clock db (S (S (ticks db))))])%list
      /\ (existsb (fun r => String.eqb (t_id r) (uuids db (draws db)))
                  (tbl_blockchain_transactions db) = false ->
          ok = true))
  /\ (forall model : DataModel,
        data_models db !! r_model_name row = Some model ->
        Forall (fun field => dict_mem (f_name field) data = true
                             \/ f_default field = PyNone) (m_fields model) ->
        data' = data).
Proof.
  intros Hrow Hval. split.
  - destruct (update_data_effect db record_id data data' row Hrow Hval)
      as (db' & ok & Hup & Hget & Hpend & Hok).
    exists db', ok, (set_data data' (clock db (ticks db)) row).
    repeat split; try assumption. intros k Hk. exact Hk.
  - intros model Hm Hall. rewrite Hm in Hval. destruct Hval as [u Hu].
    exact (validate_fields_no_default _ _ _ _ Hall Hu).
Qed.

(** The record of [db_pair] updated with [{a: 2}], for the amended C7:
    what is stored is [{a: 2, b: 5}]. *)
Lemma update_data_replaces_with_validated_witness :
  exists (db' : HyperledgerIntegratedDB) (ok : bool) (row' : data_record),
    DB.update_data pair_id [("a", PyInt 2)] db_pair = (db', ok)
    /\ DB.get_data pair_id db' = Some row'
    /\ r_data row' = [("a", PyInt 2); ("b", PyInt 5)]
    /\ r_updated_at row' = clock db_pair (ticks db_pair).
Proof.
  assert (Hrow : DB.get_data pair_id db_pair = Some pair_row)
    by (vm_compute; reflexivity).
  assert (Hval : match data_models db_pair !! r_model_name pair_row with
                 | Some model =>
                     exists u, DB._validate_data [("a", PyInt 2)] model
                               = ([("a", PyInt 2); ("b", PyInt 5)], Ok u)
                 | None => [("a", PyInt 2); ("b", PyInt 5)] = [("a", PyInt 2)]
                 end).
  { assert (Hm : exists model,
               data_models db_pair !! r_model_name pair_row = Some model
               /\ DB._validate_data [("a", PyInt 2)] model
                  = ([("a", PyInt 2); ("b", PyInt 5)], Ok tt)).
    { eexists. split; [vm_compute; reflexivity|reflexivity]. }
    destruct Hm as (model & -> & Hv). exists tt. exact Hv. }
  destruct (proj1 (update_data_replaces_with_validated db_pair pair_id
                     [("a", PyInt 2)] [("a", PyInt 2); ("b", PyInt 5)]
                     pair_row Hrow Hval))
    as (db' & ok & row' & Hup & Hget & Hdata & Htime & _).
  exists db', ok, row'. exact (conj Hup (conj Hget (conj Hdata Htime))).
Defined.


(** * Further properties *)

(** ** Ledger *)

Lemma is_chain_valid_links (bc : Blockchain) :
  is_chain_valid bc = true <-> verify_links (chain bc).
Proof.
  unfold is_chain_valid, verify_links.
  destruct (chain bc) as [|g c] eqn:E.
  - simpl. split; [|reflexivity].
    intros _ i b _ Hb. destruct i; discriminate.
  - apply valid_from_spec; simpl; lia.
Qed.

Lemma verify_stated_links (c : list Block) : verify_stated c -> verify_links c.
Proof.
  intros H i b Hi Hb. destruct (H i b Hb) as [Hh [->|Hp]]; [lia|].
  split; assumption.
Qed.

Lemma nth_error_snoc {A : Type} (l : list A) (x y : A) (i : nat) :
  nth_error (l ++ [x]) i = Some y ->
  ((i < List.length l)%nat /\ nth_error l i = Some y)
  \/ (i = List.length l /\ y = x).
Proof.
  intros H. destruct (Nat.lt_ge_cases i (List.length l)) as [Hlt|Hge].
  - left. split; [exact Hlt|]. rewrite nth_error_app1 in H by exact Hlt. exact H.
  - right. rewrite nth_error_app2 in H by exact Hge.
    destruct (i - List.length l)%nat as [|k] eqn:Ek; simpl in H.
    + injection H as <-. split; [lia|reflexivity].
    + destruct k; discriminate.
Qed.

Lemma nth_error_last_block (c : list Block) (tip : Block) :
  List.last (List.map Some c) None = Some tip ->
  nth_error c (List.length c - 1) = Some tip.
Proof.
  destruct c as [|b c] using rev_ind; [discriminate|].
  rewrite List.map_app. cbn [List.map]. rewrite last_last. intros [= ->].
  rewrite length_app. cbn [List.length].
  rewrite nth_error_app2 by lia.
  replace (List.length c + 1 - 1 - List.length c)%nat with O by lia. reflexivity.
Qed.

(** Appending a block that carries its own hash, names the hash of the
    tip and sits at the next index keeps the chain conditions. *)
Lemma chain_snoc (c : list Block) (tip b : Block) :
  nth_error c (List.length c - 1) = Some tip ->
  hash b = calculate_hash b ->
  previous_hash b = hash tip ->
  verify_stated c -> verify_stated (c ++ [b]).
Proof.
  intros Htip Hh Hp Hc i x Hx.
  destruct (nth_error_snoc _ _ _ _ Hx) as [[Hlt Hin]|[-> ->]].
  - destruct (Hc i x Hin) as [H1 [->|(p & Hp1 & Hp2)]].
    + split; [exact H1|left; reflexivity].
    + split; [exact H1|]. right. exists p. split; [|exact Hp2].
      rewrite nth_error_app1; [exact Hp1|lia].
  - split; [exact Hh|]. right. exists tip. split; [|exact Hp].
    destruct c as [|g c]; [discriminate|].
    rewrite nth_error_app1; [exact Htip|simpl; lia].
Qed.

Lemma get_latest_block_nth (bc : Blockchain) (tip : Block) :
  get_latest_block bc = Ok tip ->
  nth_error (chain bc) (List.length (chain bc) - 1) = Some tip /\ chain bc <> [].
Proof.
  unfold get_latest_block.
  destruct (List.last (List.map Some (chain bc)) None) as [b|] eqn:E; [|discriminate].
  intros [= ->]. split; [apply nth_error_last_block; exact E|].
  intros Hc. rewrite Hc in E. discriminate.
Qed.

(** The seal as an equation on the outcome. *)
Lemma mine_pending_transactions_shape
    (fuel : nat) (miner : string) (now_block now_reward : pyfloat)
    (bc bc' : Blockchain) (block : Block) :
  mine_pending_transactions fuel miner now_block now_reward bc = Some (Ok (block, bc')) ->
  exists (tip : Block) (k : nat),
    get_latest_block bc = Ok tip
    /\ block = at_nonce k (candidate bc now_block tip)
    /\ (k <= fuel)%nat
    /\ meets_target (difficulty bc) block = true
    /\ (forall j : nat, (j < k)%nat ->
          meets_target (difficulty bc) (at_nonce j (candidate bc now_block tip)) = false)
    /\ bc' = mkBlockchain (chain bc ++ [block]) (difficulty bc)
               [reward_transaction miner (mining_reward bc) now_reward]
               (mining_reward bc).
Proof.
  unfold mine_pending_transactions.
  destruct (get_latest_block bc) as [tip|]; [|discriminate].
  fold (candidate bc now_block tip).
  set (b0 := candidate bc now_block tip).
  destruct (mine_block fuel (difficulty bc) b0) as [b|] eqn:Em; [|discriminate].
  intros [= <- <-]. exists tip.
  assert (E0 : b0 = at_nonce 0 b0) by apply new_Block_at_nonce.
  assert (Hleast : exists k, b = bump_n k b0 /\ (k <= fuel)%nat
                    /\ forall j, (j < k)%nat ->
                         meets_target (difficulty bc) (bump_n j b0) = false).
  { clear E0. revert Em. generalize b0. clear b0.
    induction fuel as [|fuel IH]; intros b0; cbn [mine_block].
    - destruct (meets_target (difficulty bc) b0) eqn:E; [|discriminate].
      intros [= <-]. exists O. split; [reflexivity|]. split; [lia|]. intros j Hj. lia.
    - destruct (meets_target (difficulty bc) b0) eqn:E.
      + intros [= <-]. exists O. split; [reflexivity|]. split; [lia|].
        intros j Hj. lia.
      + intros H. destruct (IH _ H) as (k & -> & Hle & Hk).
        exists (S k). split; [reflexivity|]. split; [lia|].
        intros [|j] Hj; [exact E|]. rewrite bump_n_S. apply Hk. lia. }
  destruct Hleast as (k & -> & Hle & Hk). exists k.
  assert (Ek : forall j, bump_n j b0 = at_nonce j b0).
  { intros j. rewrite E0 at 1. rewrite bump_n_at_nonce, Nat.add_0_r. reflexivity. }
  rewrite Ek. split; [reflexivity|]. split; [reflexivity|]. split; [exact Hle|].
  split; [rewrite <- Ek; exact (mine_block_meets _ _ _ _ Em)|].
  split; [|reflexivity].
  intros j Hj. rewrite <- Ek. apply Hk. exact Hj.
Qed.

Lemma links_snoc (c : list Block) (tip b : Block) :
  nth_error c (List.length c - 1) = Some tip ->
  c <> [] ->
  hash b = calculate_hash b ->
  previous_hash b = hash tip ->
  verify_links c -> verify_links (c ++ [b]).
Proof.
  intros Htip Hne Hh Hp Hc i x Hi Hx.
  destruct (nth_error_snoc _ _ _ _ Hx) as [[Hlt Hin]|[-> ->]].
  - destruct (Hc i x Hi Hin) as [H1 (p & Hp1 & Hp2)].
    split; [exact H1|]. exists p. split; [|exact Hp2].
    rewrite nth_error_app1; [exact Hp1|lia].
  - split; [exact Hh|]. exists tip. split; [|exact Hp].
    destruct c as [|g c]; [congruence|].
    rewrite nth_error_app1; [exact Htip|simpl; lia].
Qed.

Lemma new_Block_hash (i : Z) (txs : list pyval) (t : pyfloat) (p : string) :
  hash (new_Block i txs t p 0) = calculate_hash (new_Block i txs t p 0).
Proof.
  rewrite new_Block_at_nonce. apply at_nonce_fields.
Qed.

Lemma ledger_ok_new (d : Z) (now : pyfloat) : ledger_ok (new_Blockchain d now).
Proof.
  revert d now.
  intros d now. unfold ledger_ok, new_Blockchain.
  cbn [chain difficulty pending_transactions].
  split; [discriminate|]. split; [|split; [|split]].
  + intros [|[|i]] b; simpl; try discriminate.
    intros [= <-]. split; [apply new_Block_hash|left; reflexivity].
  + intros [|[|i]] b; simpl; try discriminate. intros [= <-]. reflexivity.
  + intros [|[|i]] b Hi; simpl; try discriminate. lia.
  + constructor.
Qed.

Lemma ledger_ok_add_transaction
    (sender recipient : string) (amount data : pyval) (now : pyfloat) (bc : Blockchain) :
  ledger_ok bc ->
  ledger_ok (snd (add_transaction sender recipient amount data now bc)).
Proof.
  revert sender recipient amount data now bc.
  intros sender recipient amount data now bc (H1 & H2 & H3 & H4 & H5).
  unfold ledger_ok. cbn [add_transaction snd chain difficulty].
  split; [exact H1|]. split; [exact H2|]. split; [exact H3|]. split; [exact H4|].
  apply (staged_add_transaction sender recipient amount data now bc H5).
Qed.

Lemma ledger_ok_seal
    (fuel : nat) (miner : string) (now_block now_reward : pyfloat)
    (bc bc' : Blockchain) (block : Block) :
  ledger_ok bc ->
  mine_pending_transactions fuel miner now_block now_reward bc = Some (Ok (block, bc')) ->
  ledger_ok bc'.
Proof.
  revert fuel miner now_block now_reward bc bc' block.
  intros fuel miner now_block now_reward bc bc' block (H1 & H2 & H3 & H4 & H5) Hs.
  destruct (mine_pending_transactions_shape _ _ _ _ _ _ _ Hs)
    as (tip & k & Htip & Hb & _ & Hm & _ & ->).
  destruct (get_latest_block_nth _ _ Htip) as [Hnth _].
  destruct (at_nonce_fields k (candidate bc now_block tip))
    as (F1 & _ & _ & F4 & _ & F6).
  unfold ledger_ok. cbn [chain difficulty pending_transactions].
  split; [intros E; apply app_eq_nil in E as [_ E]; discriminate|].
  split; [|split; [|split]].
  + apply (chain_snoc _ tip); try assumption.
    * rewrite Hb. exact F6.
    * rewrite Hb, F4. reflexivity.
  + intros i x Hx.
    destruct (nth_error_snoc _ _ _ _ Hx) as [[_ Hin]|[-> ->]].
    * apply H3. exact Hin.
    * rewrite Hb, F1. reflexivity.
  + intros i x Hi Hx.
    destruct (nth_error_snoc _ _ _ _ Hx) as [[_ Hin]|[-> ->]].
    * apply (H4 i); assumption.
    * exact Hm.
  + constructor; [apply staged_reward|constructor].
Qed.

(** X1. The conditions a ledger keeps. A new ledger holds one block,
    every block carries the hash of its fields (the genesis block
    included), every later block names the hash of the block before it,
    sits at the position its index names and meets the target of the
    difficulty, and every pending transaction has the five keys of a
    staged transaction; [add_transaction] and a seal that returns keep all
    of this true. *)
Theorem ledger_ok_kept :
  (forall (d : Z) (now : pyfloat), ledger_ok (new_Blockchain d now))
  /\ (forall (sender recipient : string) (amount data : pyval) (now : pyfloat)
             (bc : Blockchain),
        ledger_ok bc ->
        ledger_ok (snd (add_transaction sender recipient amount data now bc)))
  /\ (forall (fuel : nat) (miner : string) (now_block now_reward : pyfloat)
             (bc bc' : Blockchain) (block : Block),
        ledger_ok bc ->
        mine_pending_transactions fuel miner now_block now_reward bc
          = Some (Ok (block, bc')) ->
        ledger_ok bc').
Proof.
  split; [exact ledger_ok_new|].
  split; [exact ledger_ok_add_transaction|exact ledger_ok_seal].
Qed.

(** The seal of [ledger1] keeps the conditions. *)
Lemma ledger_ok_kept_witness : ledger_ok ledger2.
Proof.
  assert (H0 : ledger_ok ledger0) by apply (proj1 ledger_ok_kept).
  assert (H1 : ledger_ok ledger1)
    by apply (proj1 (proj2 ledger_ok_kept) "alice" "bob" (PyInt 5) (PyDict [])
                (t_at 1) ledger0 H0).
  assert (E : exists block,
             mine_pending_transactions 20 "miner" (t_at 6) (t_at 7) ledger1
             = Some (Ok (block, ledger2))).
  { unfold ledger2, ledger_after.
    destruct (mine_pending_transactions 20 "miner" (t_at 6) (t_at 7) ledger1)
      as [[[block bc]|msg]|] eqn:E.
    - exists block. reflexivity.
    - exfalso. revert E. vm_compute. discriminate.
    - exfalso. revert E. vm_compute. discriminate. }
  destruct E as [block E].
  exact (proj2 (proj2 ledger_ok_kept) 20%nat "miner" (t_at 6) (t_at 7)
               ledger1 ledger2 block H1 E).
Defined.

(** X2. The search returns the least nonce: the sealed block is the
    candidate at a nonce [k] counted from 0, its hash meets the target,
    and no smaller nonce does. *)
Theorem seal_least_nonce
    (fuel : nat) (miner : string) (now_block now_reward : pyfloat)
    (bc bc' : Blockchain) (block : Block) :
  mine_pending_transactions fuel miner now_block now_reward bc = Some (Ok (block, bc')) ->
  exists (tip : Block) (k : nat),
    get_latest_block bc = Ok tip
    /\ nonce block = Z.of_nat k
    /\ hash block = calculate_hash block
    /\ meets_target (difficulty bc) block = true
    /\ (k <= fuel)%nat
    /\ forall j : nat, (j < k)%nat ->
         meets_target (difficulty bc) (at_nonce j (candidate bc now_block tip)) = false.
Proof.
  intros Hs.
  destruct (mine_pending_transactions_shape _ _ _ _ _ _ _ Hs)
    as (tip & k & Htip & Hb & Hle & Hm & Hleast & _).
  exists tip, k. split; [exact Htip|].
  destruct (at_nonce_fields k (candidate bc now_block tip)) as (_ & _ & _ & _ & F5 & F6).
  rewrite <- Hb in F5, F6.
  split; [exact F5|]. split; [exact F6|].
  split; [exact Hm|]. split; [exact Hle|exact Hleast].
Qed.

(** The seal of [ledger1]: nonce 14 and no smaller one. *)
Lemma seal_least_nonce_witness :
  exists (block : Block) (bc' : Blockchain),
    mine_pending_transactions 20 "miner" (t_at 6) (t_at 7) ledger1
      = Some (Ok (block, bc'))
    /\ nonce block = 14.
Proof.
  assert (E : exists block bc',
             mine_pending_transactions 20 "miner" (t_at 6) (t_at 7) ledger1
             = Some (Ok (block, bc')) /\ nonce block = 14).
  { eexists. eexists. split; [vm_compute; reflexivity|]. vm_compute. reflexivity. }
  destruct E as (block & bc' & E & Hn).
  destruct (seal_least_nonce _ _ _ _ _ _ _ E) as (tip & k & _ & Hk & _).
  exists block, bc'. split; [exact E|exact Hn].
Defined.

(** X3. The value [add_transaction] returns is one more than the index
    of the block that holds the transaction: it returns [len(chain) + 1],
    and the seal that follows puts the transaction, last of the pending
    list, into the block at index [len(chain)]. *)
Theorem add_transaction_index_off_by_one
    (sender recipient : string) (amount data : pyval) (now : pyfloat)
    (fuel : nat) (miner : string) (now_block now_reward : pyfloat)
    (bc bc' : Blockchain) (block : Block) :
  mine_pending_transactions fuel miner now_block now_reward
    (snd (add_transaction sender recipient amount data now bc))
    = Some (Ok (block, bc')) ->
  fst (add_transaction sender recipient amount data now bc)
    = Z.of_nat (List.length (chain bc)) + 1
  /\ index block = fst (add_transaction sender recipient amount data now bc) - 1
  /\ transactions block
     = (pending_transactions bc
        ++ [make_transaction sender recipient amount (or_empty_dict data) now])%list.
Proof.
  intros Hs.
  destruct (mine_pending_transactions_inv _ _ _ _ _ _ _ Hs) as (Htx & Hidx & _).
  cbn [add_transaction fst snd chain pending_transactions] in *.
  split; [reflexivity|]. split; [rewrite Hidx; lia|exact Htx].
Qed.

(** The transfer staged in [ledger0] was told index 2 and is sealed in
    block 1. *)
Lemma add_transaction_index_off_by_one_witness :
  fst (add_transaction "alice" "bob" (PyInt 5) (PyDict []) (t_at 1) ledger0) = 2
  /\ exists (block : Block) (bc' : Blockchain),
       mine_pending_transactions 20 "miner" (t_at 6) (t_at 7) ledger1
         = Some (Ok (block, bc'))
       /\ index block = 1.
Proof.
  split; [reflexivity|].
  assert (E : exists block bc',
             mine_pending_transactions 20 "miner" (t_at 6) (t_at 7)
               (snd (add_transaction "alice" "bob" (PyInt 5) (PyDict []) (t_at 1) ledger0))
             = Some (Ok (block, bc'))).
  { eexists. eexists. vm_compute. reflexivity. }
  destruct E as (block & bc' & E).
  destruct (add_transaction_index_off_by_one _ _ _ _ _ _ _ _ _ _ _ _ E)
    as (_ & Hidx & _).
  exists block, bc'. split; [exact E|exact Hidx].
Defined.

Lemma overwrite_hash_length (i : nat) (h : string) (c : list Block) :
  List.length (overwrite_hash i h c) = List.length c.
Proof.
  revert i. induction c as [|b c IH]; intros [|i]; simpl; try reflexivity.
  rewrite IH. reflexivity.
Qed.

Lemma overwrite_hash_same (i : nat) (h : string) (c : list Block) (b : Block) :
  nth_error c i = Some b ->
  nth_error (overwrite_hash i h c) i = Some (set_hash h b).
Proof.
  revert i. induction c as [|x c IH]; intros [|i]; simpl; try discriminate.
  - intros [= ->]. reflexivity.
  - apply IH.
Qed.

Lemma overwrite_hash_other (i j : nat) (h : string) (c : list Block) :
  i <> j -> nth_error (overwrite_hash i h c) j = nth_error c j.
Proof.
  revert i j. induction c as [|x c IH]; intros [|i] [|j] Hne; simpl;
    try reflexivity; try congruence.
  apply IH. congruence.
Qed.

(** X4. Overwriting the stored hash of a block of a chain that verifies
    is detected, except on a chain that holds the genesis block alone:
    with a different hash written over block [i], [is_chain_valid] returns
    true exactly when [i = 0] and the chain has length 1. *)
Theorem hash_overwrite_detected
    (bc : Blockchain) (i : nat) (b : Block) (h : string) :
  is_chain_valid bc = true ->
  nth_error (chain bc) i = Some b ->
  h <> hash b ->
  is_chain_valid (with_chain (overwrite_hash i h (chain bc)) bc) = true
  <-> i = O /\ List.length (chain bc) = 1%nat.
Proof.
  intros Hv Hb Hh.
  apply is_chain_valid_links in Hv.
  rewrite is_chain_valid_links. cbn [with_chain chain].
  split.
  - intros Hl. destruct i as [|i].
    + split; [reflexivity|].
      destruct (chain bc) as [|g [|b1 c]] eqn:Ec; [discriminate|reflexivity|exfalso].
      injection Hb as ->.
      destruct (Hv 1%nat b1 (Nat.le_refl 1) eq_refl) as [_ (p & Hp & Hprev)].
      injection Hp as <-.
      destruct (Hl 1%nat b1 (Nat.le_refl 1) eq_refl) as [_ (p & Hp & Hprev')].
      injection Hp as <-. cbn [set_hash hash] in Hprev'. congruence.
    + exfalso.
      destruct (Hv (S i) b ltac:(lia) Hb) as [Hhash _].
      destruct (Hl (S i) (set_hash h b) ltac:(lia) (overwrite_hash_same _ _ _ _ Hb))
        as [Hhash' _].
      rewrite calculate_hash_set_hash in Hhash'. cbn [set_hash hash] in Hhash'.
      congruence.
  - intros [-> Hlen] j x Hj Hx.
    assert (j < List.length (overwrite_hash 0 h (chain bc)))%nat
      by (apply nth_error_Some; congruence).
    rewrite overwrite_hash_length in *. lia.
Qed.

(** The sealed [ledger2]: a hash written over its genesis block or over
    its block 1 makes verification fail. *)
Lemma hash_overwrite_detected_witness :
  is_chain_valid (with_chain (overwrite_hash 0 "tampered" (chain ledger2)) ledger2) = false
  /\ is_chain_valid (with_chain (overwrite_hash 1 "tampered" (chain ledger2)) ledger2)
     = false.
Proof.
  assert (Hv : is_chain_valid ledger2 = true) by (vm_compute; reflexivity).
  assert (H0 : exists b, nth_error (chain ledger2) 0 = Some b /\ "tampered" <> hash b).
  { eexists. split; [vm_compute; reflexivity|]. vm_compute. discriminate. }
  assert (H1 : exists b, nth_error (chain ledger2) 1 = Some b /\ "tampered" <> hash b).
  { eexists. split; [vm_compute; reflexivity|]. vm_compute. discriminate. }
  assert (Hlen : List.length (chain ledger2) = 2%nat) by (vm_compute; reflexivity).
  destruct H0 as (b0 & Hb0 & Hh0). destruct H1 as (b1 & Hb1 & Hh1).
  split.
  - destruct (is_chain_valid (with_chain (overwrite_hash 0 "tampered" (chain ledger2))
                                         ledger2)) eqn:E; [|reflexivity].
    apply (hash_overwrite_detected ledger2 0 b0 "tampered" Hv Hb0 Hh0) in E.
    destruct E as [_ E]. rewrite Hlen in E. discriminate.
  - destruct (is_chain_valid (with_chain (overwrite_hash 1 "tampered" (chain ledger2))
                                         ledger2)) eqn:E; [|reflexivity].
    apply (hash_overwrite_detected ledger2 1 b1 "tampered" Hv Hb1 Hh1) in E.
    destruct E as [E _]. discriminate.
Defined.

(** X5. [is_chain_valid] does not look at the proof of work: on a ledger
    that verifies, any block appended with the hash of its fields and the
    hash of the tip as previous hash verifies, whatever its nonce and
    whether or not its hash meets the target of the difficulty. *)
Theorem is_chain_valid_ignores_target
    (bc : Blockchain) (tip : Block) (transactions : list pyval) (now : pyfloat)
    (n : nat) :
  is_chain_valid bc = true ->
  get_latest_block bc = Ok tip ->
  is_chain_valid
    (with_chain
       (chain bc
        ++ [at_nonce n (new_Block (Z.of_nat (List.length (chain bc))) transactions now
                                  (hash tip) 0)])
       bc)
  = true.
Proof.
  intros Hv Htip.
  apply is_chain_valid_links in Hv.
  apply is_chain_valid_links. cbn [with_chain chain].
  destruct (get_latest_block_nth _ _ Htip) as [Hnth Hne].
  apply (links_snoc _ tip); try assumption.
  - apply at_nonce_fields.
  - reflexivity.
Qed.

(** On [ledger2], of difficulty 1, a block left at nonce 0 whose hash
    starts with ['8'] verifies. *)
Lemma is_chain_valid_ignores_target_witness :
  exists tip : Block,
    get_latest_block ledger2 = Ok tip
    /\ meets_target (difficulty ledger2)
         (at_nonce 0 (new_Block 2 [] (t_at 8) (hash tip) 0)) = false
    /\ is_chain_valid
         (with_chain (chain ledger2 ++ [at_nonce 0 (new_Block 2 [] (t_at 8) (hash tip) 0)])
                     ledger2)
       = true.
Proof.
  assert (Hv : is_chain_valid ledger2 = true) by (vm_compute; reflexivity).
  assert (Ht : exists tip, get_latest_block ledger2 = Ok tip
                 /\ meets_target (difficulty ledger2)
                      (at_nonce 0 (new_Block 2 [] (t_at 8) (hash tip) 0)) = false).
  { eexists. split; [vm_compute; reflexivity|]. vm_compute. reflexivity. }
  destruct Ht as (tip & Ht & Hm).
  exists tip. split; [exact Ht|]. split; [exact Hm|].
  assert (Hlen : Z.of_nat (List.length (chain ledger2)) = 2) by (vm_compute; reflexivity).
  rewrite <- Hlen.
  exact (is_chain_valid_ignores_target ledger2 tip [] (t_at 8) 0 Hv Ht).
Defined.

(** ** Validation *)

Lemma dict_get_dict_set_same (k : string) (v : pyval) (d : pydict) :
  dict_get k (dict_set k v d) = Some v.
Proof.
  induction d as [|[k' v'] d IH]; simpl.
  - rewrite String.eqb_refl. reflexivity.
  - destruct (String.eqb k k') eqn:E; simpl; rewrite E; [reflexivity|exact IH].
Qed.

Lemma dict_get_dict_set_other (k k' : string) (v : pyval) (d : pydict) :
  k' <> k -> dict_get k' (dict_set k v d) = dict_get k' d.
Proof.
  intros Hne. induction d as [|[k0 v0] d IH]; simpl.
  - destruct (String.eqb k' k) eqn:E; [|reflexivity].
    apply String.eqb_eq in E. contradiction.
  - destruct (String.eqb k k0) eqn:E1; simpl.
    + apply String.eqb_eq in E1. subst k0.
      destruct (String.eqb k' k) eqn:E2; [|reflexivity].
      apply String.eqb_eq in E2. contradiction.
    + rewrite IH. reflexivity.
Qed.

(** What a turn of the loop that did not raise leaves under the name of
    its field. *)
Lemma validate_field_settles (field : DataField) (data data' : pydict) (u : unit) :
  DB.validate_field field data = (data', Ok u) ->
  match dict_get (f_name field) data' with
  | Some value => DB.check_type field value = Ok tt
  | None => f_required field = false /\ f_default field = PyNone
  end.
Proof.
  unfold DB.validate_field, dict_mem.
  destruct (dict_get (f_name field) data) as [value|] eqn:Eg; cbn [negb].
  - rewrite andb_false_r. cbn [andb]. rewrite Eg.
    intros [= <- Hc]. rewrite Eg, Hc. destruct u. reflexivity.
  - rewrite andb_true_r. destruct (f_required field); [discriminate|].
    destruct (f_default field) eqn:Ed; cbn [DB.is_none negb andb];
      try (rewrite dict_get_dict_set_same; intros [= <- Hc];
           rewrite dict_get_dict_set_same, Hc; destruct u; reflexivity).
    rewrite Eg. intros [= <- _]. rewrite Eg. split; reflexivity.
Qed.

(** A turn that did not raise does not raise, and inserts nothing, on any
    payload that agrees under the name of the field with what the turn
    left. *)
Lemma validate_field_stable (field : DataField) (data data' data2 : pydict) (u : unit) :
  DB.validate_field field data = (data', Ok u) ->
  dict_get (f_name field) data2 = dict_get (f_name field) data' ->
  DB.validate_field field data2 = (data2, Ok tt).
Proof.
  intros H Hagree. apply validate_field_settles in H.
  unfold DB.validate_field, dict_mem. cbv zeta.
  destruct (dict_get (f_name field) data') as [value|] eqn:Eg.
  - rewrite Hagree. cbn [negb]. rewrite andb_false_r. cbn [andb].
    rewrite Hagree, H. reflexivity.
  - destruct H as [-> ->]. rewrite Hagree. cbn [DB.is_none negb andb].
    rewrite Hagree. reflexivity.
Qed.

Lemma validate_fields_frame (fields : list DataField) :
  forall (data data' : pydict) (r : result unit) (k : string),
    DB.validate_fields fields data = (data', r) ->
    ~ In k (List.map f_name fields) ->
    dict_get k data' = dict_get k data.
Proof.
  induction fields as [|field fields IH]; intros data data' r k H Hk.
  - simpl in H. injection H as <- _. reflexivity.
  - cbn [DB.validate_fields] in H. cbn [List.map] in Hk.
    destruct (DB.validate_field field data) as [d1 r1] eqn:E1.
    assert (Hf : dict_get k d1 = dict_get k data).
    { apply (validate_field_frame field data d1 r1 E1).
      intros E. apply Hk. left. symmetry. exact E. }
    destruct r1 as [u|msg].
    + rewrite (IH d1 data' r k H); [exact Hf|].
      intros Hin. apply Hk. right. exact Hin.
    + injection H as <- _. exact Hf.
Qed.

(** A turn of the loop keeps every entry of the payload. *)
Lemma validate_field_extends (field : DataField) (data data' : pydict) (r : result unit) :
  DB.validate_field field data = (data', r) -> extends data data'.
Proof.
  intros H k v Hk.
  destruct (String.eqb k (f_name field)) eqn:E.
  - apply String.eqb_eq in E. subst k.
    unfold DB.validate_field, dict_mem in H. rewrite Hk in H.
    cbn [negb] in H. rewrite andb_false_r in H. cbn [andb] in H. rewrite Hk in H.
    injection H as <- _. exact Hk.
  - apply String.eqb_neq in E.
    rewrite (validate_field_frame field data data' r H k E). exact Hk.
Qed.

(** X6. [_validate_data] never removes or changes an entry of the
    payload, whether it raises or not: every key of the payload keeps its
    value, and a key the call added is the name of a field that is not
    required and carries the default of that field, which is not [None]. *)
Theorem validate_data_keeps_entries
    (data data' : pydict) (model : DataModel) (r : result unit) :
  DB._validate_data data model = (data', r) ->
  extends data data'
  /\ forall (k : string) (v : pyval),
       dict_get k data' = Some v ->
       dict_get k data = Some v
       \/ (dict_get k data = None
           /\ exists field : DataField,
                In field (m_fields model)
                /\ f_name field = k
                /\ f_required field = false
                /\ f_default field = v
                /\ v <> PyNone).
Proof.
  unfold DB._validate_data. generalize (m_fields model) as fields.
  intros fields. revert data data' r.
  induction fields as [|field fields IH]; intros data data' r H.
  - simpl in H. injection H as <- _. split; [intros k v Hk; exact Hk|].
    intros k v Hk. left. exact Hk.
  - cbn [DB.validate_fields] in H.
    destruct (DB.validate_field field data) as [d1 r1] eqn:E1.
    assert (Hext1 := validate_field_extends _ _ _ _ E1).
    assert (Hnew1 : forall k v, dict_get k d1 = Some v ->
                dict_get k data = Some v
                \/ (dict_get k data = None /\ f_name field = k
                    /\ f_required field = false /\ f_default field = v /\ v <> PyNone)).
    { intros k v Hk. destruct (String.eqb k (f_name field)) eqn:E.
      - apply String.eqb_eq in E. subst k.
        unfold DB.validate_field, dict_mem in E1.
        destruct (dict_get (f_name field) data) as [v0|] eqn:Eg; cbn [negb] in E1.
        + left. rewrite <- Hk. symmetry. apply Hext1. exact Eg.
        + right. rewrite andb_true_r in E1.
          destruct (f_required field); [injection E1 as <- _; congruence|].
          destruct (DB.is_none (f_default field)) eqn:En; cbn [negb andb] in E1.
          * rewrite Eg in E1. injection E1 as <- _. congruence.
          * rewrite dict_get_dict_set_same in E1. injection E1 as <- _.
            rewrite dict_get_dict_set_same in Hk. injection Hk as <-.
            repeat split. intros Hn. rewrite Hn in En. discriminate.
      - apply String.eqb_neq in E. left.
        rewrite <- (validate_field_frame field data d1 r1 E1 k E). exact Hk. }
    assert (Hrest : extends d1 data'
              /\ forall k v, dict_get k data' = Some v ->
                   dict_get k d1 = Some v
                   \/ (dict_get k d1 = None
                       /\ exists f, In f fields /\ f_name f = k /\ f_required f = false
                                    /\ f_default f = v /\ v <> PyNone)).
    { destruct r1 as [u|msg].
      - exact (IH d1 data' r H).
      - injection H as <- _. split; [intros k v Hk; exact Hk|].
        intros k v Hk. left. exact Hk. }
    destruct Hrest as [Hext2 Hnew2]. split.
    + intros k v Hk. apply Hext2, Hext1, Hk.
    + intros k v Hk. destruct (Hnew2 k v Hk) as [Hd1|(Hd1 & f & Hin & Hf)].
      * destruct (Hnew1 k v Hd1) as [Hd|(Hd & Hf)]; [left; exact Hd|].
        right. split; [exact Hd|]. exists field. split; [left; reflexivity|exact Hf].
      * right. split.
        -- destruct (dict_get k data) as [v0|] eqn:Eg; [|reflexivity].
           rewrite (Hext1 k v0 Eg) in Hd1. discriminate.
        -- exists f. split; [right; exact Hin|exact Hf].
Qed.

Lemma validate_fields_stable (fields : list DataField) :
  forall (data data' data2 : pydict) (u : unit),
    List.NoDup (List.map f_name fields) ->
    DB.validate_fields fields data = (data', Ok u) ->
    (forall field, In field fields ->
       dict_get (f_name field) data2 = dict_get (f_name field) data') ->
    DB.validate_fields fields data2 = (data2, Ok tt).
Proof.
  induction fields as [|field fields IH]; intros data data' data2 u Hnd H Hagree.
  - reflexivity.
  - cbn [DB.validate_fields] in *. cbn [List.map] in Hnd.
    inversion Hnd as [|? ? Hnotin Hnd']; subst.
    destruct (DB.validate_field field data) as [d1 [u1|msg]] eqn:E1; [|discriminate].
    assert (Hsame : dict_get (f_name field) data' = dict_get (f_name field) d1)
      by exact (validate_fields_frame fields d1 data' (Ok u) _ H Hnotin).
    rewrite (validate_field_stable field data d1 data2 u1 E1).
    + apply (IH d1 data' data2 u Hnd' H).
      intros f Hf. apply Hagree. right. exact Hf.
    + rewrite <- Hsame. apply Hagree. left. reflexivity.
Qed.

(** X7. For a model whose field names are distinct, a payload that
    passes [_validate_data] comes out satisfying every field: each
    required field is present and each field that is present passes its
    type rule. *)
Theorem validate_data_conforms
    (data data' : pydict) (model : DataModel) (u : unit) :
  List.NoDup (field_names model) ->
  DB._validate_data data model = (data', Ok u) ->
  conforms model data'.
Proof.
  unfold DB._validate_data, conforms, field_names.
  generalize (m_fields model) as fields. intros fields. revert data.
  induction fields as [|field fields IH]; intros data Hnd H.
  - constructor.
  - cbn [DB.validate_fields] in H. cbn [List.map] in Hnd.
    inversion Hnd as [|? ? Hnotin Hnd']; subst.
    destruct (DB.validate_field field data) as [d1 [u1|msg]] eqn:E1; [|discriminate].
    constructor; [|exact (IH d1 Hnd' H)].
    assert (Hsame : dict_get (f_name field) data' = dict_get (f_name field) d1)
      by exact (validate_fields_frame fields d1 data' (Ok u) _ H Hnotin).
    assert (Hs := validate_field_settles field data d1 u1 E1).
    unfold field_holds, dict_mem. rewrite Hsame.
    destruct (dict_get (f_name field) d1) as [value|].
    + split; [reflexivity|]. intros v [= <-]. exact Hs.
    + destruct Hs as [Hr _]. split; [congruence|discriminate].
Qed.

(** X8. For a model whose field names are distinct, validation is
    idempotent: the payload a successful [_validate_data] leaves passes
    [_validate_data] again and comes out unchanged. *)
Theorem validate_data_idempotent
    (data data' : pydict) (model : DataModel) (u : unit) :
  List.NoDup (field_names model) ->
  DB._validate_data data model = (data', Ok u) ->
  DB._validate_data data' model = (data', Ok tt).
Proof.
  intros Hnd H.
  exact (validate_fields_stable (m_fields model) data data' data' u Hnd H
           (fun _ _ => eq_refl)).
Qed.

(** The model [Pair] and the payload [{a: 2}]: the entry is kept and the
    default of [b] is added. *)
Lemma validate_data_keeps_entries_witness :
  DB._validate_data [("a", PyInt 2)] pair_model
    = ([("a", PyInt 2); ("b", PyInt 5)], Ok tt)
  /\ extends [("a", PyInt 2)] [("a", PyInt 2); ("b", PyInt 5)].
Proof.
  assert (H : DB._validate_data [("a", PyInt 2)] pair_model
              = ([("a", PyInt 2); ("b", PyInt 5)], Ok tt)) by reflexivity.
  split; [exact H|].
  exact (proj1 (validate_data_keeps_entries _ _ _ _ H)).
Defined.

Lemma pair_model_names : List.NoDup (field_names pair_model).
Proof.
  repeat constructor; simpl; intuition discriminate.
Defined.

(** The model [Pair] and the payload [{a: 2}]. *)
Lemma validate_data_conforms_witness :
  conforms pair_model [("a", PyInt 2); ("b", PyInt 5)].
Proof.
  exact (validate_data_conforms [("a", PyInt 2)] [("a", PyInt 2); ("b", PyInt 5)]
           pair_model tt pair_model_names eq_refl).
Defined.

(** The model [Pair] and the payload [{a: 2}], validated twice. *)
Lemma validate_data_idempotent_witness :
  DB._validate_data [("a", PyInt 2); ("b", PyInt 5)] pair_model
  = ([("a", PyInt 2); ("b", PyInt 5)], Ok tt).
Proof.
  exact (validate_data_idempotent [("a", PyInt 2)] [("a", PyInt 2); ("b", PyInt 5)]
           pair_model tt pair_model_names eq_refl).
Defined.

(** Distinct names are needed: with the field [x] declared twice, the
    empty payload passes and comes out as [{x: "hi"}], which fails the
    integer rule of the first declaration when validated again. *)
Example validate_data_twice_model :
  DB._validate_data [] twice_model = ([("x", PyStr "hi")], Ok tt)
  /\ DB._validate_data [("x", PyStr "hi")] twice_model
     = ([("x", PyStr "hi")], Raise "Field 'x' must be an integer").
Proof. split; reflexivity. Qed.

(** ** Record store: models *)

(** X9. [create_data_model] rejects a name that already has a row:
    it returns false, and nothing but the clock, read once for
    [created_at], has changed; the registry keeps the model it had, no
    transaction is staged and no row is written. *)
Theorem create_data_model_duplicate
    (name : string) (fields : list field_spec) (description : string)
    (db : HyperledgerIntegratedDB) :
  model_row_exists name db = true ->
  DB.create_data_model name fields description db
  = (with_ticks (S (ticks db)) db, false).
Proof.
  unfold model_row_exists. intros H.
  unfold DB.create_data_model, try_except, bind, time_time, insert_data_model.
  cbn. rewrite H. reflexivity.
Qed.

(** X10. [create_data_model] on a new name, the id drawn for its
    transaction not being taken, returns true; it registers the model
    built from the specifications ([required] true and no default unless
    stated, [created_at] the reading of the clock, version ["1.0"]), writes
    its row, stages one transaction of type [model_creation] that embeds
    the model, and logs it with no record id. Chain and records are
    untouched. *)
Theorem create_data_model_registers
    (name : string) (fields : list field_spec) (description : string)
    (db : HyperledgerIntegratedDB) :
  model_row_exists name db = false ->
  transaction_row_exists (uuids db (draws db)) db = false ->
  let model := mkDataModel name (List.map DataField_of_spec fields) description
                           (clock db (ticks db)) "1.0" in
  let entry := model_entry (uuids db (draws db)) model (clock db (S (ticks db))) in
  exists db' : HyperledgerIntegratedDB,
    DB.create_data_model name fields description db = (db', true)
    /\ data_models db' = <[name := model]> (data_models db)
    /\ data_models db' !! name = Some model
    /\ tbl_data_models db'
       = (tbl_data_models db
          ++ [mkModelRow name (to_dict model) (clock db (ticks db)) "1.0"])%list
    /\ pending_transactions (blockchain db')
       = (pending_transactions (blockchain db)
          ++ [make_transaction "system" "system" (PyFloat DB.float_zero) entry
                               (clock db (S (S (ticks db))))])%list
    /\ tbl_blockchain_transactions db'
       = (tbl_blockchain_transactions db
          ++ [mkTxRow (uuids db (draws db)) "model_creation" PyNone (PyStr name)
                      entry (clock db (S (ticks db))) None])%list
    /\ chain (blockchain db') = chain (blockchain db)
    /\ tbl_data_records db' = tbl_data_records db
    /\ ticks db' = S (S (S (ticks db)))
    /\ draws db' = S (draws db).
Proof.
  intros Hm Ht model entry.
  unfold model_row_exists, transaction_row_exists in Hm, Ht.
  unfold DB.create_data_model, try_except.
  unfold DB._add_to_blockchain, insert_data_model, insert_blockchain_transaction,
    modify, ret, bind, uuid4, time_time.
  cbn. rewrite Hm. cbn. rewrite Ht. cbn.
  eexists. split; [reflexivity|]. cbn.
  split; [reflexivity|]. split; [apply lookup_insert_eq|].
  repeat split.
Qed.

(** The model [Item] on the new database. *)
Lemma create_data_model_registers_witness :
  snd (DB.create_data_model "Item"
         [mkFieldSpec "qty" "integer" (Some true) None None] "stock items" db_fresh)
  = true.
Proof.
  destruct (create_data_model_registers "Item"
              [mkFieldSpec "qty" "integer" (Some true) None None] "stock items"
              db_fresh eq_refl eq_refl) as (db' & H & _).
  rewrite H. reflexivity.
Defined.

(** The model [Item] created a second time. *)
Lemma create_data_model_duplicate_witness :
  snd (DB.create_data_model "Item"
         [mkFieldSpec "qty" "integer" (Some true) None None] "again" db_item_staged)
  = false.
Proof.
  assert (H : model_row_exists "Item" db_item_staged = true) by (vm_compute; reflexivity).
  rewrite (create_data_model_duplicate "Item" _ "again" db_item_staged H).
  reflexivity.
Defined.

(** ** Record store: records *)

Lemma find_app_fresh (id : string) (l : list data_record) (row : data_record) :
  existsb (fun r => String.eqb (r_id r) id) l = false ->
  r_id row = id ->
  List.find (fun r => String.eqb (r_id r) id) (l ++ [row]) = Some row.
Proof.
  intros Hf Hid. induction l as [|r l IH]; simpl in *.
  - rewrite Hid, String.eqb_refl. reflexivity.
  - apply orb_false_iff in Hf as [E Hf]. rewrite E. apply IH. exact Hf.
Qed.

Lemma find_app_other (id id' : string) (l : list data_record) (row : data_record) :
  r_id row = id -> id' <> id ->
  List.find (fun r => String.eqb (r_id r) id') (l ++ [row])
  = List.find (fun r => String.eqb (r_id r) id') l.
Proof.
  intros Hid Hne. induction l as [|r l IH]; simpl.
  - rewrite Hid. destruct (String.eqb id id') eqn:E; [|reflexivity].
    apply String.eqb_eq in E. congruence.
  - destruct (String.eqb (r_id r) id'); [reflexivity|exact IH].
Qed.

Lemma find_map_other (id id' : string) (f : data_record -> data_record)
    (l : list data_record) :
  (forall r, r_id (f r) = r_id r) ->
  id' <> id ->
  List.find (fun r => String.eqb (r_id r) id')
            (List.map (fun r => if sql_text_eq (r_id r) (PyStr id) then f r else r) l)
  = List.find (fun r => String.eqb (r_id r) id') l.
Proof.
  intros Hf Hne. induction l as [|r l IH]; simpl; [reflexivity|].
  destruct (String.eqb (r_id r) id) eqn:E.
  - apply String.eqb_eq in E.
    assert (E' : String.eqb (r_id r) id' = false)
      by (apply String.eqb_neq; congruence).
    rewrite Hf, E'. exact IH.
  - destruct (String.eqb (r_id r) id'); [reflexivity|exact IH].
Qed.

(** X11. [add_data] then [get_data]. For a registered model and a payload
    that validation leaves as [data'], the ids drawn for the record and
    for its transaction not being taken, [add_data] returns the record
    id; [get_data] on that id returns the row with the validated payload,
    [created_at] and [updated_at] both the reading of the clock, the id of
    the staged transaction, and no block index; every other id reads as
    before; one [data_creation] transaction that embeds the record is
    appended to the pending list and logged under the record id. *)
Theorem add_data_get_data
    (db : HyperledgerIntegratedDB) (model_name : string) (model : DataModel)
    (data data' : pydict) (u : unit) :
  data_models db !! model_name = Some model ->
  DB._validate_data data model = (data', Ok u) ->
  record_row_exists (uuids db (draws db)) db = false ->
  transaction_row_exists (uuids db (S (draws db))) db = false ->
  let record_id := uuids db (draws db) in
  let transaction_id := uuids db (S (draws db)) in
  let now := clock db (ticks db) in
  let entry := creation_entry transaction_id record_id model_name data' now
                              (clock db (S (ticks db))) in
  exists db' : HyperledgerIntegratedDB,
    DB.add_data model_name data db = (db', Some record_id)
    /\ DB.get_data record_id db'
       = Some (mkRecord record_id model_name data' now now (Some transaction_id) None)
    /\ (forall id : string, id <> record_id -> DB.get_data id db' = DB.get_data id db)
    /\ pending_transactions (blockchain db')
       = (pending_transactions (blockchain db)
          ++ [make_transaction "system" "system" (PyFloat DB.float_zero) entry
                               (clock db (S (S (ticks db))))])%list
    /\ tbl_blockchain_transactions db'
       = (tbl_blockchain_transactions db
          ++ [mkTxRow transaction_id "data_creation" (PyStr record_id)
                      (PyStr model_name) entry (clock db (S (ticks db))) None])%list
    /\ chain (blockchain db') = chain (blockchain db)
    /\ data_models db' = data_models db.
Proof.
  intros Hm Hv Hr Ht record_id transaction_id now entry.
  unfold record_row_exists, transaction_row_exists in Hr, Ht.
  unfold DB.add_data, try_except.
  unfold bind at 1. unfold DB.lookup_model. rewrite Hm.
  unfold bind at 1. unfold DB.validated. rewrite Hv.
  unfold DB._add_to_blockchain, insert_data_record, insert_blockchain_transaction,
    update_data_records, modify, ret, bind, uuid4, time_time.
  cbn. rewrite Hr. cbn. rewrite Ht. cbn.
  eexists. split; [reflexivity|].
  unfold DB.get_data, select_data_record. cbn.
  split.
  { rewrite (select_after_update record_id (set_transaction_id transaction_id) _
               (mkRecord record_id model_name data' now now None None)).
    - reflexivity.
    - reflexivity.
    - apply find_app_fresh; [exact Hr|reflexivity]. }
  split.
  { intros id Hid.
    etransitivity;
      [exact (find_map_other record_id id (set_transaction_id transaction_id) _
                (fun _ => eq_refl) Hid)|].
    apply find_app_other with (id := record_id); [reflexivity|exact Hid]. }
  repeat split.
Qed.

(** The model [Item] and the payload [{qty: 4}]. *)
Lemma add_data_get_data_witness :
  exists db' : HyperledgerIntegratedDB,
    DB.add_data "Item" [("qty", PyInt 4)] db_item_staged = (db', Some (sample_uuids 1))
    /\ option_map r_data (DB.get_data (sample_uuids 1) db') = Some [("qty", PyInt 4)].
Proof.
  assert (Hm : exists model,
             data_models db_item_staged !! "Item" = Some model
             /\ DB._validate_data [("qty", PyInt 4)] model = ([("qty", PyInt 4)], Ok tt)).
  { eexists. split; [vm_compute; reflexivity|reflexivity]. }
  destruct Hm as (model & Hm & Hv).
  assert (Hr : record_row_exists (uuids db_item_staged (draws db_item_staged))
                                 db_item_staged = false) by (vm_compute; reflexivity).
  assert (Ht : transaction_row_exists (uuids db_item_staged (S (draws db_item_staged)))
                                      db_item_staged = false) by (vm_compute; reflexivity).
  destruct (add_data_get_data db_item_staged "Item" model _ _ tt Hm Hv Hr Ht)
    as (db' & Hadd & Hget & _).
  assert (Hid : uuids db_item_staged (draws db_item_staged) = sample_uuids 1)
    by (vm_compute; reflexivity).
  rewrite Hid in Hadd, Hget.
  exists db'. split; [exact Hadd|]. rewrite Hget. reflexivity.
Defined.

(** X12. [update_data] fails without effect when the id is unknown and
    when the payload does not validate against the registered model of
    the record: it returns false and the state, clock included, is as
    before. *)
Theorem update_data_fails_unchanged
    (db : HyperledgerIntegratedDB) (record_id : string) (data : pydict) :
  (DB.get_data record_id db = None ->
   DB.update_data record_id data db = (db, false))
  /\ (forall (row : data_record) (model : DataModel) (data' : pydict) (msg : string),
        DB.get_data record_id db = Some row ->
        data_models db !! r_model_name row = Some model ->
        DB._validate_data data model = (data', Raise msg) ->
        DB.update_data record_id data db = (db, false)).
Proof.
  split.
  - intros H. assert (Hs : select_data_record record_id db = None) by exact H.
    unfold DB.update_data, try_except, bind, DB.fetch_record. rewrite Hs. reflexivity.
  - intros row model data' msg H Hm Hv.
    assert (Hs : select_data_record record_id db = Some row) by exact H.
    unfold DB.update_data, try_except.
    unfold bind at 1. unfold DB.fetch_record. rewrite Hs.
    unfold bind at 1. unfold gets at 1.
    unfold bind at 1. rewrite Hm. unfold DB.validated. rewrite Hv. reflexivity.
Qed.

(** An unknown id, and the record of [db_pair] with a text under [a]. *)
Lemma update_data_fails_unchanged_witness :
  DB.update_data "no-such-id" [("a", PyInt 2)] db_pair = (db_pair, false)
  /\ DB.update_data pair_id [("a", PyStr "two")] db_pair = (db_pair, false).
Proof.
  split.
  - apply (proj1 (update_data_fails_unchanged db_pair "no-such-id" [("a", PyInt 2)])).
    vm_compute. reflexivity.
  - assert (Hrow : DB.get_data pair_id db_pair = Some pair_row)
      by (vm_compute; reflexivity).
    assert (Hm : exists model,
               data_models db_pair !! r_model_name pair_row = Some model
               /\ DB._validate_data [("a", PyStr "two")] model
                  = ([("a", PyStr "two")], Raise "Field 'a' must be an integer")).
    { eexists. split; [vm_compute; reflexivity|reflexivity]. }
    destruct Hm as (model & Hm & Hv).
    exact (proj2 (update_data_fails_unchanged db_pair pair_id [("a", PyStr "two")])
                 pair_row model _ _ Hrow Hm Hv).
Defined.

(** X13. No rollback. When the id drawn for the transaction of a new
    record is already taken in the log, [add_data] returns [None], but the
    row of the record, written before, stays in the table with no
    transaction id, and the transaction, staged before the log insert
    raised, stays in the pending list. *)
Theorem add_data_no_rollback
    (db : HyperledgerIntegratedDB) (model_name : string) (model : DataModel)
    (data data' : pydict) (u : unit) :
  data_models db !! model_name = Some model ->
  DB._validate_data data model = (data', Ok u) ->
  record_row_exists (uuids db (draws db)) db = false ->
  transaction_row_exists (uuids db (S (draws db))) db = true ->
  let record_id := uuids db (draws db) in
  let now := clock db (ticks db) in
  exists db' : HyperledgerIntegratedDB,
    DB.add_data model_name data db = (db', None)
    /\ DB.get_data record_id db'
       = Some (mkRecord record_id model_name data' now now None None)
    /\ List.length (pending_transactions (blockchain db'))
       = S (List.length (pending_transactions (blockchain db)))
    /\ tbl_blockchain_transactions db' = tbl_blockchain_transactions db.
Proof.
  intros Hm Hv Hr Ht record_id now.
  unfold record_row_exists, transaction_row_exists in Hr, Ht.
  unfold DB.add_data, try_except.
  unfold bind at 1. unfold DB.lookup_model. rewrite Hm.
  unfold bind at 1. unfold DB.validated. rewrite Hv.
  unfold DB._add_to_blockchain, insert_data_record, insert_blockchain_transaction,
    update_data_records, modify, ret, bind, uuid4, time_time.
  cbn. rewrite Hr. cbn. rewrite Ht. cbn.
  eexists. split; [reflexivity|].
  unfold DB.get_data, select_data_record. cbn.
  split; [apply find_app_fresh; [exact Hr|reflexivity]|].
  split; [rewrite length_app; cbn [List.length]; lia|reflexivity].
Qed.

(** The session [db_clash]: the record is written and read back although
    [add_data] returned [None]. *)
Lemma add_data_no_rollback_witness :
  exists db' : HyperledgerIntegratedDB,
    DB.add_data "Item" [("qty", PyInt 4)] db_clash = (db', None)
    /\ option_map r_data (DB.get_data (sample_uuids 1) db') = Some [("qty", PyInt 4)].
Proof.
  assert (Hm : exists model,
             data_models db_clash !! "Item" = Some model
             /\ DB._validate_data [("qty", PyInt 4)] model = ([("qty", PyInt 4)], Ok tt)).
  { eexists. split; [vm_compute; reflexivity|reflexivity]. }
  destruct Hm as (model & Hm & Hv).
  assert (Hr : record_row_exists (uuids db_clash (draws db_clash)) db_clash = false)
    by (vm_compute; reflexivity).
  assert (Ht : transaction_row_exists (uuids db_clash (S (draws db_clash))) db_clash
               = true) by (vm_compute; reflexivity).
  destruct (add_data_no_rollback db_clash "Item" model _ _ tt Hm Hv Hr Ht)
    as (db' & Hadd & Hget & _).
  assert (Hid : uuids db_clash (draws db_clash) = sample_uuids 1)
    by (vm_compute; reflexivity).
  rewrite Hid in Hget.
  exists db'. split; [exact Hadd|]. rewrite Hget. reflexivity.
Defined.

(** ** Sessions of the record store *)

Lemma existsb_key_false {A : Type} (key : A -> string) (k : string) (l : list A) :
  existsb (fun r => String.eqb (key r) k) l = false -> ~ In k (List.map key l).
Proof.
  induction l as [|a l IH]; cbn [existsb List.map]; intros Hf Hin.
  - destruct Hin.
  - apply orb_false_iff in Hf as [Ha Hf]. apply String.eqb_neq in Ha.
    destruct Hin as [Hin|Hin]; [exact (Ha Hin)|exact (IH Hf Hin)].
Qed.

Lemma NoDup_snoc_fresh {A : Type} (key : A -> string) (k : string) (l : list A) (x : A) :
  key x = k ->
  existsb (fun r => String.eqb (key r) k) l = false ->
  List.NoDup (List.map key l) ->
  List.NoDup (List.map key (l ++ [x])).
Proof.
  intros <-.
  induction l as [|a l IH]; cbn [existsb List.map app]; intros Hf Hn.
  - constructor; [intros []|constructor].
  - apply orb_false_iff in Hf as [Ha Hf]. apply String.eqb_neq in Ha.
    inversion Hn as [|k ks Hnin Hn']; subst.
    constructor; [|exact (IH Hf Hn')].
    rewrite List.map_app, List.in_app_iff. cbn [List.map In].
    intros [Hin|[Hin|[]]]; [exact (Hnin Hin)|exact (Ha (eq_sym Hin))].
Qed.


Lemma asdict_inj (f g : DataField) : asdict f = asdict g -> f = g.
Proof. destruct f, g. unfold asdict. cbn. intros [= -> -> -> -> ->]. reflexivity. Qed.

Lemma to_dict_inj (m m' : DataModel) : to_dict m = to_dict m' -> m = m'.
Proof.
  destruct m as [n fs d c v], m' as [n' fs' d' c' v']. unfold to_dict. cbn.
  intros [= -> Hfs -> -> ->]. f_equal.
  revert fs' Hfs. induction fs as [|f fs IH]; intros [|f' fs']; cbn [List.map];
    intros H; try discriminate; [reflexivity|].
  assert (Hf : asdict f = asdict f') by congruence.
  assert (Hrest : List.map asdict fs = List.map asdict fs') by congruence.
  apply asdict_inj in Hf. subst f'.
  f_equal. exact (IH _ Hrest).
Qed.

Lemma model_row_of_inj (m m' : DataModel) : model_row_of m = model_row_of m' -> m = m'.
Proof. intros H. apply to_dict_inj. exact (f_equal mr_schema_data H). Qed.

(** *** Statements that keep a session well formed *)

Lemma keeps_ok_ret {A : Type} (ms : gmap string DataModel) (a : A) : keeps_ok ms (ret a).
Proof. intros db H E. split; assumption. Qed.

Lemma keeps_ok_bind {A B : Type} (ms : gmap string DataModel) (c : M A) (k : A -> M B) :
  keeps_ok ms c -> (forall a, keeps_ok ms (k a)) -> keeps_ok ms (bind c k).
Proof.
  intros Hc Hk db H E. unfold bind. destruct (Hc db H E) as [H1 E1].
  destruct (c db) as [db1 [a|msg]]; cbn [fst] in *.
  - apply Hk; assumption.
  - split; assumption.
Qed.

Lemma keeps_ok_add_to_blockchain (ms : gmap string DataModel)
    (transaction_type : string) (data : pydict) :
  keeps_ok ms (DB._add_to_blockchain transaction_type data).
Proof.
  intros db (Hl & Hb & Hr & Hrec & Hlog1 & Hlog2) E.
  unfold DB._add_to_blockchain, bind, uuid4, time_time, modify,
    insert_blockchain_transaction, ret.
  cbn [fst snd blockchain data_models tbl_blockchain_transactions ticks draws uuids
       clock with_blockchain with_ticks with_draws t_id].
  destruct (existsb _ _) eqn:Ex; cbn [fst]; (split; [|exact E]).
  - split; [exact (ledger_ok_add_transaction _ _ _ _ _ _ Hl)|].
    split; [exact Hb|]. split; [exact Hr|].
    split; [exact Hrec|]. split; assumption.
  - split; [exact (ledger_ok_add_transaction _ _ _ _ _ _ Hl)|].
    split; [exact Hb|]. split; [exact Hr|].
    split; [exact Hrec|]. split.
    + apply Forall_app. split; [exact Hlog1|]. constructor; [reflexivity|constructor].
    + apply (NoDup_snoc_fresh t_id (uuids db (draws db)));
        [reflexivity|exact Ex|exact Hlog2].
Qed.

Lemma keeps_ok_update_data_records (ms : gmap string DataModel) (param : pyval)
    (f : data_record -> data_record) :
  (forall r, r_id (f r) = r_id r) ->
  (forall r, good_record ms r -> good_record ms (f r)) ->
  keeps_ok ms (update_data_records param f).
Proof.
  intros Hid Hgood db (Hl & Hb & Hr & (Hrec1 & Hrec2) & Hlog) E.
  split; [|exact E].
  split; [exact Hl|]. split; [exact Hb|]. split; [exact Hr|]. split; [|exact Hlog].
  unfold records_good. cbn. rewrite E in *. split.
  - induction Hrec1 as [|r l Hg _ IH]; cbn [List.map]; constructor.
    + destruct (sql_text_eq (r_id r) param); [apply Hgood|]; exact Hg.
    + apply IH. inversion Hrec2; assumption.
  - rewrite List.map_map.
    erewrite List.map_ext; [exact Hrec2|].
    intros r. cbn. destruct (sql_text_eq (r_id r) param); [apply Hid|reflexivity].
Qed.

Lemma good_record_set_transaction_id (ms : gmap string DataModel) (tid : string)
    (r : data_record) :
  good_record ms r -> good_record ms (set_transaction_id tid r).
Proof. intros H. exact H. Qed.

(** *** The methods *)

Lemma init_ok (d : Z) (clock : nat -> pyfloat) (uuids : nat -> string) :
  db_ok (DB.init d clock uuids).
Proof.
  split; [apply ledger_ok_new|]. split; [reflexivity|].
  split.
  { split; [constructor|]. split; [|constructor].
    intros name model. cbn. rewrite lookup_empty.
    split; [discriminate|intros [_ []]]. }
  split; [split; constructor|split; constructor].
Qed.

Lemma create_data_model_ok (name : string) (fields : list field_spec)
    (description : string) (db : HyperledgerIntegratedDB) :
  db_ok db -> db_ok (fst (DB.create_data_model name fields description db)).
Proof.
  intros Hok. unfold DB.create_data_model. rewrite try_except_fst.
  unfold bind at 1. unfold time_time at 1. cbv beta iota.
  unfold bind at 1. unfold insert_data_model.
  cbn [tbl_data_models with_ticks mr_name].
  destruct (existsb _ (tbl_data_models db)) eqn:Ex; [exact Hok|].
  unfold bind at 1. unfold modify at 1. cbv beta iota.
  set (model := mkDataModel name (List.map DataField_of_spec fields) description
                            (clock db (ticks db)) "1.0").
  match goal with |- db_ok (fst (?c ?st)) => set (st1 := st) end.
  assert (Hst : db_ok st1).
  { destruct Hok as (Hl & Hb & (Hn & Hreg & Hrows) & (Hrec1 & Hrec2) & Hlog).
    assert (Hfresh : ~ In name (List.map mr_name (tbl_data_models db)))
      by exact (existsb_key_false mr_name name _ Ex).
    assert (Hnone : data_models db !! name = None).
    { destruct (data_models db !! name) as [m|] eqn:Em; [|reflexivity].
      exfalso. apply Hreg in Em as [Hname Hin]. apply Hfresh.
      rewrite <- Hname. exact (List.in_map mr_name _ _ Hin). }
    split; [exact Hl|]. split; [exact Hb|]. split; [|split; [|exact Hlog]].
    - split; [|split].
      + exact (NoDup_snoc_fresh mr_name name _ (model_row_of model) eq_refl Ex Hn).
      + intros name' model'. subst st1. cbn.
        destruct (decide (name' = name)) as [->|Hne].
        * rewrite lookup_insert_eq. split.
          { intros [= <-]. split; [reflexivity|].
            apply List.in_app_iff. right. left. reflexivity. }
          { intros [Hname Hin]. apply List.in_app_iff in Hin as [Hin|[Hin|[]]].
            - exfalso. apply Hfresh. rewrite <- Hname.
              exact (List.in_map mr_name _ _ Hin).
            - f_equal. exact (model_row_of_inj model model' Hin). }
        * rewrite lookup_insert_ne by congruence. rewrite Hreg. split.
          { intros [Hname Hin]. split; [exact Hname|].
            apply List.in_app_iff. left. exact Hin. }
          { intros [Hname Hin]. split; [exact Hname|].
            apply List.in_app_iff in Hin as [Hin|[Hin|[]]]; [exact Hin|].
            exfalso. apply Hne. rewrite <- Hname.
            exact (eq_sym (f_equal mr_name Hin)). }
      + subst st1. cbn. apply Forall_app. split; [exact Hrows|].
        constructor; [|constructor]. exists model. reflexivity.
    - split; [|exact Hrec2]. subst st1. cbn.
      eapply Forall_impl; [exact Hrec1|].
      intros r (Hi & m & data & Hm & Hv). split; [exact Hi|].
      exists m, data. split; [|exact Hv].
      rewrite lookup_insert_ne; [exact Hm|]. intros ->. congruence. }
  exact (proj1 (keeps_ok_bind (data_models st1) _ _
                  (keeps_ok_add_to_blockchain _ _ _) (fun _ => keeps_ok_ret _ tt)
                  st1 Hst eq_refl)).
Qed.

Lemma add_data_ok (model_name : string) (data : pydict) (db : HyperledgerIntegratedDB) :
  db_ok db -> db_ok (fst (DB.add_data model_name data db)).
Proof.
  intros Hok. unfold DB.add_data. rewrite try_except_fst.
  unfold bind at 1. unfold DB.lookup_model.
  destruct (data_models db !! model_name) as [model|] eqn:Hm; [|exact Hok].
  unfold bind at 1. unfold DB.validated.
  destruct (DB._validate_data data model) as [data' [[]|msg]] eqn:Hv; [|exact Hok].
  unfold bind at 1. unfold uuid4 at 1. cbv beta iota.
  unfold bind at 1. unfold time_time at 1. cbv beta iota.
  unfold bind at 1. unfold insert_data_record.
  cbn [tbl_data_records with_ticks with_draws r_id ticks clock uuids draws].
  destruct (existsb _ (tbl_data_records db)) eqn:Ex; [exact Hok|].
  match goal with |- db_ok (fst (?c ?st)) => set (st1 := st) end.
  assert (Hst : db_ok st1).
  { destruct Hok as (Hl & Hb & Hreg & (Hrec1 & Hrec2) & Hlog).
    split; [exact Hl|]. split; [exact Hb|]. split; [exact Hreg|]. split; [|exact Hlog].
    split.
    - subst st1. cbn. apply Forall_app. split; [exact Hrec1|].
      constructor; [|constructor]. split; [reflexivity|].
      exists model, data. split; [exact Hm|exact Hv].
    - apply (NoDup_snoc_fresh r_id (uuids db (draws db)));
        [reflexivity|exact Ex|exact Hrec2]. }
  refine (proj1 (keeps_ok_bind (data_models st1) _ _
                  (keeps_ok_add_to_blockchain _ _ _) _ st1 Hst eq_refl)).
  intros tid. apply keeps_ok_bind; [|intros _; apply keeps_ok_ret].
  apply keeps_ok_update_data_records; [reflexivity|].
  apply good_record_set_transaction_id.
Qed.


(** No row of the table of blocks has the index of the next block. *)
Lemma block_row_fresh (db : HyperledgerIntegratedDB) :
  ledger_ok (blockchain db) -> blocks_mirrored db ->
  existsb (fun row => Z.eqb (b_block_index row)
                            (Z.of_nat (List.length (chain (blockchain db)))))
          (tbl_blockchain_blocks db) = false.
Proof.
  intros (_ & _ & Hidx & _) Hb. rewrite Hb.
  destruct (existsb _ _) eqn:E; [|reflexivity]. exfalso.
  apply List.existsb_exists in E as (row & Hin & Hrow).
  apply List.in_map_iff in Hin as (b & <- & Hinb).
  apply Z.eqb_eq in Hrow. cbn [b_block_index block_row_of] in Hrow.
  destruct (chain (blockchain db)) as [|g c]; [destruct Hinb|].
  cbn [List.tl] in Hinb.
  apply List.In_nth_error in Hinb as [i Hi].
  assert (Hlt : (i < List.length c)%nat)
    by (apply List.nth_error_Some; rewrite Hi; discriminate).
  specialize (Hidx (S i) b Hi). cbn [List.length] in Hrow. lia.
Qed.

Lemma tl_snoc {A : Type} (l : list A) (x : A) :
  l <> [] -> List.tl (l ++ [x]) = (List.tl l ++ [x])%list.
Proof. destruct l; [congruence|reflexivity]. Qed.

(** What [mine_block] does in a well-formed session once the seal has
    returned. *)
Lemma mine_block_after_seal (fuel : nat) (db : HyperledgerIntegratedDB)
    (block : Block) (bc : Blockchain) (tx : pyval) (txs : list pyval) :
  db_ok db ->
  pending_transactions (blockchain db) = tx :: txs ->
  mine_pending_transactions fuel "system" (clock db (ticks db))
    (clock db (S (ticks db))) (blockchain db) = Some (Ok (block, bc)) ->
  DB.mine_block fuel db
  = Some (with_tbl_blockchain_blocks (tbl_blockchain_blocks db ++ [block_row_of block])
            (with_ticks (S (S (ticks db))) (with_blockchain bc db)),
          Some (DB.mkSummary (index block) (hash block) (timestamp block)
                             (List.length (transactions block)))).
Proof.
  intros (Hl & Hb & _) Hp Es.
  destruct (mine_pending_transactions_inv _ _ _ _ _ _ _ Es) as (Htx & Hidx & _).
  assert (Hfresh : existsb (fun row => Z.eqb (b_block_index row) (index block))
                           (tbl_blockchain_blocks db) = false)
    by (rewrite Hidx; exact (block_row_fresh db Hl Hb)).
  unfold DB.mine_block. rewrite Hp, Es. f_equal.
  unfold try_except, bind at 1, insert_blockchain_block.
  cbn [tbl_blockchain_blocks with_ticks with_blockchain b_block_index].
  rewrite Hfresh.
  unfold bind at 1.
  rewrite update_block_indices_staged.
  - reflexivity.
  - rewrite Htx. exact (proj2 (proj2 (proj2 (proj2 Hl)))).
Qed.

Lemma mine_block_ok (fuel : nat) (db db' : HyperledgerIntegratedDB)
    (r : option DB.block_summary) :
  db_ok db -> DB.mine_block fuel db = Some (db', r) -> db_ok db'.
Proof.
  intros Hok H.
  destruct (pending_transactions (blockchain db)) as [|tx txs] eqn:Hp.
  { unfold DB.mine_block in H. rewrite Hp in H. injection H as <- _. exact Hok. }
  destruct (mine_pending_transactions fuel "system" (clock db (ticks db))
              (clock db (S (ticks db))) (blockchain db))
    as [[[block bc]|msg]|] eqn:Es.
  - rewrite (mine_block_after_seal fuel db block bc tx txs Hok Hp Es) in H.
    injection H as <- _.
    destruct Hok as (Hl & Hb & Hreg & Hrec & Hlog).
    split; [exact (ledger_ok_seal _ _ _ _ _ _ _ Hl Es)|].
    split; [|split; [exact Hreg|split; [exact Hrec|exact Hlog]]].
    destruct (mine_pending_transactions_inv _ _ _ _ _ _ _ Es) as (_ & _ & ->).
    unfold blocks_mirrored. cbn.
    rewrite tl_snoc by exact (proj1 Hl).
    rewrite List.map_app. rewrite Hb. reflexivity.
  - unfold DB.mine_block in H. rewrite Hp, Es in H. injection H as <- _. exact Hok.
  - unfold DB.mine_block in H. rewrite Hp, Es in H. discriminate.
Qed.

Lemma run_mine_ok (fuel : nat) (db : HyperledgerIntegratedDB) :
  db_ok db -> db_ok (run_mine fuel db).
Proof.
  intros H. unfold run_mine.
  destruct (DB.mine_block fuel db) as [[db' r]|] eqn:E; [|exact H].
  exact (mine_block_ok _ _ _ _ H E).
Qed.

Lemma db_item1_ok : db_ok db_item1.
Proof.
  unfold db_item1, db_item.
  apply add_data_ok, run_mine_ok, create_data_model_ok, init_ok.
Qed.

Lemma In_search_data (db : HyperledgerIntegratedDB) (model_name : option string)
    (criteria : option pydict) (r : data_record) :
  In r (DB.search_data model_name criteria db) -> In r (DB.get_all_data model_name db).
Proof.
  unfold DB.search_data. destruct criteria as [[|c cs]|]; try (intros H; exact H).
  intros H. apply List.filter_In in H. exact (proj1 H).
Qed.



(** X15. [mine_block] in a well-formed session with a pending
    transaction, a nonce that meets the target being within reach of the
    search: the call returns the summary of the new block (never [None]):
    index [len(chain)], the hash of the block, the reading of the clock,
    the number of pending transactions. The block holds the pending
    transactions and names the hash of the previous tip; it is appended
    to the chain and its row to the table of blocks; the pending list is
    the reward transaction alone; records, logged transactions and
    registry are as before. *)
Theorem mine_block_returns_summary
    (fuel n : nat) (db : HyperledgerIntegratedDB) (tip : Block) :
  db_ok db ->
  pending_transactions (blockchain db) <> [] ->
  get_latest_block (blockchain db) = Ok tip ->
  meets_target (difficulty (blockchain db))
    (at_nonce n (candidate (blockchain db) (clock db (ticks db)) tip)) = true ->
  (n <= fuel)%nat ->
  exists (db' : HyperledgerIntegratedDB) (block : Block),
    DB.mine_block fuel db
    = Some (db', Some (DB.mkSummary (Z.of_nat (List.length (chain (blockchain db))))
                         (hash block) (clock db (ticks db))
                         (List.length (pending_transactions (blockchain db)))))
    /\ chain (blockchain db') = (chain (blockchain db) ++ [block])%list
    /\ transactions block = pending_transactions (blockchain db)
    /\ previous_hash block = hash tip
    /\ meets_target (difficulty (blockchain db)) block = true
    /\ tbl_blockchain_blocks db' = (tbl_blockchain_blocks db ++ [block_row_of block])%list
    /\ pending_transactions (blockchain db')
       = [reward_transaction "system" (mining_reward (blockchain db))
            (clock db (S (ticks db)))]
    /\ tbl_data_records db' = tbl_data_records db
    /\ tbl_blockchain_transactions db' = tbl_blockchain_transactions db
    /\ data_models db' = data_models db
    /\ db_ok db'.
Proof.
  intros Hok Hne Htip Hm Hle.
  assert (Hp : exists tx txs, pending_transactions (blockchain db) = tx :: txs).
  { destruct (pending_transactions (blockchain db)) as [|tx txs]; [congruence|].
    exists tx, txs. reflexivity. }
  destruct Hp as (tx & txs & Hp).
  destruct (mine_pending_transactions_returns fuel n "system" (clock db (ticks db))
              (clock db (S (ticks db))) (blockchain db) tip Htip Hm Hle) as [k Es].
  set (block := at_nonce k (candidate (blockchain db) (clock db (ticks db)) tip)) in *.
  assert (Hrun := mine_block_after_seal fuel db block _ tx txs Hok Hp Es).
  destruct (mine_pending_transactions_shape _ _ _ _ _ _ _ Es)
    as (tip' & k' & Htip' & _ & _ & Hmeets & _ & _).
  eexists. exists block.
  split.
  { rewrite Hrun. reflexivity. }
  split; [reflexivity|].
  split; [reflexivity|].
  split; [reflexivity|].
  split; [exact Hmeets|].
  split; [reflexivity|].
  split; [reflexivity|].
  split; [reflexivity|].
  split; [reflexivity|].
  split; [reflexivity|].
  refine (mine_block_ok fuel db _ _ Hok Hrun).
Qed.

(** The session of [db_item1]: the second block, sealed at nonce 15,
    holds the reward of the first and the record. *)
Lemma mine_block_returns_summary_witness :
  exists (db' : HyperledgerIntegratedDB) (s : DB.block_summary),
    DB.mine_block 100 db_item1 = Some (db', Some s)
    /\ DB.s_index s = 2
    /\ DB.s_transaction_count s = 2%nat.
Proof.
  assert (Hne : pending_transactions (blockchain db_item1) <> [])
    by (vm_compute; discriminate).
  assert (E : exists tip,
             get_latest_block (blockchain db_item1) = Ok tip
             /\ meets_target (difficulty (blockchain db_item1))
                  (at_nonce 15 (candidate (blockchain db_item1)
                                  (clock db_item1 (ticks db_item1)) tip)) = true).
  { eexists. split; [vm_compute; reflexivity|]. vm_compute. reflexivity. }
  destruct E as (tip & Htip & Hm).
  assert (Hle : (15 <= 100)%nat) by lia.
  destruct (mine_block_returns_summary 100 15 db_item1 tip db_item1_ok Hne Htip Hm Hle)
    as (db' & block & Hrun & _).
  exists db'. eexists. split; [exact Hrun|].
  split; [vm_compute; reflexivity|]. vm_compute. reflexivity.
Defined.

(** X16. What a well-formed session shows to its readers.
    [is_chain_valid] returns true; the table of blocks has one row less
    than the chain has blocks; [get_data] returns the row of the id asked
    for; and every record that [get_data], [get_all_data] and
    [search_data] return has no block index (sealing never records one)
    and holds a payload that came out of the validation against the model
    registered under the record's model name. *)
Theorem db_ok_observed (db : HyperledgerIntegratedDB) :
  db_ok db ->
  is_chain_valid (blockchain db) = true
  /\ S (List.length (tbl_blockchain_blocks db)) = List.length (chain (blockchain db))
  /\ (forall (id : string) (r : data_record),
        DB.get_data id db = Some r -> r_id r = id /\ good_record (data_models db) r)
  /\ (forall (model_name : option string) (r : data_record),
        In r (DB.get_all_data model_name db) -> good_record (data_models db) r)
  /\ (forall (model_name : option string) (criteria : option pydict) (r : data_record),
        In r (DB.search_data model_name criteria db) -> good_record (data_models db) r).
Proof.
  intros ((Hne & Hv & _) & Hb & _ & (Hrec & _) & _).
  assert (Hall : forall model_name r,
             In r (DB.get_all_data model_name db) -> good_record (data_models db) r).
  { intros model_name r Hin. apply In_get_all_data in Hin as [Hin _].
    exact (proj1 (List.Forall_forall _ _) Hrec r Hin). }
  split; [apply is_chain_valid_links, verify_stated_links; exact Hv|].
  split.
  { rewrite Hb, List.length_map. destruct (chain (blockchain db)); [congruence|].
    reflexivity. }
  split.
  { intros id r Hget. apply List.find_some in Hget as [Hin Hid].
    split; [apply String.eqb_eq; exact Hid|].
    exact (proj1 (List.Forall_forall _ _) Hrec r Hin). }
  split; [exact Hall|].
  intros model_name criteria r Hin. exact (Hall model_name r (In_search_data _ _ _ _ Hin)).
Qed.

(** The session of [db_item1] verifies, and its record has no block
    index. *)
Lemma db_ok_observed_witness :
  is_chain_valid (blockchain db_item1) = true
  /\ option_map r_blockchain_block_index (DB.get_data (sample_uuids 1) db_item1)
     = Some None.
Proof.
  destruct (db_ok_observed db_item1 db_item1_ok) as (Hvalid & _ & Hget & _).
  split; [exact Hvalid|].
  destruct (DB.get_data (sample_uuids 1) db_item1) as [r|] eqn:E.
  - destruct (Hget _ _ E) as (_ & Hidx & _). cbn [option_map]. rewrite Hidx. reflexivity.
  - exfalso. revert E. vm_compute. discriminate.
Defined.

(** ** Validation and the keys of the payload *)

Lemma dict_set_agree (P : string -> Prop) (n : string) (v : pyval) (d1 d2 : pydict) :
  agree_on P d1 d2 -> agree_on P (dict_set n v d1) (dict_set n v d2).
Proof.
  intros H k Hk. destruct (String.eqb k n) eqn:E.
  - apply String.eqb_eq in E. subst k. rewrite !dict_get_dict_set_same. reflexivity.
  - apply String.eqb_neq in E. rewrite !dict_get_dict_set_other by exact E.
    exact (H k Hk).
Qed.

(** A turn of the loop reads the payload under the name of its field
    only. *)
Lemma validate_field_agree (P : string -> Prop) (field : DataField) (d1 d2 : pydict) :
  agree_on P d1 d2 -> P (f_name field) ->
  snd (DB.validate_field field d1) = snd (DB.validate_field field d2)
  /\ agree_on P (fst (DB.validate_field field d1)) (fst (DB.validate_field field d2)).
Proof.
  intros H Hn. assert (Hg := H _ Hn).
  unfold DB.validate_field, dict_mem. cbv zeta. rewrite Hg.
  destruct (dict_get (f_name field) d2) as [v|] eqn:E2; cbn [negb].
  - rewrite !andb_false_r. cbn [andb]. rewrite Hg, E2. split; [reflexivity|exact H].
  - rewrite !andb_true_r. destruct (f_required field); [split; [reflexivity|exact H]|].
    destruct (DB.is_none (f_default field)); cbn [negb andb].
    + rewrite Hg, E2. split; [reflexivity|exact H].
    + rewrite !dict_get_dict_set_same. split; [reflexivity|].
      apply dict_set_agree. exact H.
Qed.

Lemma validate_fields_agree (P : string -> Prop) (fields : list DataField) :
  forall d1 d2 : pydict,
    agree_on P d1 d2 ->
    (forall field, In field fields -> P (f_name field)) ->
    snd (DB.validate_fields fields d1) = snd (DB.validate_fields fields d2)
    /\ agree_on P (fst (DB.validate_fields fields d1)) (fst (DB.validate_fields fields d2)).
Proof.
  induction fields as [|field fields IH]; intros d1 d2 H HP.
  - split; [reflexivity|exact H].
  - cbn [DB.validate_fields].
    destruct (validate_field_agree P field d1 d2 H (HP field (or_introl eq_refl)))
      as [Hr Ha].
    destruct (DB.validate_field field d1) as [d1' r1].
    destruct (DB.validate_field field d2) as [d2' r2].
    cbn [fst snd] in Hr, Ha. subst r2.
    destruct r1 as [u|msg].
    + apply IH; [exact Ha|]. intros f Hf. apply HP. right. exact Hf.
    + split; [reflexivity|exact Ha].
Qed.

(** X17. Validation does not depend on the order of the keys: on two
    payloads that hold the same entries, [_validate_data] raises or
    passes alike, with the same message, and leaves payloads that hold
    the same entries. *)
Theorem validate_data_order_independent (model : DataModel) (data1 data2 : pydict) :
  same_entries data1 data2 ->
  snd (DB._validate_data data1 model) = snd (DB._validate_data data2 model)
  /\ same_entries (fst (DB._validate_data data1 model))
                  (fst (DB._validate_data data2 model)).
Proof.
  intros H.
  destruct (validate_fields_agree (fun _ => True) (m_fields model) data1 data2
              (fun k _ => H k) (fun _ _ => I)) as [Hr Ha].
  split; [exact Hr|]. intros k. exact (Ha k I).
Qed.

(** The payload [{a: 2, b: 9}] of the model [Pair] and the same entries
    with [b] first. *)
Lemma validate_data_order_independent_witness :
  snd (DB._validate_data [("a", PyInt 2); ("b", PyInt 9)] pair_model)
  = snd (DB._validate_data [("b", PyInt 9); ("a", PyInt 2)] pair_model).
Proof.
  refine (proj1 (validate_data_order_independent pair_model
                   [("a", PyInt 2); ("b", PyInt 9)] [("b", PyInt 9); ("a", PyInt 2)] _)).
  intros k. cbn [dict_get].
  destruct (String.eqb k "a") eqn:Ea, (String.eqb k "b") eqn:Eb; try reflexivity.
  apply String.eqb_eq in Ea, Eb. congruence.
Defined.

(** X18. Keys the model does not declare are ignored by the validation
    and kept: setting such a key in the payload changes neither whether
    [_validate_data] raises nor the message, and the payload comes out
    with the key set and every other key as without it. *)
Theorem validate_data_ignores_undeclared
    (model : DataModel) (data : pydict) (k : string) (v : pyval) :
  ~ In k (field_names model) ->
  snd (DB._validate_data (dict_set k v data) model) = snd (DB._validate_data data model)
  /\ dict_get k (fst (DB._validate_data (dict_set k v data) model)) = Some v
  /\ forall k' : string,
       k' <> k ->
       dict_get k' (fst (DB._validate_data (dict_set k v data) model))
       = dict_get k' (fst (DB._validate_data data model)).
Proof.
  intros Hk. unfold DB._validate_data, field_names in *.
  destruct (validate_fields_agree (fun k' => k' <> k) (m_fields model)
              (dict_set k v data) data) as [Hr Ha].
  { intros k' Hk'. apply dict_get_dict_set_other. exact Hk'. }
  { intros field Hin E. apply Hk. rewrite <- E. apply List.in_map. exact Hin. }
  split; [exact Hr|]. split; [|exact Ha].
  destruct (DB.validate_fields (m_fields model) (dict_set k v data)) as [out r] eqn:E.
  cbn [fst]. rewrite (validate_fields_frame _ _ _ _ k E Hk).
  apply dict_get_dict_set_same.
Qed.

(** The model [Pair] and the payload [{a: 2}] with the undeclared key
    [c]. *)
Lemma validate_data_ignores_undeclared_witness :
  DB._validate_data [("a", PyInt 2); ("c", PyStr "x")] pair_model
  = ([("a", PyInt 2); ("c", PyStr "x"); ("b", PyInt 5)], Ok tt)
  /\ snd (DB._validate_data (dict_set "c" (PyStr "x") [("a", PyInt 2)]) pair_model)
     = snd (DB._validate_data [("a", PyInt 2)] pair_model).
Proof.
  split; [reflexivity|].
  refine (proj1 (validate_data_ignores_undeclared pair_model [("a", PyInt 2)] "c"
                   (PyStr "x") _)).
  cbn. intros [H|[H|[]]]; discriminate.
Defined.

(** ** The API wrapper *)

(** A turn of the loop on a payload that holds a value of the right type
    under the name of the field. *)
Lemma validate_field_present (field : DataField) (data : pydict) (v : pyval) :
  dict_get (f_name field) data = Some v ->
  DB.check_type field v = Ok tt ->
  DB.validate_field field data = (data, Ok tt).
Proof.
  intros Hg Hc. unfold DB.validate_field, dict_mem. cbv zeta. rewrite Hg.
  cbn [negb]. rewrite !andb_false_r. cbn [andb]. rewrite Hg, Hc. reflexivity.
Qed.

(** A validated payload patched with values of the right types passes
    the validation as it is. *)
Lemma validate_fields_patched (fields : list DataField) :
  forall (data data' data2 : pydict) (u : unit),
    List.NoDup (List.map f_name fields) ->
    DB.validate_fields fields data = (data', Ok u) ->
    (forall field, In field fields ->
       dict_get (f_name field) data2 = dict_get (f_name field) data'
       \/ exists v, dict_get (f_name field) data2 = Some v
                    /\ DB.check_type field v = Ok tt) ->
    DB.validate_fields fields data2 = (data2, Ok tt).
Proof.
  induction fields as [|field fields IH]; intros data data' data2 u Hnd H Hagree.
  - reflexivity.
  - cbn [DB.validate_fields] in *. cbn [List.map] in Hnd.
    inversion Hnd as [|? ? Hnotin Hnd']; subst.
    destruct (DB.validate_field field data) as [d1 [u1|msg]] eqn:E1; [|discriminate].
    assert (Hsame : dict_get (f_name field) data' = dict_get (f_name field) d1)
      by exact (validate_fields_frame fields d1 data' (Ok u) _ H Hnotin).
    assert (Hstep : DB.validate_field field data2 = (data2, Ok tt)).
    { destruct (Hagree field (or_introl eq_refl)) as [Hsame2|(v & Hv & Hc)].
      - apply (validate_field_stable field data d1 data2 u1 E1).
        rewrite Hsame2. exact Hsame.
      - exact (validate_field_present field data2 v Hv Hc). }
    rewrite Hstep. apply (IH d1 data' data2 u Hnd' H).
    intros f Hf. apply Hagree. right. exact Hf.
Qed.

(** X19. [update_user_status] on a record of a well-formed session
    whose model has distinct field names and takes a boolean under
    [is_active] (or declares no such field), the id drawn for the
    transaction not being taken: the call returns True and the record
    keeps every entry of its payload but [is_active], which is set to the
    flag; no default is inserted; [updated_at] is the reading of the
    clock. On an id without a row the call returns False and changes
    nothing. *)
Theorem update_user_status_keeps_fields
    (db : HyperledgerIntegratedDB) (user_id : string) (is_active : bool) :
  (DB.get_data user_id db = None ->
   API.update_user_status user_id is_active db = (db, false))
  /\ (forall (row : data_record) (model : DataModel),
        db_ok db ->
        DB.get_data user_id db = Some row ->
        data_models db !! r_model_name row = Some model ->
        List.NoDup (field_names model) ->
        (forall field, In field (m_fields model) -> f_name field = "is_active" ->
           DB.check_type field (PyBool is_active) = Ok tt) ->
        transaction_row_exists (uuids db (draws db)) db = false ->
        exists db' : HyperledgerIntegratedDB,
          API.update_user_status user_id is_active db = (db', true)
          /\ DB.get_data user_id db'
             = Some (set_data (dict_set "is_active" (PyBool is_active) (r_data row))
                              (clock db (ticks db)) row)).
Proof.
  split.
  - intros H. unfold API.update_user_status. rewrite H. reflexivity.
  - intros row model Hok Hget Hm Hnd Hflag Hfresh.
    assert (Hgood : good_record (data_models db) row).
    { destruct Hok as (_ & _ & _ & (Hrec & _) & _).
      apply List.find_some in Hget as [Hin _].
      exact (proj1 (List.Forall_forall _ _) Hrec row Hin). }
    destruct Hgood as (_ & model' & data0 & Hm' & Hv0).
    rewrite Hm in Hm'. injection Hm' as <-.
    set (data2 := dict_set "is_active" (PyBool is_active) (r_data row)).
    assert (Hv : DB._validate_data data2 model = (data2, Ok tt)).
    { apply (validate_fields_patched (m_fields model) data0 (r_data row) data2 tt Hnd Hv0).
      intros field Hin. destruct (String.eqb (f_name field) "is_active") eqn:E.
      - apply String.eqb_eq in E. right. exists (PyBool is_active).
        split; [rewrite E; apply dict_get_dict_set_same|exact (Hflag field Hin E)].
      - apply String.eqb_neq in E. left. apply dict_get_dict_set_other. exact E. }
    destruct (update_data_effect db user_id data2 data2 row Hget) as (db' & ok & Hup & Hrow & _ & Hokay).
    { rewrite Hm. exists tt. exact Hv. }
    exists db'. unfold API.update_user_status. rewrite Hget. fold data2.
    rewrite Hup, (Hokay Hfresh). split; [reflexivity|exact Hrow].
Qed.

(** X20. [add_user] with the model [User] of [create_user_model]
    registered. When [metadata] is None, another false value, a dict or
    a list, and the two ids drawn are not taken, the call returns the
    record id and the record holds the six entries of the payload, with
    [is_active] true and [{}] for a false [metadata]; the [created_at]
    of the payload is an earlier reading of the clock than the
    [created_at] of the row. When [metadata] is any other true value,
    the call returns None and only the clock has moved. *)
Theorem add_user_stores
    (db : HyperledgerIntegratedDB) (username email password_hash : string)
    (metadata : pyval) (model : DataModel) :
  data_models db !! "User" = Some model ->
  m_fields model = List.map DataField_of_spec user_field_specs ->
  (is_json (or_empty_dict metadata) = true ->
   record_row_exists (uuids db (draws db)) db = false ->
   transaction_row_exists (uuids db (S (draws db))) db = false ->
   exists db' : HyperledgerIntegratedDB,
     API.add_user username email password_hash metadata db
     = (db', Some (uuids db (draws db)))
     /\ DB.get_data (uuids db (draws db)) db'
        = Some (mkRecord (uuids db (draws db)) "User"
                  (user_payload username email password_hash metadata
                                (clock db (ticks db)))
                  (clock db (S (ticks db))) (clock db (S (ticks db)))
                  (Some (uuids db (S (draws db)))) None))
  /\ (is_json (or_empty_dict metadata) = false ->
      API.add_user username email password_hash metadata db
      = (with_ticks (S (ticks db)) db, None)).
Proof.
  intros Hm Hfields.
  unfold is_json.
  assert (Hv : DB._validate_data
                 (user_payload username email password_hash metadata (clock db (ticks db)))
                 model
               = (user_payload username email password_hash metadata (clock db (ticks db)),
                  if is_dict (or_empty_dict metadata) || is_list (or_empty_dict metadata)
                  then Ok tt
                  else Raise "Field 'metadata' must be a JSON object or array")).
  { unfold DB._validate_data, user_payload. rewrite Hfields.
    set (meta := or_empty_dict metadata).
    cbn. destruct (is_dict meta || is_list meta); reflexivity. }
  unfold API.add_user. fold (user_payload username email password_hash metadata
                               (clock db (ticks db))).
  set (payload := user_payload username email password_hash metadata
                    (clock db (ticks db))) in *.
  split.
  - intros Hjson Hr Ht. rewrite Hjson in Hv.
    unfold record_row_exists, transaction_row_exists in Hr, Ht.
    unfold DB.add_data, try_except.
    unfold bind at 1. unfold DB.lookup_model.
    cbn [data_models with_ticks]. rewrite Hm.
    unfold bind at 1. unfold DB.validated. rewrite Hv.
    unfold DB._add_to_blockchain, insert_data_record, insert_blockchain_transaction,
      update_data_records, modify, ret, bind, uuid4, time_time.
    cbn. rewrite Hr. cbn. rewrite Ht. cbn.
    eexists. split; [reflexivity|].
    unfold DB.get_data, select_data_record. cbn.
    rewrite (select_after_update (uuids db (draws db))
               (set_transaction_id (uuids db (S (draws db)))) _
               (mkRecord (uuids db (draws db)) "User" payload
                         (clock db (S (ticks db))) (clock db (S (ticks db))) None None)).
    + reflexivity.
    + reflexivity.
    + apply find_app_fresh; [exact Hr|reflexivity].
  - intros Hjson. rewrite Hjson in Hv.
    unfold DB.add_data, try_except.
    unfold bind at 1. unfold DB.lookup_model.
    cbn [data_models with_ticks]. rewrite Hm.
    unfold bind at 1. unfold DB.validated. rewrite Hv. reflexivity.
Qed.




(** The users [alice] and [al], added in this order: asked for [al],
    [get_user_by_username] returns [alice]. *)
Example get_user_by_username_inexact :
  option_map (fun user => dict_get "username" (r_data user))
             (API.get_user_by_username "al" db_users)
  = Some (Some (PyStr "alice")).
Proof. vm_compute. reflexivity. Qed.

Lemma add_user_ok (username email password_hash : string) (metadata : pyval)
    (db : HyperledgerIntegratedDB) :
  db_ok db -> db_ok (fst (API.add_user username email password_hash metadata db)).
Proof. intros H. unfold API.add_user. apply add_data_ok. exact H. Qed.

Lemma db_users_ok : db_ok db_users.
Proof.
  unfold db_users, db_user_model, API.create_user_model.
  apply add_user_ok, add_user_ok, create_data_model_ok, init_ok.
Qed.

Lemma user_model_names (now : pyfloat) : List.NoDup (field_names (user_model now)).
Proof.
  repeat constructor; simpl; intuition discriminate.
Qed.

Lemma user_model_flag (now : pyfloat) (b : bool) (field : DataField) :
  In field (m_fields (user_model now)) ->
  f_name field = "is_active" ->
  DB.check_type field (PyBool b) = Ok tt.
Proof.
  cbn. intros [<-|[<-|[<-|[<-|[<-|[<-|[]]]]]]]; cbn; intros Hn;
    try discriminate Hn; reflexivity.
Qed.

(** The user [alice] of [db_users] set inactive: the flag is false and
    the address is kept. *)
Lemma update_user_status_keeps_fields_witness :
  exists db' : HyperledgerIntegratedDB,
    API.update_user_status alice_id false db_users = (db', true)
    /\ option_map (fun r => (dict_get "is_active" (r_data r), dict_get "email" (r_data r)))
                  (DB.get_data alice_id db')
       = Some (Some (PyBool false), Some (PyStr "alice@example.com")).
Proof.
  assert (E : exists row,
             DB.get_data alice_id db_users = Some row
             /\ r_model_name row = "User"
             /\ r_data row
                = user_payload "alice" "alice@example.com" "hash1"
                               (PyDict [("plan", PyStr "free")]) (t_at 4)).
  { eexists. split; [vm_compute; reflexivity|]. split; reflexivity. }
  destruct E as (row & Hget & Hname & Hdata).
  assert (Hm : data_models db_users !! r_model_name row = Some (user_model (t_at 1)))
    by (rewrite Hname; vm_compute; reflexivity).
  assert (Hfresh : transaction_row_exists (uuids db_users (draws db_users)) db_users
                   = false) by (vm_compute; reflexivity).
  destruct (proj2 (update_user_status_keeps_fields db_users alice_id false)
                  row (user_model (t_at 1)) db_users_ok Hget Hm
                  (user_model_names (t_at 1)) (user_model_flag (t_at 1) false) Hfresh)
    as (db' & Hup & Hrow).
  exists db'. split; [exact Hup|].
  rewrite Hrow. cbn [option_map set_data r_data]. rewrite Hdata. reflexivity.
Defined.

(** The user [alice] added after [create_user_model]. *)
Lemma add_user_stores_witness :
  exists db' : HyperledgerIntegratedDB,
    API.add_user "alice" "alice@example.com" "hash1" (PyDict [("plan", PyStr "free")])
                 db_user_model
    = (db', Some alice_id)
    /\ option_map r_data (DB.get_data alice_id db')
       = Some (user_payload "alice" "alice@example.com" "hash1"
                            (PyDict [("plan", PyStr "free")]) (t_at 4)).
Proof.
  assert (Hm : data_models db_user_model !! "User" = Some (user_model (t_at 1)))
    by (vm_compute; reflexivity).
  assert (Hr : record_row_exists (uuids db_user_model (draws db_user_model))
                                 db_user_model = false) by (vm_compute; reflexivity).
  assert (Ht : transaction_row_exists (uuids db_user_model (S (draws db_user_model)))
                                      db_user_model = false) by (vm_compute; reflexivity).
  destruct (proj1 (add_user_stores db_user_model "alice" "alice@example.com" "hash1"
                     (PyDict [("plan", PyStr "free")]) (user_model (t_at 1)) Hm eq_refl)
                  eq_refl Hr Ht)
    as (db' & Hadd & Hget).
  assert (Hid : uuids db_user_model (draws db_user_model) = alice_id)
    by (vm_compute; reflexivity).
  assert (Hnow : clock db_user_model (ticks db_user_model) = t_at 4)
    by (vm_compute; reflexivity).
  rewrite Hid in Hadd, Hget. rewrite Hnow in Hget.
  exists db'. split; [exact Hadd|]. rewrite Hget. reflexivity.
Defined.

(** ** Opening an existing file *)

Lemma DataField_of_kwargs_asdict (field : DataField) :
  DataField_of_kwargs (asdict field) = Built field.
Proof. destruct field. reflexivity. Qed.

Lemma build_fields_asdict (fields : list DataField) :
  build_fields (List.map asdict fields) = Built fields.
Proof.
  induction fields as [|field fields IH]; cbn [build_fields List.map].
  - reflexivity.
  - rewrite DataField_of_kwargs_asdict, IH. reflexivity.
Qed.

Lemma from_dict_model_row (now : pyfloat) (model : DataModel) :
  from_dict now (mr_schema_data (model_row_of model)) = Built model
  /\ reads_clock (mr_schema_data (model_row_of model)) = false.
Proof.
  split; [|reflexivity].
  destruct model as [n fs d c v]. unfold from_dict, model_row_of, to_dict.
  cbn [mr_schema_data m_name m_fields m_description m_created_at m_version].
  cbn [dict_get String.eqb Ascii.eqb Bool.eqb iterate DB.get_or_none].
  rewrite build_fields_asdict. reflexivity.
Qed.

Lemma load_models_rows (models : list DataModel) :
  forall db : HyperledgerIntegratedDB,
    load_models (List.map model_row_of models) db
    = Some (with_data_models
              (fold_left (fun ms m => <[m_name m := m]> ms) models (data_models db)) db,
            Ok tt).
Proof.
  induction models as [|m models IH]; intros db; cbn [load_models List.map fold_left].
  - destruct db. reflexivity.
  - destruct (from_dict_model_row (clock db (ticks db)) m) as [-> ->].
    rewrite IH. reflexivity.
Qed.

Lemma rows_of_models (rows : list model_row) :
  Forall (fun row => exists model : DataModel, row = model_row_of model) rows ->
  exists models : list DataModel, rows = List.map model_row_of models.
Proof.
  induction 1 as [|row rows [m ->] _ [models ->]].
  - exists []. reflexivity.
  - exists (m :: models). reflexivity.
Qed.

Lemma lookup_fold_models (models : list DataModel) :
  forall (ms : gmap string DataModel) (name : string) (m : DataModel),
    List.NoDup (List.map m_name models) ->
    fold_left (fun ms m => <[m_name m := m]> ms) models ms !! name = Some m
    <-> (m_name m = name /\ In m models)
        \/ (~ In name (List.map m_name models) /\ ms !! name = Some m).
Proof.
  induction models as [|a models IH]; intros ms name m Hnd; cbn [fold_left List.map In].
  - split; [intros H; right; split; [intros []|exact H]|].
    intros [[_ []]|[_ H]]. exact H.
  - inversion Hnd as [|? ? Hnotin Hnd']; subst.
    rewrite (IH _ name m Hnd').
    destruct (decide (name = m_name a)) as [->|Hne].
    + rewrite lookup_insert_eq. split.
      * intros [[Hn Hin]|[Hno Heq]].
        -- left. split; [exact Hn|right; exact Hin].
        -- injection Heq as <-. left. split; [reflexivity|left; reflexivity].
      * intros [[Hn [->|Hin]]|[Hno _]].
        -- right. split; [exact Hnotin|reflexivity].
        -- left. split; [exact Hn|exact Hin].
        -- exfalso. apply Hno. left. reflexivity.
    + rewrite lookup_insert_ne by congruence. split.
      * intros [[Hn Hin]|[Hno Heq]].
        -- left. split; [exact Hn|right; exact Hin].
        -- right. split; [|exact Heq]. intros [E|Hin]; [congruence|exact (Hno Hin)].
      * intros [[Hn [->|Hin]]|[Hno Heq]].
        -- congruence.
        -- left. split; [exact Hn|exact Hin].
        -- right. split; [|exact Heq]. intros Hin. apply Hno. right. exact Hin.
Qed.

(** The registry the first loop builds from the rows of a well-formed
    session is the registry of that session. *)
Lemma registry_reloaded (db : HyperledgerIntegratedDB) (models : list DataModel) :
  registry_mirrored db ->
  tbl_data_models db = List.map model_row_of models ->
  fold_left (fun ms m => <[m_name m := m]> ms) models ∅ = data_models db.
Proof.
  intros (Hn & Hreg & _) Hrows. rewrite Hrows in Hn, Hreg.
  rewrite List.map_map in Hn.
  apply map_eq. intros name. apply option_eq. intros m.
  rewrite (lookup_fold_models models ∅ name m Hn), Hreg, lookup_empty.
  split.
  - intros [[Hname Hin]|[_ H]]; [|discriminate].
    split; [exact Hname|]. apply List.in_map. exact Hin.
  - intros [Hname Hin]. left. split; [exact Hname|].
    apply List.in_map_iff in Hin as (m' & E & Hin).
    apply model_row_of_inj in E. subst m'. exact Hin.
Qed.

Lemma order_by_block_index_ascending (l : list block_row) :
  ascending l -> order_by_block_index l = l.
Proof.
  unfold order_by_block_index.
  induction l as [|r l IH]; intros H; cbn [fold_right]; [reflexivity|].
  destruct l as [|r' l'].
  - reflexivity.
  - destruct H as [Hle H]. rewrite (IH H). cbn [insert_by_block_index].
    apply Z.leb_le in Hle. rewrite Hle. reflexivity.
Qed.

Lemma ascending_rows (l : list Block) :
  forall k : nat,
    (forall (i : nat) (b : Block), nth_error l i = Some b -> index b = Z.of_nat (k + i)) ->
    ascending (List.map block_row_of l).
Proof.
  induction l as [|a l IH]; intros k H; [exact I|].
  destruct l as [|b l']; [exact I|].
  cbn [List.map ascending]. split.
  - cbn [block_row_of b_block_index].
    rewrite (H 0%nat a eq_refl), (H 1%nat b eq_refl). lia.
  - apply (IH (S k)). intros i c Hc.
    rewrite (H (S i) c Hc). f_equal. lia.
Qed.

Lemma load_blocks_app (rows : list block_row) :
  forall bc : Blockchain,
    fold_left (fun bc row => with_chain (chain bc ++ [block_of_row row]) bc) rows bc
    = with_chain (chain bc ++ List.map block_of_row rows) bc.
Proof.
  induction rows as [|row rows IH]; intros bc; cbn [fold_left List.map].
  - rewrite List.app_nil_r. destruct bc. reflexivity.
  - rewrite IH. unfold with_chain. cbn [chain difficulty pending_transactions mining_reward].
    rewrite <- List.app_assoc. reflexivity.
Qed.

Lemma block_of_row_of (b : Block) : block_of_row (block_row_of b) = b.
Proof. destruct b. reflexivity. Qed.

Lemma blocks_of_rows (l : list Block) :
  List.map block_of_row (List.map block_row_of l) = l.
Proof.
  induction l as [|b l IH]; cbn [List.map]; [reflexivity|].
  rewrite block_of_row_of, IH. reflexivity.
Qed.

(** The state [__init__] builds on the file of a well-formed session. *)
Lemma reopen_state (d : Z) (clock : nat -> pyfloat) (uuids : nat -> string)
    (db : HyperledgerIntegratedDB) :
  db_ok db ->
  reopen d clock uuids db
  = Some (mkDB (mkBlockchain (new_Block 0 [] (clock O) "0" 0
                                :: List.tl (chain (blockchain db))) d [] 10)
               (data_models db) (tbl_data_models db) (tbl_data_records db)
               (tbl_blockchain_transactions db) (tbl_blockchain_blocks db)
               clock 1%nat uuids O).
Proof.
  intros ((_ & _ & Hidx & _) & Hb & Hreg & _).
  destruct (rows_of_models _ (proj2 (proj2 Hreg))) as [models Hrows].
  assert (Hms := registry_reloaded db models Hreg Hrows).
  unfold reopen, _load_existing_data. cbn [tbl_data_models].
  rewrite Hrows, load_models_rows. cbn [data_models]. rewrite Hms.
  f_equal. unfold load_blocks.
  cbn [tbl_blockchain_blocks with_data_models blockchain].
  rewrite Hb.
  rewrite order_by_block_index_ascending.
  2:{ apply (ascending_rows _ 1). intros i b Hi.
      destruct (chain (blockchain db)) as [|g c]; [destruct i; discriminate|].
      exact (Hidx (S i) b Hi). }
  rewrite load_blocks_app, blocks_of_rows.
  unfold with_blockchain, with_chain, new_Blockchain.
  cbn. rewrite <- Hrows, <- Hb. reflexivity.
Qed.

(** X22. [from_dict] undoes [to_dict]: from the dict a model is stored
    as, [from_dict] builds that model again, fields, defaults and
    [created_at] included, and does not read the clock. *)
Theorem from_dict_to_dict (now : pyfloat) (model : DataModel) :
  from_dict now (to_dict model) = Built model
  /\ reads_clock (to_dict model) = false.
Proof.
  split.
  - destruct model as [n fs d c v]. unfold from_dict, to_dict.
    cbn [m_name m_fields m_description m_created_at m_version].
    cbn [dict_get String.eqb Ascii.eqb Bool.eqb iterate DB.get_or_none].
    assert (Hfs : build_fields (List.map asdict fs) = Built fs).
    { induction fs as [|f fs IH]; cbn [build_fields List.map]; [reflexivity|].
      rewrite IH. destruct f. reflexivity. }
    rewrite Hfs. reflexivity.
  - destruct model. reflexivity.
Qed.



(** X24. After the file of a well-formed session has been opened
    again, [is_chain_valid] returns true only if no block had been
    sealed or the new genesis block has the hash of the old one: the
    first stored block names the hash of the genesis block of the session
    that sealed it, and the genesis block is made anew, from the reading
    of the clock, each time the file is opened. *)
Theorem reopen_breaks_verification
    (d : Z) (clock : nat -> pyfloat) (uuids : nat -> string)
    (db db' : HyperledgerIntegratedDB) (g : Block) :
  db_ok db ->
  reopen d clock uuids db = Some db' ->
  List.hd_error (chain (blockchain db)) = Some g ->
  is_chain_valid (blockchain db') = true
  <-> (tbl_blockchain_blocks db = []
       \/ hash (new_Block 0 [] (clock O) "0" 0) = hash g).
Proof.
  intros Hok Hre Hg.
  rewrite (reopen_state d clock uuids db Hok) in Hre. injection Hre as <-.
  destruct Hok as ((_ & Hv & _) & Hb & _). unfold blocks_mirrored in Hb.
  rewrite is_chain_valid_links. cbn [blockchain chain].
  destruct (chain (blockchain db)) as [|g0 rest]; [discriminate Hg|].
  injection Hg as ->. cbn [List.tl] in *. rewrite Hb.
  set (g' := new_Block 0 [] (clock O) "0" 0).
  split.
  - intros Hlinks. destruct rest as [|b1 rest']; [left; reflexivity|]. right.
    destruct (Hlinks 1%nat b1 (le_n 1) eq_refl) as (_ & p & Hp & Hprev).
    injection Hp as <-.
    destruct (Hv 1%nat b1 eq_refl) as (_ & [E|(p & Hp & Hprev')]); [discriminate E|].
    injection Hp as <-. congruence.
  - intros Hcase i b Hi Hb'.
    destruct i as [|j]; [lia|]. cbn [nth_error] in Hb'.
    destruct Hcase as [Hnone|Hhash].
    { destruct rest; [destruct j; discriminate Hb'|discriminate Hnone]. }
    destruct (Hv (S j) b Hb') as (Hh & [E|(p & Hp & Hprev)]); [discriminate E|].
    split; [exact Hh|].
    cbn [Nat.sub] in *. rewrite Nat.sub_0_r in *.
    destruct j as [|j'].
    + injection Hp as <-. exists g'. split; [reflexivity|congruence].
    + exists p. split; [exact Hp|exact Hprev].
Qed.

(** The file of [db_item1], which holds one sealed block, opened at a
    later time: verification fails. *)
Lemma reopen_breaks_verification_witness :
  exists db' : HyperledgerIntegratedDB,
    reopen 1 t_later sample_uuids db_item1 = Some db'
    /\ is_chain_valid (blockchain db_item1) = true
    /\ is_chain_valid (blockchain db') = false.
Proof.
  assert (Hre := reopen_state 1 t_later sample_uuids db_item1 db_item1_ok).
  eexists. split; [exact Hre|].
  split; [vm_compute; reflexivity|].
  assert (Hg : exists g, List.hd_error (chain (blockchain db_item1)) = Some g
                         /\ hash (new_Block 0 [] (t_later O) "0" 0) <> hash g).
  { eexists. split; [vm_compute; reflexivity|]. vm_compute. discriminate. }
  destruct Hg as (g & Hg & Hne).
  assert (Hrows : tbl_blockchain_blocks db_item1 <> [])
    by (vm_compute; discriminate).
  destruct (is_chain_valid (blockchain _)) eqn:E; [|reflexivity].
  apply (reopen_breaks_verification 1 t_later sample_uuids db_item1 _ g
           db_item1_ok Hre Hg) in E.
  destruct E as [E|E]; [exact (False_ind _ (Hrows E))|exact (False_ind _ (Hne E))].
Defined.
